(** * mediapod: asset lifecycle, upload completion and the video transcode pipeline

    A shallow embedding of
      - services/media-api/internal/api   (CompleteUpload, ListAssets, buildAssetURLs)
      - services/media-api/internal/db    (the relational schema)
      - services/media-worker/internal/processor (TranscodeVideo and its helpers)

    The Go handlers talk to PostgreSQL, Redis, MinIO and to external commands
    (ffprobe, ffmpeg).  Each of these collaborators is an explicit piece of state
    (tables as finite maps, the Redis list, the object store) and every call that
    can fail in the source takes its outcome from an environment record, one field
    per call site, so that every [if err != nil] branch of the source is a branch
    of the model. *)

From Stdlib Require Import ZArith List String Ascii Bool.
From stdpp Require Import gmap strings pretty list fin_maps sorting.
Import ListNotations.
Local Open Scope string_scope.
Local Open Scope Z_scope.

(** ** Data model *)

(** A [uuid.UUID] is 16 bytes; it is kept as the 128-bit number they spell. *)
Abbreviation UUID := N (only parsing).

(** Row of table [assets].  [kind] and [state] are VARCHAR columns compared as
    strings by the Go code; timestamps are instants on an integer time line. *)
Record Asset := mkAsset {
  a_kind : string;
  a_state : string;
  a_bucket : string;
  a_object_key : string;
  a_filename : string;
  a_mime_type : string;
  a_size_bytes : Z;
  a_sha256 : option string;
  a_created_at : Z;
  a_updated_at : Z
}.

(** Row of table [asset_meta] (primary key [asset_id] is the map key).
    [duration_seconds] is DECIMAL(10,2): the value is kept in hundredths. *)
Record AssetMeta := mkAssetMeta {
  m_width : option Z;
  m_height : option Z;
  m_duration_seconds : option Z;
  m_bitrate : option Z;
  m_codec : option string;
  m_exif : option string;
  m_created_at : Z
}.

(** Row of table [processing_jobs]. *)
Record ProcessingJob := mkProcessingJob {
  pj_id : UUID;
  pj_asset_id : UUID;
  pj_job_type : string;
  pj_state : string;
  pj_priority : Z;
  pj_attempts : Z;
  pj_max_attempts : Z;
  pj_error_message : option string;
  pj_created_at : Z
}.

Record DB := mkDB {
  assets : gmap N Asset;
  asset_meta : gmap N AssetMeta;
  processing_jobs : list ProcessingJob
}.

(** An object of the S3-compatible store. *)
Record Object := mkObject {
  o_data : string;
  o_content_type : string
}.

(** Everything the two services share: the database, the Redis lists by key,
    and the object store by (bucket, object key). *)
Record World := mkWorld {
  w_db : DB;
  w_redis : gmap string (list string);
  w_store : gmap (string * string) Object
}.

Definition set_db (d : DB) (w : World) : World :=
  {| w_db := d; w_redis := w_redis w; w_store := w_store w |}.

Definition set_redis (r : gmap string (list string)) (w : World) : World :=
  {| w_db := w_db w; w_redis := r; w_store := w_store w |}.

Definition set_store (s : gmap (string * string) Object) (w : World) : World :=
  {| w_db := w_db w; w_redis := w_redis w; w_store := s |}.

(** ** SQL statements used by the handlers *)

Definition with_state (now : Z) (st : string) (a : Asset) : Asset :=
  {| a_kind := a_kind a;
     a_state := st;
     a_bucket := a_bucket a;
     a_object_key := a_object_key a;
     a_filename := a_filename a;
     a_mime_type := a_mime_type a;
     a_size_bytes := a_size_bytes a;
     a_sha256 := a_sha256 a;
     a_created_at := a_created_at a;
     (* trigger update_assets_updated_at: BEFORE UPDATE ... FOR EACH ROW *)
     a_updated_at := now |}.

Definition set_assets (t : gmap N Asset) (d : DB) : DB :=
  {| assets := t; asset_meta := asset_meta d; processing_jobs := processing_jobs d |}.

Definition set_asset_meta (t : gmap N AssetMeta) (d : DB) : DB :=
  {| assets := assets d; asset_meta := t; processing_jobs := processing_jobs d |}.

(** [UPDATE assets SET state = 'processing' WHERE id = $1 AND state = 'uploading']:
    the new table and the number of rows affected. *)
Definition sql_claim_upload (now : Z) (id : UUID) (d : DB) : DB * Z :=
  match assets d !! id with
  | Some a =>
      if String.eqb (a_state a) "uploading"
      then (set_assets (<[id := with_state now "processing" a]> (assets d)) d, 1)
      else (d, 0)
  | None => (d, 0)
  end.

(** [UPDATE assets SET state = $1 WHERE id = $2]. *)
Definition sql_set_state (now : Z) (st : string) (id : UUID) (d : DB) : DB * Z :=
  match assets d !! id with
  | Some a => (set_assets (<[id := with_state now st a]> (assets d)) d, 1)
  | None => (d, 0)
  end.

(** [SELECT kind FROM assets WHERE id = $1]; [None] is pgx.ErrNoRows. *)
Definition sql_select_kind (id : UUID) (d : DB) : option string :=
  a_kind <$> assets d !! id.

(** The state guard of the first UPDATE cannot match row [id]: the row is
    missing or its state is not [uploading]. *)
Definition guard_closed (id : UUID) (d : DB) : Prop :=
  forall a, assets d !! id = Some a -> a_state a <> "uploading".

(** Outcome of [pool.Exec]: an error, or the command tag and the new database. *)
Inductive ExecResult :=
| ExecErr
| ExecOk (rowsAffected : Z) (d : DB).

Definition db_Exec (fails : bool) (stmt : DB -> DB * Z) (d : DB) : ExecResult :=
  if fails then ExecErr else let '(d', n) := stmt d in ExecOk n d'.

(** Outcome of [pool.QueryRow(...).Scan(...)]. *)
Definition db_QueryRow {A} (fails : bool) (q : DB -> option A) (d : DB) : option A :=
  if fails then None else q d.

(** ** HTTP layer of media-api *)

Record Job := mkJob {
  ID : string;
  AssetID : string;
  Type_ : string   (* field Type of the Go struct *)
}.

Record CompleteUploadRequest := mkCompleteUploadRequest {
  req_AssetID : string
}.

Record CompleteUploadResponse := mkCompleteUploadResponse {
  State : string;
  Message : string
}.

Record AssetResponse := mkAssetResponse {
  r_ID : string;
  r_Kind : string;
  r_State : string;
  r_Filename : string;
  r_MimeType : string;
  r_Size : Z;
  r_Bucket : string;
  r_ObjectKey : string;
  r_Width : option Z;
  r_Height : option Z;
  r_Duration : option Z;
  r_CreatedAt : Z;
  r_URLs : gmap string string
}.

Inductive Payload :=
| ErrorJSON (message : string)
| CompleteUploadJSON (r : CompleteUploadResponse)
| AssetListJSON (assets : list AssetResponse) (total : Z).

Record Response := mkResponse {
  status : Z;
  payload : Payload
}.

Definition respondJSON (st : Z) (data : Payload) : Response :=
  {| status := st; payload := data |}.

Definition respondError (st : Z) (message : string) : Response :=
  respondJSON st (ErrorJSON message).

Definition JobQueueKey : string := "media:jobs:pending".

(** [RPUSH key value]: append at the tail, creating the list when absent. *)
Definition redis_RPush (key value : string) (r : gmap string (list string))
  : gmap string (list string) :=
  <[key := (default [] (r !! key) ++ [value])%list]> r.

Definition pending_jobs (w : World) : list string :=
  default [] (w_redis w !! JobQueueKey).

(** What the outside world answers during one CompleteUpload request. *)
Record CompleteEnv := mkCompleteEnv {
  ce_now : Z;                  (* CURRENT_TIMESTAMP seen by the trigger *)
  ce_claim_err : bool;         (* the guarded UPDATE returns an error *)
  ce_kind_err : bool;          (* SELECT kind ... fails *)
  ce_ready_err : bool;         (* UPDATE ... 'ready' returns an error *)
  ce_job_uuid : UUID;          (* uuid.New() *)
  ce_rpush_err : bool          (* RPUSH returns an error *)
}.

(** The part of config.Config that the handlers read. *)
Record Config := mkConfig {
  PublicImgProxyURL : string;
  PublicVODURL : string;
  PublicThumbsURL : string
}.

(** What the outside world answers during one ListAssets request. *)
Record ListEnv := mkListEnv {
  le_query_err : bool;             (* pool.Query returns an error *)
  le_rows_delivered : option nat;  (* rows.Next() gives up after that many rows *)
  le_scan_err : UUID -> bool       (* rows.Scan fails on the row of that asset *)
}.

(** One row of the result of the ListAssets query: asset LEFT JOIN asset_meta. *)
Record JoinedRow := mkJoinedRow {
  jr_id : UUID;
  jr_asset : Asset;
  jr_meta : option AssetMeta
}.

(** [ORDER BY a.created_at DESC]: [x] may come before [y]. *)
Definition newer_first (x y : N * Asset) : Prop :=
  a_created_at (snd y) <= a_created_at (snd x).

#[global] Instance newer_first_dec x y : Decision (newer_first x y).
Proof. unfold newer_first. apply _. Defined.

Definition join_meta (d : DB) (r : N * Asset) : JoinedRow :=
  {| jr_id := fst r; jr_asset := snd r; jr_meta := asset_meta d !! fst r |}.

(** [SELECT ... FROM assets a LEFT JOIN asset_meta m ON a.id = m.asset_id
     ORDER BY a.created_at DESC LIMIT 50].  Rows of equal creation time come in
    the order the sort leaves them. *)
Definition sql_list_assets (d : DB) : list JoinedRow :=
  join_meta d <$> take 50 (merge_sort newer_first (map_to_list (assets d))).

Section Api.

(** Library functions of github.com/google/uuid and encoding/json. *)
Variable uuid_Parse : string -> option UUID.
Variable uuid_String : UUID -> string.
Variable json_Marshal : Job -> option string.

(** The video branch of CompleteUpload: build the job, marshal it, push it.
    Both failures are only logged. *)
Definition enqueue_transcode (env : CompleteEnv) (assetID : UUID) (w : World) : World :=
  let job := {| ID := uuid_String (ce_job_uuid env);
                AssetID := uuid_String assetID;
                Type_ := "transcode" |} in
  match json_Marshal job with
  | None => w
  | Some jobData =>
      if ce_rpush_err env then w
      else set_redis (redis_RPush JobQueueKey jobData (w_redis w)) w
  end.

(** The image branch and the audio/document branch: the error of the second
    UPDATE is only logged. *)
Definition mark_ready (env : CompleteEnv) (assetID : UUID) (w : World) : World :=
  match db_Exec (ce_ready_err env) (sql_set_state (ce_now env) "ready" assetID) (w_db w) with
  | ExecErr => w
  | ExecOk _ d => set_db d w
  end.

Definition completed (finalState : string) : Response :=
  respondJSON 200 (CompleteUploadJSON
    {| State := finalState; Message := "Upload completed successfully" |}).

(** POST /v1/media/complete.  [None] as body is a request whose JSON does not decode. *)
Definition CompleteUpload (env : CompleteEnv) (w : World)
    (body : option CompleteUploadRequest) : Response * World :=
  match body with
  | None => (respondError 400 "Invalid request body", w)
  | Some req =>
    match uuid_Parse (req_AssetID req) with
    | None => (respondError 400 "Invalid asset ID", w)
    | Some assetID =>
      match db_Exec (ce_claim_err env) (sql_claim_upload (ce_now env) assetID) (w_db w) with
      | ExecErr => (respondError 500 "Failed to update asset", w)
      | ExecOk rowsAffected d =>
        let w1 := set_db d w in
        if rowsAffected =? 0
        then (respondError 404 "Asset not found or already processed", w1)
        else
          match db_QueryRow (ce_kind_err env) (sql_select_kind assetID) (w_db w1) with
          | None => (respondError 500 "Failed to get asset", w1)
          | Some kind =>
            if String.eqb kind "image" then
              (completed "ready", mark_ready env assetID w1)
            else if String.eqb kind "video" then
              (completed "processing", enqueue_transcode env assetID w1)
            else
              (completed "ready", mark_ready env assetID w1)
          end
      end
    end
  end.

(** Methods of imgproxy.Signer and the handler configuration. *)
Variable imgproxy_SignURL : string -> string -> string.
Variable cfg : Config.

Definition signImageURL (assetID operations : string) : string :=
  let sourceURL := "s3://media-originals/" ++ assetID in
  let signedPath := imgproxy_SignURL operations sourceURL in
  PublicImgProxyURL cfg ++ signedPath.

Definition buildAssetURLs (assetID kind state : string) : gmap string string :=
  if negb (String.eqb state "ready") then ∅
  else if String.eqb kind "image" then
    <["signedImage" := "Call /v1/image endpoint with operations"]>
      (<["thumbnail" := signImageURL assetID "rs:fit:400:400/q:80/f:webp"]>
        (<["original" := PublicImgProxyURL cfg ++ "/v1/media/" ++ assetID ++ "/original"]> ∅))
  else if String.eqb kind "video" then
    <["poster" := PublicThumbsURL cfg ++ "/" ++ assetID ++ "/poster.jpg"]>
      (<["hls" := PublicVODURL cfg ++ "/" ++ assetID ++ "/hls/master.m3u8"]> ∅)
  else ∅.

(** Body of the [for rows.Next()] loop after a successful Scan. *)
Definition scanned (row : JoinedRow) : AssetResponse :=
  let a := jr_asset row in
  let id := uuid_String (jr_id row) in
  {| r_ID := id;
     r_Kind := a_kind a;
     r_State := a_state a;
     r_Filename := a_filename a;
     r_MimeType := a_mime_type a;
     r_Size := a_size_bytes a;
     r_Bucket := a_bucket a;
     r_ObjectKey := a_object_key a;
     r_Width := jr_meta row ≫= m_width;
     r_Height := jr_meta row ≫= m_height;
     r_Duration := jr_meta row ≫= m_duration_seconds;
     r_CreatedAt := a_created_at a;
     r_URLs := buildAssetURLs id (a_kind a) (a_state a) |}.

(** The loop itself: a row whose Scan fails is skipped, the others are appended. *)
Fixpoint scan_rows (env : ListEnv) (rows : list JoinedRow) (acc : list AssetResponse)
  : list AssetResponse :=
  match rows with
  | [] => acc
  | row :: rest =>
      if le_scan_err env (jr_id row) then scan_rows env rest acc
      else scan_rows env rest (acc ++ [scanned row])%list
  end.

Definition rows_delivered (env : ListEnv) (rows : list JoinedRow) : list JoinedRow :=
  match le_rows_delivered env with
  | None => rows
  | Some n => take n rows
  end.

(** GET /v1/media. *)
Definition ListAssets (env : ListEnv) (w : World) : Response * World :=
  if le_query_err env then (respondError 500 "Failed to list assets", w)
  else
    let assets := scan_rows env (rows_delivered env (sql_list_assets (w_db w))) [] in
    (respondJSON 200 (AssetListJSON assets (Z.of_nat (length assets))), w).

End Api.

(** ** media-worker: the processor *)

(** A Go [error]: [NoError] is nil.  An error is identified by the message
    prefix that the failing call site gives it. *)
Inductive error :=
| NoError
| Error (msg : string).

(** What [exec.Command(name, args...)] gives back when run to completion. *)
Inductive CmdResult :=
| CmdFailed
| CmdOutput (out : string).

(** One step of [filepath.Walk] below the HLS output directory. *)
Inductive WalkEntry :=
| WalkErr                                (* the walk reports an error here *)
| WalkDir                                (* info.IsDir() *)
| WalkFile (relPath : string) (data : string).

Record MinIOConfig := mkMinIOConfig {
  BucketOriginals : string;
  BucketVOD : string;
  BucketThumbs : string
}.

Record Processor := mkProcessor {
  tempDir : string;
  minioConfig : MinIOConfig
}.

Record ProcessorConfig := mkProcessorConfig {
  TempDir : string
}.

Definition New (cfg : option ProcessorConfig) : Processor :=
  let minioConfig := {| BucketOriginals := "media-originals";
                        BucketVOD := "media-vod";
                        BucketThumbs := "media-thumbs" |} in
  let tempDir := match cfg with
                 | Some c => if String.eqb (TempDir c) "" then "/tmp/worker" else TempDir c
                 | None => "/tmp/worker"
                 end in
  {| tempDir := tempDir; minioConfig := minioConfig |}.

Record VideoMetadata := mkVideoMetadata {
  Width : Z;
  Height : Z;
  Duration : Z;          (* seconds, in hundredths *)
  Codec : string;
  Bitrate : Z
}.

(** What the outside world answers during one TranscodeVideo job.  The scratch
    directory of the job is private to it and removed on every exit; what the
    external commands leave there is told by [te_hls_walk] and [te_poster_data]. *)
Record TranscodeEnv := mkTranscodeEnv {
  te_now : Z;                                       (* CURRENT_TIMESTAMP *)
  te_asset_query_err : bool;                        (* SELECT bucket, ... fails *)
  te_mkdir_work_err : bool;                         (* os.MkdirAll(workDir) *)
  te_download_err : bool;                           (* FGetObject transport error *)
  te_exec : string -> list string -> CmdResult;     (* external commands *)
  te_save_meta_err : bool;                          (* INSERT INTO asset_meta fails *)
  te_mkdir_hls_err : bool;                          (* os.MkdirAll(hlsDir) *)
  te_mark_failed_err : bool;                        (* UPDATE ... 'failed' fails *)
  te_hls_walk : list WalkEntry;                     (* files ffmpeg left in hlsDir *)
  te_poster_data : string;                          (* bytes of poster.jpg *)
  te_put_err : string -> string -> bool;            (* FPutObject bucket key fails *)
  te_mark_ready_err : bool                          (* UPDATE ... 'ready' fails *)
}.

(** [SELECT bucket, object_key, filename FROM assets WHERE id = $1]. *)
Definition sql_select_asset_info (id : UUID) (d : DB) : option (string * string * string) :=
  (fun a => (a_bucket a, a_object_key a, a_filename a)) <$> assets d !! id.

(** [INSERT INTO asset_meta (asset_id, width, height, duration_seconds, codec)
     VALUES (...) ON CONFLICT (asset_id) DO UPDATE SET width = EXCLUDED.width, ...].
    [None]: the foreign key to assets(id) rejects the row. *)
Definition sql_upsert_meta (now : Z) (id : UUID) (md : VideoMetadata) (d : DB) : option DB :=
  match assets d !! id with
  | None => None
  | Some _ =>
      let row :=
        match asset_meta d !! id with
        | Some m => {| m_width := Some (Width md);
                       m_height := Some (Height md);
                       m_duration_seconds := Some (Duration md);
                       m_bitrate := m_bitrate m;
                       m_codec := Some (Codec md);
                       m_exif := m_exif m;
                       m_created_at := m_created_at m |}
        | None => {| m_width := Some (Width md);
                     m_height := Some (Height md);
                     m_duration_seconds := Some (Duration md);
                     m_bitrate := None;
                     m_codec := Some (Codec md);
                     m_exif := None;
                     m_created_at := now |}
        end in
      Some (set_asset_meta (<[id := row]> (asset_meta d)) d)
  end.

(** The ffmpeg command line of transcodeToHLS, built by the same appends. *)
Definition transcodeToHLS_args (hasAudio : bool) (inputPath segmentPattern playlistPattern : string)
  : list string :=
  let args := [ "-i"; inputPath;
                "-c:v"; "libx264";
                "-preset"; "fast";
                "-map"; "0:v:0";
                "-map"; "0:v:0";
                "-map"; "0:v:0";
                "-map"; "0:v:0" ] in
  let args := if hasAudio
              then (args ++ [ "-c:a"; "aac";
                              "-ar"; "48000";
                              "-b:a"; "128k";
                              "-map"; "0:a:0?";
                              "-map"; "0:a:0?";
                              "-map"; "0:a:0?";
                              "-map"; "0:a:0?" ])%list
              else args in
  let args := (args ++ [ "-s:v:0"; "1920x1080";
                         "-b:v:0"; "5000k";
                         "-maxrate:v:0"; "5350k";
                         "-bufsize:v:0"; "7500k";
                         "-s:v:1"; "1280x720";
                         "-b:v:1"; "3000k";
                         "-maxrate:v:1"; "3210k";
                         "-bufsize:v:1"; "4500k";
                         "-s:v:2"; "854x480";
                         "-b:v:2"; "1500k";
                         "-maxrate:v:2"; "1605k";
                         "-bufsize:v:2"; "2250k";
                         "-s:v:3"; "640x360";
                         "-b:v:3"; "800k";
                         "-maxrate:v:3"; "856k";
                         "-bufsize:v:3"; "1200k" ])%list in
  let args := if hasAudio
              then (args ++ [ "-var_stream_map"; "v:0,a:0 v:1,a:1 v:2,a:2 v:3,a:3" ])%list
              else (args ++ [ "-var_stream_map"; "v:0 v:1 v:2 v:3" ])%list in
  (args ++ [ "-master_pl_name"; "master.m3u8";
             "-f"; "hls";
             "-hls_time"; "6";
             "-hls_list_size"; "0";
             "-hls_segment_filename"; segmentPattern;
             playlistPattern ])%list.

Section Worker.

(** Library functions: uuid.UUID.String, filepath.Join, filepath.Ext. *)
Variable uuid_String : UUID -> string.
Variable filepath_Join : string -> string -> string.
Variable filepath_Ext : string -> string.

Variable p : Processor.
Variable env : TranscodeEnv.

Definition extractVideoMetadata (inputPath : string) : option VideoMetadata :=
  match te_exec env "ffprobe"
          [ "-v"; "quiet"; "-print_format"; "json"; "-show_format"; "-show_streams"; inputPath ] with
  | CmdFailed => None
  | CmdOutput _ =>
      Some {| Width := 1920; Height := 1080; Duration := 12050; Codec := "h264"; Bitrate := 5000000 |}
  end.

Definition videoHasAudio (inputPath : string) : bool :=
  match te_exec env "ffprobe"
          [ "-v"; "error"; "-select_streams"; "a"; "-show_entries"; "stream=codec_type";
            "-of"; "csv=p=0"; inputPath ] with
  | CmdFailed => false
  | CmdOutput output => (0 <? String.length output)%nat
  end.

(** The arguments transcodeToHLS hands to ffmpeg for this input. *)
Definition ffmpeg_hls_invocation (inputPath outputDir : string) : list string :=
  transcodeToHLS_args (videoHasAudio inputPath) inputPath
    (filepath_Join outputDir "v%v/seg-%03d.ts")
    (filepath_Join outputDir "v%v/playlist.m3u8").

Definition transcodeToHLS (inputPath outputDir : string) : error :=
  match te_exec env "ffmpeg" (ffmpeg_hls_invocation inputPath outputDir) with
  | CmdFailed => Error "ffmpeg failed"
  | CmdOutput _ => NoError
  end.

Definition generatePoster (inputPath outputPath : string) : error :=
  match te_exec env "ffmpeg"
          [ "-i"; inputPath; "-ss"; "00:00:01"; "-vframes"; "1"; "-q:v"; "2"; outputPath ] with
  | CmdFailed => Error "failed to generate poster"
  | CmdOutput _ => NoError
  end.

Definition downloadFile (bucket objectKey : string) (store : gmap (string * string) Object) : error :=
  match store !! (bucket, objectKey) with
  | None => Error "The specified key does not exist."
  | Some _ => if te_download_err env then Error "download failed" else NoError
  end.

Definition uploadFile (bucket objectKey data contentType : string)
    (store : gmap (string * string) Object) : error * gmap (string * string) Object :=
  if te_put_err env bucket objectKey then (Error "upload failed", store)
  else (NoError, <[(bucket, objectKey) := {| o_data := data; o_content_type := contentType |}]> store).

(** uploadDirectory: the walk stops at the first error its callback returns. *)
Fixpoint uploadDirectory_walk (entries : list WalkEntry) (localDir bucket prefix : string)
    (store : gmap (string * string) Object) : error * gmap (string * string) Object :=
  match entries with
  | [] => (NoError, store)
  | WalkErr :: _ => (Error "walk failed", store)
  | WalkDir :: rest => uploadDirectory_walk rest localDir bucket prefix store
  | WalkFile relPath data :: rest =>
      let path := filepath_Join localDir relPath in
      let objectKey := filepath_Join prefix relPath in
      let contentType :=
        if String.eqb (filepath_Ext path) ".m3u8" then "application/vnd.apple.mpegurl"
        else if String.eqb (filepath_Ext path) ".ts" then "video/mp2t"
        else "application/octet-stream" in
      match uploadFile bucket objectKey data contentType store with
      | (Error e, store') => (Error e, store')
      | (NoError, store') => uploadDirectory_walk rest localDir bucket prefix store'
      end
  end.

Definition uploadDirectory (localDir bucket prefix : string)
    (store : gmap (string * string) Object) : error * gmap (string * string) Object :=
  uploadDirectory_walk (te_hls_walk env) localDir bucket prefix store.

(** The metadata branch: an error of the upsert is only logged. *)
Definition save_metadata (assetID : UUID) (metadata : VideoMetadata) (w : World) : World :=
  if te_save_meta_err env then w
  else match sql_upsert_meta (te_now env) assetID metadata (w_db w) with
       | None => w
       | Some d => set_db d w
       end.

(** [p.db.Exec(ctx, "UPDATE assets SET state = 'failed' WHERE id = $1", assetID)],
    whose error is dropped. *)
Definition mark_failed (assetID : UUID) (w : World) : World :=
  match db_Exec (te_mark_failed_err env) (sql_set_state (te_now env) "failed" assetID) (w_db w) with
  | ExecErr => w
  | ExecOk _ d => set_db d w
  end.

Definition TranscodeVideo (assetID : UUID) (w : World) : error * World :=
  match db_QueryRow (te_asset_query_err env) (sql_select_asset_info assetID) (w_db w) with
  | None => (Error "failed to get asset info", w)
  | Some (bucket, objectKey, filename) =>
    let workDir := filepath_Join (tempDir p) (uuid_String assetID) in
    if te_mkdir_work_err env then (Error "failed to create work directory", w) else
    let inputPath := filepath_Join workDir ("input" ++ filepath_Ext filename) in
    match downloadFile bucket objectKey (w_store w) with
    | Error _ => (Error "failed to download original", w)
    | NoError =>
      let w1 := match extractVideoMetadata inputPath with
                | None => w
                | Some metadata => save_metadata assetID metadata w
                end in
      let hlsDir := filepath_Join workDir "hls" in
      if te_mkdir_hls_err env then (Error "failed to create HLS directory", w1) else
      match transcodeToHLS inputPath hlsDir with
      | Error _ => (Error "failed to transcode", mark_failed assetID w1)
      | NoError =>
        let posterPath := filepath_Join workDir "poster.jpg" in
        let w2 := match generatePoster inputPath posterPath with
                  | Error _ => w1
                  | NoError =>
                      let posterKey := uuid_String assetID ++ "/poster.jpg" in
                      set_store (snd (uploadFile (BucketThumbs (minioConfig p)) posterKey
                                        (te_poster_data env) "image/jpeg" (w_store w1))) w1
                  end in
        match uploadDirectory hlsDir (BucketVOD (minioConfig p))
                (uuid_String assetID ++ "/hls") (w_store w2) with
        | (Error _, store) =>
            (Error "failed to upload HLS files", mark_failed assetID (set_store store w2))
        | (NoError, store) =>
            let w3 := set_store store w2 in
            match db_Exec (te_mark_ready_err env)
                    (sql_set_state (te_now env) "ready" assetID) (w_db w3) with
            | ExecErr => (Error "failed to update asset state", w3)
            | ExecOk _ d => (NoError, set_db d w3)
            end
        end
      end
    end
  end.

End Worker.

(** ** Reading an ffmpeg command line *)

(** The options of the command line as (flag, value) pairs, read from the left;
    every option used here takes one value and the output URL comes last. *)
Fixpoint cli_options (args : list string) : list (string * string) :=
  match args with
  | flag :: value :: rest => (flag, value) :: cli_options rest
  | _ => []
  end.

Definition option_values (flag : string) (args : list string) : list string :=
  snd <$> List.filter (fun kv => String.eqb (fst kv) flag) (cli_options args).

Fixpoint split_on (sep : ascii) (s : string) : list string :=
  match s with
  | EmptyString => [ "" ]
  | String c rest =>
      if Ascii.eqb c sep then "" :: split_on sep rest
      else match split_on sep rest with
           | [] => [ String c "" ]
           | word :: words => String c word :: words
           end
  end.

Definition digit_of (c : ascii) : option Z :=
  let n := Z.of_nat (nat_of_ascii c) in
  if (48 <=? n) && (n <=? 57) then Some (n - 48) else None.

Fixpoint parse_digits (acc : Z) (s : string) : option Z :=
  match s with
  | EmptyString => Some acc
  | String c rest =>
      match digit_of c with
      | Some d => parse_digits (10 * acc + d) rest
      | None => None
      end
  end.

Definition parse_number (s : string) : option Z :=
  match s with
  | EmptyString => None
  | _ => parse_digits 0 s
  end.

(** A bitrate written as ffmpeg takes it here, [<digits>k], in kbit/s. *)
Definition parse_kbps (s : string) : option Z :=
  match split_on "k" s with
  | [ digits; "" ] => parse_number digits
  | _ => None
  end.

(** A frame size [<width>x<height>]. *)
Definition parse_size (s : string) : option (Z * Z) :=
  match split_on "x" s with
  | [ w; h ] =>
      match parse_number w, parse_number h with
      | Some w, Some h => Some (w, h)
      | _, _ => None
      end
  | _ => None
  end.

(** One quality rung of the ladder; rates in kbit/s. *)
Record Rung := mkRung {
  rung_width : Z;
  rung_height : Z;
  rung_bitrate : Z;
  rung_maxrate : Z;
  rung_bufsize : Z
}.

Definition stream_index (i : nat) : string :=
  String (ascii_of_nat (48 + i)) "".

(** The settings given for output video stream [i] ([-s:v:i], [-b:v:i], ...). *)
Definition rung_at (args : list string) (i : nat) : option Rung :=
  match option_values ("-s:v:" ++ stream_index i) args,
        option_values ("-b:v:" ++ stream_index i) args,
        option_values ("-maxrate:v:" ++ stream_index i) args,
        option_values ("-bufsize:v:" ++ stream_index i) args with
  | [ size ], [ b ], [ maxrate ], [ bufsize ] =>
      match parse_size size, parse_kbps b, parse_kbps maxrate, parse_kbps bufsize with
      | Some (w, h), Some b, Some m, Some s =>
          Some {| rung_width := w; rung_height := h;
                  rung_bitrate := b; rung_maxrate := m; rung_bufsize := s |}
      | _, _, _, _ => None
      end
  | _, _, _, _ => None
  end.

(** Output video streams: one per [-map 0:v:0]. *)
Definition video_streams (args : list string) : nat :=
  length (List.filter (String.eqb "0:v:0") (option_values "-map" args)).

Definition audio_streams (args : list string) : nat :=
  length (List.filter (String.eqb "0:a:0?") (option_values "-map" args)).

(** The ladder: the settings of every output video stream, in stream order. *)
Definition ladder (args : list string) : list (option Rung) :=
  rung_at args <$> seq 0 (video_streams args).

(** The variants of [-var_stream_map]: one per space-separated group, each a
    comma-separated list of stream specifiers. *)
Definition variants (args : list string) : list (list string) :=
  match option_values "-var_stream_map" args with
  | [ m ] => split_on "," <$> split_on " " m
  | _ => []
  end.

(** ** A concrete instance for evaluation

    Stand-ins for the library functions, and small worlds on which the handlers
    can be run. *)

Definition ex_ids : list UUID := [ 1%N; 2%N; 3%N; 4%N; 5%N; 6%N; 7%N; 8%N; 9%N ].

Definition ex_uuid_String (u : UUID) : string :=
  "00000000-0000-0000-0000-00000000000" ++ String (ascii_of_N (48 + u)) "".

Definition ex_uuid_Parse (s : string) : option UUID :=
  List.find (fun u => String.eqb (ex_uuid_String u) s) ex_ids.

Definition quoted (s : string) : string :=
  String (ascii_of_nat 34) "" ++ s ++ String (ascii_of_nat 34) "".

(** The JSON text of a job whose fields need no escaping. *)
Definition ex_json_Marshal (j : Job) : option string :=
  Some ("{" ++ quoted "id" ++ ":" ++ quoted (ID j) ++ ","
            ++ quoted "assetId" ++ ":" ++ quoted (AssetID j) ++ ","
            ++ quoted "type" ++ ":" ++ quoted (Type_ j) ++ "}").

Definition ex_filepath_Join (a b : string) : string := a ++ "/" ++ b.

(** Extension of a plain file name: from its last dot on. *)
Fixpoint ex_filepath_Ext (s : string) : string :=
  match s with
  | EmptyString => ""
  | String c rest =>
      match ex_filepath_Ext rest with
      | EmptyString => if Ascii.eqb c "." then s else ""
      | ext => ext
      end
  end.

Definition ex_asset (kind state : string) (created : Z) : Asset :=
  {| a_kind := kind;
     a_state := state;
     a_bucket := "media-originals";
     a_object_key := "2025/01/02/clip.mp4";
     a_filename := "clip.mp4";
     a_mime_type := "video/mp4";
     a_size_bytes := 1048576;
     a_sha256 := None;
     a_created_at := created;
     a_updated_at := created |}.

Definition ex_world (kind state : string) : World :=
  {| w_db := {| assets := {[ 7%N := ex_asset kind state 100 ]};
                asset_meta := ∅;
                processing_jobs := [] |};
     w_redis := ∅;
     w_store := {[ ("media-originals", "2025/01/02/clip.mp4") :=
                     {| o_data := "original bytes"; o_content_type := "video/mp4" |} ]} |}.

Definition ex_complete_env : CompleteEnv :=
  {| ce_now := 200;
     ce_claim_err := false;
     ce_kind_err := false;
     ce_ready_err := false;
     ce_job_uuid := 9%N;
     ce_rpush_err := false |}.

Definition ex_request : option CompleteUploadRequest :=
  Some {| req_AssetID := "00000000-0000-0000-0000-000000000007" |}.

Definition ex_transcode_job : Job :=
  {| ID := ex_uuid_String 9%N; AssetID := ex_uuid_String 7%N; Type_ := "transcode" |}.

Definition ex_CompleteUpload
  : CompleteEnv -> World -> option CompleteUploadRequest -> Response * World :=
  CompleteUpload ex_uuid_Parse ex_uuid_String ex_json_Marshal.

(** A page of the listing is read newest first. *)
Definition newest_first (x y : AssetResponse) : Prop :=
  r_CreatedAt y <= r_CreatedAt x.

(** Ways a rung's buffer size can relate to its rates (rates in kbit/s). *)
Definition headroom_7_percent (r : Rung) : Prop :=
  100 * rung_maxrate r = 107 * rung_bitrate r.

Definition bufsize_of_maxrate (r : Rung) : Prop :=
  2 * rung_bufsize r = 3 * rung_maxrate r.

Definition bufsize_of_bitrate (r : Rung) : Prop :=
  2 * rung_bufsize r = 3 * rung_bitrate r.

Definition rung_1080p : Rung :=
  {| rung_width := 1920; rung_height := 1080;
     rung_bitrate := 5000; rung_maxrate := 5350; rung_bufsize := 7500 |}.

Definition rung_720p : Rung :=
  {| rung_width := 1280; rung_height := 720;
     rung_bitrate := 3000; rung_maxrate := 3210; rung_bufsize := 4500 |}.

Definition rung_480p : Rung :=
  {| rung_width := 854; rung_height := 480;
     rung_bitrate := 1500; rung_maxrate := 1605; rung_bufsize := 2250 |}.

Definition rung_360p : Rung :=
  {| rung_width := 640; rung_height := 360;
     rung_bitrate := 800; rung_maxrate := 856; rung_bufsize := 1200 |}.

(** A command runner told what each of the four commands of TranscodeVideo
    answers; the commands are told apart by their fixed leading arguments. *)
Definition ex_exec (metaProbe audioProbe hls poster : CmdResult)
    (name : string) (args : list string) : CmdResult :=
  if String.eqb name "ffprobe" then
    match args !! 1%nat with
    | Some "quiet" => metaProbe
    | _ => audioProbe
    end
  else
    match args !! 2%nat with
    | Some "-ss" => poster
    | _ => hls
    end.

Definition ex_hls_files : list WalkEntry :=
  [ WalkDir;
    WalkFile "master.m3u8" "#EXTM3U master";
    WalkDir;
    WalkFile "v0/playlist.m3u8" "#EXTM3U v0";
    WalkFile "v0/seg-000.ts" "segment" ].

Definition ex_transcode_env (downloadErr : bool) (metaProbe hls : CmdResult) : TranscodeEnv :=
  {| te_now := 300;
     te_asset_query_err := false;
     te_mkdir_work_err := false;
     te_download_err := downloadErr;
     te_exec := ex_exec metaProbe (CmdOutput "audio") hls (CmdOutput "");
     te_save_meta_err := false;
     te_mkdir_hls_err := false;
     te_mark_failed_err := false;
     te_hls_walk := ex_hls_files;
     te_poster_data := "jpeg bytes";
     te_put_err := fun _ _ => false;
     te_mark_ready_err := false |}.

Definition ex_TranscodeVideo (env : TranscodeEnv) : UUID -> World -> error * World :=
  TranscodeVideo ex_uuid_String ex_filepath_Join ex_filepath_Ext (New None) env.

Definition ex_list_env : ListEnv :=
  {| le_query_err := false; le_rows_delivered := None; le_scan_err := fun _ => false |}.

Definition ex_config : Config :=
  {| PublicImgProxyURL := "http://img.local";
     PublicVODURL := "http://vod.local";
     PublicThumbsURL := "http://thumbs.local" |}.

Definition ex_SignURL (operations sourceURL : string) : string :=
  "/signature/" ++ operations ++ "/" ++ sourceURL.

(** A database of [n] assets, asset [i] created at instant [i]. *)
Definition ex_catalogue (n : nat) : World :=
  {| w_db := {| assets := list_to_map ((fun i => (N.of_nat i, ex_asset "image" "ready" (Z.of_nat i)))
                                        <$> seq 1 n);
                asset_meta := ∅;
                processing_jobs := [] |};
     w_redis := ∅;
     w_store := ∅ |}.

Definition ex_ListAssets : ListEnv -> World -> Response * World :=
  ListAssets (fun u => pretty u) ex_SignURL ex_config.

(** The payload CompleteUpload pushes for asset 7 with job id 9. *)
Definition ex_payload : string := default "" (ex_json_Marshal ex_transcode_job).

Definition ex_input_path : string := "/tmp/worker/00000000-0000-0000-0000-000000000007/input.mp4".

Definition ex_hls_dir : string := "/tmp/worker/00000000-0000-0000-0000-000000000007/hls".

(** ** media-api: the other handlers *)

Record InitUploadRequest := mkInitUploadRequest {
  MimeType : string;
  Kind : string;
  Filename : string;
  Size : Z
}.

Record InitUploadResponse := mkInitUploadResponse {
  iu_AssetID : string;
  iu_Bucket : string;
  iu_ObjectKey : string;
  iu_PresignedURL : string;
  iu_Headers : gmap string string;
  iu_ExpiresIn : Z
}.

(** What these handlers write: a JSON document, nothing, or a streamed body. *)
Inductive ReplyBody :=
| JSONError (message : string)
| JSONInitUpload (r : InitUploadResponse)
| JSONAsset (a : AssetResponse)
| NoContent
| Streamed (data : string).

(** [reply_header] holds the header fields the handler sets on the response
    writer, by canonical name. *)
Record Reply := mkReply {
  reply_status : Z;
  reply_header : gmap string (list string);
  reply_body : ReplyBody
}.

Definition replyJSON (st : Z) (data : ReplyBody) : Reply :=
  {| reply_status := st;
     reply_header := {[ "Content-Type" := [ "application/json" ] ]};
     reply_body := data |}.

Definition replyError (st : Z) (message : string) : Reply :=
  replyJSON st (JSONError message).

(** A [time.Duration] counts nanoseconds. *)
Definition Second : Z := 1000000000.

Definition Minute : Z := 60 * Second.

(** config.MinIOConfig, as storage.GetConfig() returns it. *)
Record StorageConfig := mkStorageConfig {
  Endpoint : string;
  PublicEndpoint : string;
  AccessKey : string;
  SecretKey : string;
  UseSSL : bool;
  UsePathStyle : bool;
  sc_BucketOriginals : string;
  sc_BucketImages : string;
  sc_BucketVOD : string;
  sc_BucketThumbs : string
}.

(** What the outside world answers during one InitUpload request. *)
Record InitEnv := mkInitEnv {
  ie_uuid : UUID;                                 (* uuid.New() *)
  ie_date : string;                               (* time.Now().Format("2006/01/02") *)
  ie_now : Z;                                     (* CURRENT_TIMESTAMP of the INSERT *)
  ie_insert_err : bool;                           (* the INSERT fails for a reason of the
                                                     connection or of a column width *)
  ie_presign : string -> string -> Z -> option string
                                                  (* PresignedPutObject bucket key expires *)
}.

Definition same_location (bucket key : string) (row : N * Asset) : bool :=
  String.eqb (a_bucket (snd row)) bucket && String.eqb (a_object_key (snd row)) key.

Definition known_kind (kind : string) : bool :=
  String.eqb kind "image" || String.eqb kind "video"
  || String.eqb kind "audio" || String.eqb kind "document".

(** [INSERT INTO assets (id, kind, state, bucket, object_key, filename,
     mime_type, size_bytes) VALUES (...)]: [None] when the primary key, the
    UNIQUE(bucket, object_key) constraint or the CHECK on kind rejects the row. *)
Definition sql_insert_asset (now : Z) (id : UUID)
    (kind bucket key filename mime : string) (size : Z) (d : DB) : option DB :=
  match assets d !! id with
  | Some _ => None
  | None =>
      if existsb (same_location bucket key) (map_to_list (assets d)) then None
      else if negb (known_kind kind) then None
      else Some (set_assets
                   (<[id := {| a_kind := kind;
                               a_state := "uploading";
                               a_bucket := bucket;
                               a_object_key := key;
                               a_filename := filename;
                               a_mime_type := mime;
                               a_size_bytes := size;
                               a_sha256 := None;
                               a_created_at := now;
                               a_updated_at := now |}]> (assets d)) d)
  end.

(** [SELECT a.*, m.width, m.height, m.duration_seconds FROM assets a
     LEFT JOIN asset_meta m ON a.id = m.asset_id WHERE a.id = $1]. *)
Definition sql_get_asset (id : UUID) (d : DB) : option JoinedRow :=
  (fun a => join_meta d (id, a)) <$> assets d !! id.

(** [SELECT bucket, object_key FROM assets WHERE id = $1]. *)
Definition sql_select_location (id : UUID) (d : DB) : option (string * string) :=
  (fun a => (a_bucket a, a_object_key a)) <$> assets d !! id.


(** [DELETE FROM assets WHERE id = $1], with the ON DELETE CASCADE of the
    tables that reference assets(id). *)
Definition sql_delete_asset (id : UUID) (d : DB) : DB :=
  {| assets := delete id (assets d);
     asset_meta := delete id (asset_meta d);
     processing_jobs :=
       List.filter (fun job => negb (N.eqb (pj_asset_id job) id)) (processing_jobs d) |}.

(** What the outside world answers during one DeleteAsset request. *)
Record DeleteEnv := mkDeleteEnv {
  de_query_err : bool;          (* SELECT bucket, object_key fails *)
  de_storage_err : bool;        (* RemoveObject returns an error *)
  de_delete_err : bool          (* DELETE returns an error *)
}.

(** What [http.Get] or [client.Do] gives back. *)
Inductive FetchResult :=
| FetchFailed
| Fetched (statusCode : Z) (header : gmap string (list string)) (data : string).


(** The request ProxyImage sends upstream. *)
Record UpstreamRequest := mkUpstreamRequest {
  up_url : string;
  up_accept : option string
}.

(** What the outside world answers during one ProxyImage request. *)
Record ProxyEnv := mkProxyEnv {
  pe_request_err : bool;                           (* http.NewRequestWithContext fails *)
  pe_Do : UpstreamRequest -> FetchResult           (* client.Do(req) *)
}.

(** [w.Header().Add(key, value)] for every value of every field of [upstream],
    on top of the fields [h] already holds. *)
Definition header_add_all (upstream h : gmap string (list string)) : gmap string (list string) :=
  union_with (fun mine theirs => Some (mine ++ theirs)%list) h upstream.

Section Handlers.

Variable uuid_Parse : string -> option UUID.
Variable uuid_String : UUID -> string.
Variable filepath_Ext : string -> string.
Variable imgproxy_SignURL : string -> string -> string.
Variable cfg : Config.
Variable storageConfig : StorageConfig.
Variable imgproxyBaseURL : string.             (* h.cfg.ImgProxy.BaseURL *)

(** POST /v1/media/init-upload. *)
Definition InitUpload (env : InitEnv) (w : World) (body : option InitUploadRequest)
  : Reply * World :=
  match body with
  | None => (replyError 400 "Invalid request body", w)
  | Some req =>
    if String.eqb (MimeType req) "" || String.eqb (Kind req) "" || String.eqb (Filename req) ""
    then (replyError 400 "Missing required fields: mime, kind, filename", w)
    else if negb (String.eqb (Kind req) "image") && negb (String.eqb (Kind req) "video")
            && negb (String.eqb (Kind req) "audio") && negb (String.eqb (Kind req) "document")
    then (replyError 400 "Invalid kind. Must be: image, video, audio, or document", w)
    else
      let assetID := ie_uuid env in
      let ext := filepath_Ext (Filename req) in
      let objectKey := ie_date env ++ "/" ++ uuid_String assetID ++ ext in
      match (if ie_insert_err env then None
             else sql_insert_asset (ie_now env) assetID (Kind req)
                    (sc_BucketOriginals storageConfig) objectKey
                    (Filename req) (MimeType req) (Size req) (w_db w)) with
      | None => (replyError 500 "Failed to create asset", w)
      | Some d =>
        let w1 := set_db d w in
        match ie_presign env (sc_BucketOriginals storageConfig) objectKey (15 * Minute) with
        | None => (replyError 500 "Failed to generate upload URL", w1)
        | Some presignedURL =>
          (replyJSON 200 (JSONInitUpload
             {| iu_AssetID := uuid_String assetID;
                iu_Bucket := sc_BucketOriginals storageConfig;
                iu_ObjectKey := objectKey;
                iu_PresignedURL := presignedURL;
                iu_Headers := {[ "Content-Type" := MimeType req ]};
                iu_ExpiresIn := 900 |}), w1)
        end
      end
  end.

(** GET /v1/media/:assetId. *)
Definition GetAsset (queryErr : bool) (w : World) (assetIDStr : string) : Reply :=
  match uuid_Parse assetIDStr with
  | None => replyError 400 "Invalid asset ID"
  | Some assetID =>
    match db_QueryRow queryErr (sql_get_asset assetID) (w_db w) with
    | None => replyError 404 "Asset not found"
    | Some row => replyJSON 200 (JSONAsset (scanned uuid_String imgproxy_SignURL cfg row))
    end
  end.

(** DELETE /v1/media/:assetId. *)
Definition DeleteAsset (env : DeleteEnv) (w : World) (assetIDStr : string) : Reply * World :=
  match uuid_Parse assetIDStr with
  | None => (replyError 400 "Invalid asset ID", w)
  | Some assetID =>
    match db_QueryRow (de_query_err env) (sql_select_location assetID) (w_db w) with
    | None => (replyError 404 "Asset not found", w)
    | Some (bucket, objectKey) =>
      (* storage.DeleteObject: its error is logged and the handler goes on *)
      let w1 := if de_storage_err env then w
                else set_store (delete (bucket, objectKey) (w_store w)) w in
      if de_delete_err env then (replyError 500 "Failed to delete asset", w1)
      else ({| reply_status := 204; reply_header := ∅; reply_body := NoContent |},
            set_db (sql_delete_asset assetID (w_db w1)) w1)
    end
  end.


(** GET /v1/image/:signature/:ops/:encodedSrc.  [h] holds the header fields
    already on the response writer; [accept] is the Accept field of the
    request, empty when absent. *)
Definition ProxyImage (env : ProxyEnv) (h : gmap string (list string))
    (signature ops encodedSrc accept : string) : Reply :=
  if String.eqb signature "" || String.eqb ops "" || String.eqb encodedSrc ""
  then replyError 400 "Invalid image URL"
  else
    let imgproxyURL := imgproxyBaseURL ++ "/" ++ signature ++ "/" ++ ops ++ "/" ++ encodedSrc in
    if pe_request_err env then replyError 500 "Failed to process image"
    else
      let req := {| up_url := imgproxyURL;
                    up_accept := if String.eqb accept "" then None else Some accept |} in
      match pe_Do env req with
      | FetchFailed => replyError 502 "Failed to fetch image"
      | Fetched statusCode header data =>
          {| reply_status := statusCode;
             reply_header :=
               <["Cache-Control" := [ "public, max-age=31536000, immutable" ]]>
                 (header_add_all header h);
             reply_body := Streamed data |}
      end.

End Handlers.

(** ** media-worker: the other jobs and the pool *)

(** [SELECT bucket, object_key, filename, kind FROM assets WHERE id = $1]. *)
Definition sql_select_asset_info_kind (id : UUID) (d : DB)
  : option (string * string * string * string) :=
  (fun a => (a_bucket a, a_object_key a, a_filename a, a_kind a)) <$> assets d !! id.

(** [BLPOP key timeout] on a list that is not empty: the head, and the store
    without it; Redis drops a list that becomes empty.  [None] is redis.Nil. *)
Definition redis_BLPop (key : string) (r : gmap string (list string))
  : option (string * gmap string (list string)) :=
  match r !! key with
  | Some (value :: rest) =>
      Some (value, match rest with
                   | [] => delete key r
                   | _ => <[key := rest]> r
                   end)
  | _ => None
  end.

(** The errors BLPop can return besides redis.Nil. *)
Inductive PopError :=
| PopCanceled          (* context.Canceled *)
| PopFailed.           (* anything else *)

(** What the outside world answers during one turn of the worker loop. *)
Record TurnEnv := mkTurnEnv {
  tn_done : bool;                      (* p.ctx.Done() is ready *)
  tn_pop_err : option PopError;        (* BLPop fails *)
  tn_job : TranscodeEnv                (* the collaborators of the job that runs *)
}.

(** What the outside world answers during one call of EnqueueJob. *)
Record EnqueueEnv := mkEnqueueEnv {
  eq_job_uuid : UUID;                  (* uuid.New() *)
  eq_rpush_err : bool                  (* RPush fails *)
}.

(** How one turn of the loop ends. *)
Inductive Turn :=
| Stopped                              (* return *)
| Idle                                 (* nothing popped: continue *)
| Discarded                            (* the payload does not parse: continue *)
| Ran (job : Job) (err : error).       (* processJob was called *)

Section Pool.

Variable uuid_Parse : string -> option UUID.
Variable uuid_String : UUID -> string.
Variable json_Marshal : Job -> option string.
Variable json_Unmarshal : string -> option Job.
Variable filepath_Join : string -> string -> string.
Variable filepath_Ext : string -> string.
Variable p : Processor.

Definition GenerateThumbnail (assetID : UUID) (w : World) : error * World :=
  (NoError, w).

Definition ExtractMetadata (env : TranscodeEnv) (assetID : UUID) (w : World) : error * World :=
  match db_QueryRow (te_asset_query_err env) (sql_select_asset_info_kind assetID) (w_db w) with
  | None => (Error "failed to get asset info", w)
  | Some (bucket, objectKey, filename, kind) =>
    let workDir := filepath_Join (tempDir p) (uuid_String assetID) in
    if te_mkdir_work_err env then (Error "failed to create work directory", w) else
    let inputPath := filepath_Join workDir ("input" ++ filepath_Ext filename) in
    match downloadFile env bucket objectKey (w_store w) with
    | Error _ => (Error "failed to download file", w)
    | NoError =>
      if String.eqb kind "video" then
        match extractVideoMetadata env inputPath with
        | None => (Error "ffprobe failed", w)
        | Some metadata =>
          (* the error of Exec is returned as it is *)
          if te_save_meta_err env then (Error "exec failed", w)
          else match sql_upsert_meta (te_now env) assetID metadata (w_db w) with
               | None => (Error "exec failed", w)
               | Some d => (NoError, set_db d w)
               end
        end
      else (NoError, w)
    end
  end.

Definition processJob (env : TranscodeEnv) (job : Job) (w : World) : error * World :=
  match uuid_Parse (AssetID job) with
  | None => (Error "invalid UUID", w)
  | Some assetID =>
    if String.eqb (Type_ job) "transcode" then
      TranscodeVideo uuid_String filepath_Join filepath_Ext p env assetID w
    else if String.eqb (Type_ job) "thumbnail" then
      GenerateThumbnail assetID w
    else if String.eqb (Type_ job) "extract_meta" then
      ExtractMetadata env assetID w
    else (NoError, w)
  end.

(** One turn of the [for] loop of Pool.worker.  BLPop answers with the key and
    the value, so the test [len(result) < 2] does not fire. *)
Definition worker_turn (env : TurnEnv) (w : World) : Turn * World :=
  if tn_done env then (Stopped, w)
  else
    match tn_pop_err env with
    | Some PopCanceled => (Stopped, w)
    | Some PopFailed => (Idle, w)
    | None =>
      match redis_BLPop JobQueueKey (w_redis w) with
      | None => (Idle, w)
      | Some (value, r) =>
        let w1 := set_redis r w in
        match json_Unmarshal value with
        | None => (Discarded, w1)
        | Some job =>
          let '(err, w2) := processJob (tn_job env) job w1 in
          (Ran job err, w2)
        end
      end
    end.

(** The loop, for as many turns as there are environments; it ends early when a
    turn returns. *)
Fixpoint worker (envs : list TurnEnv) (w : World) : list Turn * World :=
  match envs with
  | [] => ([], w)
  | env :: rest =>
      match worker_turn env w with
      | (Stopped, w') => ([ Stopped ], w')
      | (turn, w') => let '(turns, w'') := worker rest w' in (turn :: turns, w'')
      end
  end.

(** worker.EnqueueJob. *)
Definition EnqueueJob (env : EnqueueEnv) (assetID : UUID) (jobType : string) (w : World)
  : error * World :=
  let job := {| ID := uuid_String (eq_job_uuid env);
                AssetID := uuid_String assetID;
                Type_ := jobType |} in
  match json_Marshal job with
  | None => (Error "json: marshal failed", w)
  | Some data =>
      if eq_rpush_err env then (Error "rpush failed", w)
      else (NoError, set_redis (redis_RPush JobQueueKey data (w_redis w)) w)
  end.

End Pool.

(** ** Configuration *)

(** [getEnv] of both services; [getenv] is os.Getenv, empty for a variable that
    is not set. *)
Definition getEnv (getenv : string -> string) (key defaultValue : string) : string :=
  if String.eqb (getenv key) "" then defaultValue else getenv key.

Record RedisConfig := mkRedisConfig {
  URL : string
}.

Record ImgProxyConfig := mkImgProxyConfig {
  Key : string;
  Salt : string;
  BaseURL : string
}.

(** config.Config of media-api. *)
Record ApiConfig := mkApiConfig {
  Port : string;
  DatabaseURL : string;
  MinIO : StorageConfig;
  Redis : RedisConfig;
  ImgProxy : ImgProxyConfig;
  ac_PublicImgProxyURL : string;
  ac_PublicVODURL : string;
  ac_PublicThumbsURL : string
}.

(** What [Load] returns: the configuration, or the error. *)
Inductive Loaded :=
| LoadError (msg : string)
| LoadOk (cfg : ApiConfig).

Definition Load (getenv : string -> string) : Loaded :=
  let cfg :=
    {| Port := getEnv getenv "PORT" "8080";
       DatabaseURL := getEnv getenv "DATABASE_URL" "";
       ac_PublicImgProxyURL := getEnv getenv "PUBLIC_IMGPROXY_URL" "";
       ac_PublicVODURL := getEnv getenv "PUBLIC_VOD_URL" "";
       ac_PublicThumbsURL := getEnv getenv "PUBLIC_THUMBS_URL" "";
       MinIO :=
         {| Endpoint := getEnv getenv "MINIO_ENDPOINT" "localhost:9000";
            PublicEndpoint := getEnv getenv "PUBLIC_MINIO_ENDPOINT"
                                (getEnv getenv "MINIO_ENDPOINT" "localhost:9000");
            AccessKey := getEnv getenv "MINIO_ACCESS_KEY" "minio";
            SecretKey := getEnv getenv "MINIO_SECRET_KEY" "minio12345";
            UseSSL := String.eqb (getEnv getenv "MINIO_USE_SSL" "false") "true";
            UsePathStyle := String.eqb (getEnv getenv "MINIO_USE_PATH_STYLE" "true") "true";
            sc_BucketOriginals := "media-originals";
            sc_BucketImages := "media-images";
            sc_BucketVOD := "media-vod";
            sc_BucketThumbs := "media-thumbs" |};
       Redis := {| URL := getEnv getenv "REDIS_URL" "redis://localhost:6379/0" |};
       ImgProxy :=
         {| Key := getEnv getenv "IMGPROXY_KEY" "";
            Salt := getEnv getenv "IMGPROXY_SALT" "";
            BaseURL := getEnv getenv "IMGPROXY_BASE_URL" "http://imgproxy:8080" |} |} in
  if String.eqb (DatabaseURL cfg) "" then LoadError "DATABASE_URL is required"
  else if String.eqb (Key (ImgProxy cfg)) "" || String.eqb (Salt (ImgProxy cfg)) ""
  then LoadError "IMGPROXY_KEY and IMGPROXY_SALT are required"
  else LoadOk cfg.

(** The fields of the configuration that the handlers' [cfg] carries. *)
Definition handler_config (c : ApiConfig) : Config :=
  {| PublicImgProxyURL := ac_PublicImgProxyURL c;
     PublicVODURL := ac_PublicVODURL c;
     PublicThumbsURL := ac_PublicThumbsURL c |}.

(** [redisAddr[:i]] for the first [i] with [redisAddr[i] == '/'], the whole
    string when there is none: the [for ... range] loop of loadConfig. *)
Fixpoint cut_at_slash (s : string) : string :=
  match s with
  | EmptyString => ""
  | String c rest => if Ascii.eqb c "/" then "" else String c (cut_at_slash rest)
  end.

(** The Redis address loadConfig derives from REDIS_URL. *)
Definition redis_address (redisURL : string) : string :=
  let redisAddr := "redis:6379" in
  if String.eqb redisURL "" then redisAddr
  else if (8 <? String.length redisURL)%nat then
    let redisAddr := substring 8 (String.length redisURL - 8) redisURL in
    if (0 <? String.length redisAddr)%nat then cut_at_slash redisAddr else redisAddr
  else redisAddr.

(** Config of media-worker. *)
Record WorkerConfig := mkWorkerConfig {
  wc_DatabaseURL : string;
  wc_MinIOEndpoint : string;
  wc_MinIOAccessKey : string;
  wc_MinIOSecretKey : string;
  wc_MinIOUseSSL : bool;
  wc_RedisAddr : string;
  wc_Concurrency : Z;
  wc_TempDir : string
}.

(** [Sscanf_d c] is the integer [fmt.Sscanf(c, "%d", &n)] stores, [None] when
    it stores none. *)
Definition loadConfig (getenv : string -> string) (Sscanf_d : string -> option Z) : WorkerConfig :=
  let concurrency :=
    if String.eqb (getenv "WORKER_CONCURRENCY") "" then 2
    else default 2 (Sscanf_d (getenv "WORKER_CONCURRENCY")) in
  {| wc_DatabaseURL := getEnv getenv "DATABASE_URL" "";
     wc_MinIOEndpoint := getEnv getenv "MINIO_ENDPOINT" "minio:9000";
     wc_MinIOAccessKey := getEnv getenv "MINIO_ACCESS_KEY" "minio";
     wc_MinIOSecretKey := getEnv getenv "MINIO_SECRET_KEY" "minio12345";
     wc_MinIOUseSSL := String.eqb (getEnv getenv "MINIO_USE_SSL" "false") "true";
     wc_RedisAddr := redis_address (getenv "REDIS_URL");
     wc_Concurrency := concurrency;
     wc_TempDir := getEnv getenv "TEMP_DIR" "/tmp/worker" |}.

(** ** Schema migrations *)

(** The database as RunMigrations sees it: whether table schema_migrations
    exists, the versions recorded in it, and the migration scripts that were
    executed and committed, oldest first. *)
Record Schema := mkSchema {
  sm_table : bool;
  sm_versions : gset Z;
  sm_applied : list string
}.

(** What the outside world answers during one RunMigrations call, per version
    where a migration is concerned. *)
Record MigrateEnv := mkMigrateEnv {
  mg_create_err : bool;              (* CREATE TABLE IF NOT EXISTS fails *)
  mg_check_err : Z -> bool;          (* SELECT EXISTS(...) fails *)
  mg_begin_err : Z -> bool;          (* pool.Begin fails *)
  mg_exec_err : Z -> bool;           (* the script fails *)
  mg_record_err : Z -> bool;         (* INSERT INTO schema_migrations fails *)
  mg_commit_err : Z -> bool          (* tx.Commit fails *)
}.

Definition migrations : list (Z * string) :=
  [ (1, "migrations/001_initial_schema.sql") ].

Section Migrations.

(** The files embedded by [//go:embed migrations/*.sql]. *)
Variable migrationsFS : string -> option string.

(** The body of the loop of RunMigrations for one migration [m]; a transaction
    that is rolled back, or whose commit fails, leaves the database as it was. *)
Definition run_migration (env : MigrateEnv) (m : Z * string) (s : Schema) : error * Schema :=
  let '(version, file) := m in
  if mg_check_err env version then (Error "failed to check migration", s)
  else if bool_decide (version ∈ sm_versions s) then (NoError, s)
  else
    match migrationsFS file with
    | None => (Error "failed to read migration", s)
    | Some sql =>
      if mg_begin_err env version
      then (Error "failed to begin transaction for migration", s)
      else if mg_exec_err env version
      then (Error "failed to execute migration", s)
      else if mg_record_err env version
      then (Error "failed to record migration", s)
      else if mg_commit_err env version
      then (Error "failed to commit migration", s)
      else (NoError, {| sm_table := sm_table s;
                        sm_versions := {[ version ]} ∪ sm_versions s;
                        sm_applied := (sm_applied s ++ [ sql ])%list |})
    end.

Fixpoint run_migrations (env : MigrateEnv) (ms : list (Z * string)) (s : Schema)
  : error * Schema :=
  match ms with
  | [] => (NoError, s)
  | m :: rest =>
      match run_migration env m s with
      | (Error e, s') => (Error e, s')
      | (NoError, s') => run_migrations env rest s'
      end
  end.

Definition RunMigrations (env : MigrateEnv) (s : Schema) : error * Schema :=
  if mg_create_err env then (Error "failed to create migrations table", s)
  else
    (* a table that did not exist is created empty *)
    let s1 := {| sm_table := true;
                 sm_versions := if sm_table s then sm_versions s else ∅;
                 sm_applied := sm_applied s |} in
    run_migrations env migrations s1.

End Migrations.

(** ** Concrete instances for the other handlers and the pool *)

Definition ex_storage_config : StorageConfig :=
  {| Endpoint := "minio:9000";
     PublicEndpoint := "media.example.org";
     AccessKey := "minio";
     SecretKey := "minio12345";
     UseSSL := false;
     UsePathStyle := true;
     sc_BucketOriginals := "media-originals";
     sc_BucketImages := "media-images";
     sc_BucketVOD := "media-vod";
     sc_BucketThumbs := "media-thumbs" |}.

Definition ex_presign (bucket key : string) (expires : Z) : option string :=
  Some ("https://media.example.org/" ++ bucket ++ "/" ++ key ++ "?X-Amz-Signature=0123").

Definition ex_init_env (presign : string -> string -> Z -> option string) : InitEnv :=
  {| ie_uuid := 7%N;
     ie_date := "2025/01/02";
     ie_now := 100;
     ie_insert_err := false;
     ie_presign := presign |}.

Definition ex_init_request (kind : string) : InitUploadRequest :=
  {| MimeType := "video/mp4"; Kind := kind; Filename := "clip.mp4"; Size := 1048576 |}.

Definition ex_empty_world : World :=
  {| w_db := {| assets := ∅; asset_meta := ∅; processing_jobs := [] |};
     w_redis := ∅;
     w_store := ∅ |}.

Definition ex_InitUpload : InitEnv -> World -> option InitUploadRequest -> Reply * World :=
  InitUpload ex_uuid_String ex_filepath_Ext ex_storage_config.

Definition ex_GetAsset : bool -> World -> string -> Reply :=
  GetAsset ex_uuid_Parse ex_uuid_String ex_SignURL ex_config.

Definition ex_DeleteAsset : DeleteEnv -> World -> string -> Reply * World :=
  DeleteAsset ex_uuid_Parse.

Definition ex_delete_env (storageErr : bool) : DeleteEnv :=
  {| de_query_err := false; de_storage_err := storageErr; de_delete_err := false |}.

Definition ex_id_string : string := "00000000-0000-0000-0000-000000000007".

(** A decoder for the payloads [ex_json_Marshal] writes for the jobs of the
    examples. *)
Definition ex_jobs : list Job :=
  [ ex_transcode_job;
    {| ID := ex_uuid_String 8%N; AssetID := ex_uuid_String 7%N; Type_ := "extract_meta" |};
    {| ID := ex_uuid_String 8%N; AssetID := ex_uuid_String 7%N; Type_ := "resize" |} ].

Definition ex_json_Unmarshal (s : string) : option Job :=
  List.find (fun job => String.eqb (default "" (ex_json_Marshal job)) s) ex_jobs.

Definition ex_turn_env (job : TranscodeEnv) : TurnEnv :=
  {| tn_done := false; tn_pop_err := None; tn_job := job |}.

Definition ex_worker_turn : TurnEnv -> World -> Turn * World :=
  worker_turn ex_uuid_Parse ex_uuid_String ex_json_Unmarshal
    ex_filepath_Join ex_filepath_Ext (New None).

Definition ex_all_good : TranscodeEnv :=
  ex_transcode_env false (CmdOutput "{}") (CmdOutput "").

Definition ex_no_presign (bucket key : string) (expires : Z) : option string := None.

Definition ex_proxy_env : ProxyEnv :=
  {| pe_request_err := false;
     pe_Do := fun _ =>
       Fetched 200 (<["Cache-Control" := [ "no-store" ]]>
                      (<["Content-Type" := [ "image/webp" ]]> ∅)) "webp bytes" |}.

(** A job environment in which every upload to the VOD bucket fails. *)
Definition ex_vod_down : TranscodeEnv :=
  {| te_now := 300;
     te_asset_query_err := false;
     te_mkdir_work_err := false;
     te_download_err := false;
     te_exec := ex_exec (CmdOutput "{}") (CmdOutput "audio") (CmdOutput "") (CmdOutput "");
     te_save_meta_err := false;
     te_mkdir_hls_err := false;
     te_mark_failed_err := false;
     te_hls_walk := ex_hls_files;
     te_poster_data := "jpeg bytes";
     te_put_err := fun bucket _ => String.eqb bucket "media-vod";
     te_mark_ready_err := false |}.

Definition ex_ExtractMetadata : TranscodeEnv -> UUID -> World -> error * World :=
  ExtractMetadata ex_uuid_String ex_filepath_Join ex_filepath_Ext (New None).

(** The world of [ex_world] with the given payloads pending. *)
Definition ex_queue_world (kind state : string) (payloads : list string) : World :=
  set_redis {[ JobQueueKey := payloads ]} (ex_world kind state).

Definition ex_worker : list TurnEnv -> World -> list Turn * World :=
  worker ex_uuid_Parse ex_uuid_String ex_json_Unmarshal
    ex_filepath_Join ex_filepath_Ext (New None).

Definition ex_enqueue_env : EnqueueEnv :=
  {| eq_job_uuid := 8%N; eq_rpush_err := false |}.

Definition ex_extract_job : Job :=
  {| ID := ex_uuid_String 8%N; AssetID := ex_uuid_String 7%N; Type_ := "extract_meta" |}.

Definition ex_complete_env_with (readyErr rpushErr : bool) : CompleteEnv :=
  {| ce_now := 200;
     ce_claim_err := false;
     ce_kind_err := false;
     ce_ready_err := readyErr;
     ce_job_uuid := 9%N;
     ce_rpush_err := rpushErr |}.

Definition ex_migrationsFS (file : string) : option string :=
  if String.eqb file "migrations/001_initial_schema.sql"
  then Some "CREATE TABLE IF NOT EXISTS assets (id UUID PRIMARY KEY)"
  else None.

Definition ex_migrate_env (execErr : bool) : MigrateEnv :=
  {| mg_create_err := false;
     mg_check_err := fun _ => false;
     mg_begin_err := fun _ => false;
     mg_exec_err := fun _ => execErr;
     mg_record_err := fun _ => false;
     mg_commit_err := fun _ => false |}.

Definition ex_blank_schema : Schema :=
  {| sm_table := false; sm_versions := ∅; sm_applied := [] |}.

(** * Properties *)

(** ** Worlds and SQL statements *)

Lemma set_db_same w : set_db (w_db w) w = w.
Proof. by destruct w. Qed.

Lemma set_store_same w : set_store (w_store w) w = w.
Proof. by destruct w. Qed.

Lemma sql_claim_upload_hit now id d a :
  assets d !! id = Some a ->
  a_state a = "uploading" ->
  sql_claim_upload now id d =
    (set_assets (<[id := with_state now "processing" a]> (assets d)) d, 1).
Proof.
  intros Hrow Hst. unfold sql_claim_upload. by rewrite Hrow, Hst.
Qed.

(** The state guard: a row that is missing or not in [uploading] is not touched
    and no row is reported as affected. *)
Lemma sql_claim_upload_miss now id d :
  guard_closed id d ->
  sql_claim_upload now id d = (d, 0).
Proof.
  intros Hguard. unfold sql_claim_upload.
  destruct (assets d !! id) as [a|] eqn:Hrow; [|done].
  destruct (String.eqb (a_state a) "uploading") eqn:Heq; [|done].
  apply String.eqb_eq in Heq. by destruct (Hguard a).
Qed.

Lemma sql_claim_upload_affected now id d d' n :
  sql_claim_upload now id d = (d', n) ->
  n <> 0 ->
  exists a, assets d !! id = Some a /\ a_state a = "uploading" /\
            d' = set_assets (<[id := with_state now "processing" a]> (assets d)) d.
Proof.
  unfold sql_claim_upload. intros Hq Hn.
  destruct (assets d !! id) as [a|] eqn:Hrow; [|by inversion Hq; subst].
  destruct (String.eqb (a_state a) "uploading") eqn:Heq; [|by inversion Hq; subst].
  apply String.eqb_eq in Heq. inversion Hq; subst. eauto.
Qed.

Lemma sql_set_state_hit now st id d a :
  assets d !! id = Some a ->
  sql_set_state now st id d = (set_assets (<[id := with_state now st a]> (assets d)) d, 1).
Proof. intros Hrow. unfold sql_set_state. by rewrite Hrow. Qed.

(** No statement on table [assets] writes another table. *)
Lemma sql_claim_upload_jobs now id d :
  processing_jobs (fst (sql_claim_upload now id d)) = processing_jobs d.
Proof.
  unfold sql_claim_upload. destruct (assets d !! id) as [a|]; [|done].
  by destruct (String.eqb (a_state a) "uploading").
Qed.

Lemma sql_set_state_jobs now st id d :
  processing_jobs (fst (sql_set_state now st id d)) = processing_jobs d.
Proof. unfold sql_set_state. by destruct (assets d !! id). Qed.

Lemma sql_set_state_meta now st id d :
  asset_meta (fst (sql_set_state now st id d)) = asset_meta d.
Proof. unfold sql_set_state. by destruct (assets d !! id). Qed.

Lemma sql_set_state_other now st id d id' :
  id <> id' ->
  assets (fst (sql_set_state now st id d)) !! id' = assets d !! id'.
Proof.
  intros Hne. unfold sql_set_state. destruct (assets d !! id) as [a|]; [|done].
  simpl. by rewrite lookup_insert_ne.
Qed.

(** ** CompleteUpload *)

Section ApiProperties.

Variable uuid_Parse : string -> option UUID.
Variable uuid_String : UUID -> string.
Variable json_Marshal : Job -> option string.


Lemma mark_ready_redis env id w : w_redis (mark_ready env id w) = w_redis w.
Proof.
  unfold mark_ready, db_Exec. destruct (ce_ready_err env); [done|].
  by destruct (sql_set_state _ _ _ _).
Qed.

Lemma mark_ready_jobs env id w :
  processing_jobs (w_db (mark_ready env id w)) = processing_jobs (w_db w).
Proof.
  unfold mark_ready, db_Exec. destruct (ce_ready_err env); [done|].
  pose proof (sql_set_state_jobs (ce_now env) "ready" id (w_db w)) as H.
  by destruct (sql_set_state _ _ _ _).
Qed.

Lemma enqueue_transcode_db env id w :
  w_db (enqueue_transcode uuid_String json_Marshal env id w) = w_db w.
Proof.
  unfold enqueue_transcode. destruct (json_Marshal _); [|done].
  by destruct (ce_rpush_err env).
Qed.

(** Whatever the queue and the marshaller answer, the video branch leaves the
    queue as it was or longer by the one job it built. *)
Lemma enqueue_transcode_at_most_one env id w :
  enqueue_transcode uuid_String json_Marshal env id w = w \/
  exists jobData,
    json_Marshal {| ID := uuid_String (ce_job_uuid env);
                    AssetID := uuid_String id;
                    Type_ := "transcode" |} = Some jobData /\
    enqueue_transcode uuid_String json_Marshal env id w
    = set_redis (redis_RPush JobQueueKey jobData (w_redis w)) w.
Proof.
  unfold enqueue_transcode. destruct (json_Marshal _) as [jobData|]; [|by left].
  destruct (ce_rpush_err env); [by left|]. right. eauto.
Qed.

Lemma pending_jobs_RPush jobData w0 w :
  w_redis w0 = w_redis w ->
  pending_jobs (set_redis (redis_RPush JobQueueKey jobData (w_redis w0)) w0)
  = (pending_jobs w ++ [jobData])%list.
Proof.
  intros Hr. unfold pending_jobs, redis_RPush. simpl. by rewrite lookup_insert_eq, Hr.
Qed.

(** C1: CompleteUpload on a video asset in state uploading, when the database
    statements and the queue push go through: the row moves to processing, the
    queue media:jobs:pending grows by exactly the one payload that marshals the
    job {type "transcode", assetId the asset's id}, no other Redis key changes,
    and the response is 200 with state processing. *)
Theorem C1_video_upload_enqueues_one_transcode_job
    (env : CompleteEnv) (w : World) (req : CompleteUploadRequest)
    (id : UUID) (a : Asset) (jobData : string) :
  uuid_Parse (req_AssetID req) = Some id ->
  assets (w_db w) !! id = Some a ->
  a_kind a = "video" ->
  a_state a = "uploading" ->
  ce_claim_err env = false ->
  ce_kind_err env = false ->
  ce_rpush_err env = false ->
  json_Marshal {| ID := uuid_String (ce_job_uuid env);
                  AssetID := uuid_String id;
                  Type_ := "transcode" |} = Some jobData ->
  let '(resp, w') := CompleteUpload uuid_Parse uuid_String json_Marshal env w (Some req) in
  resp = respondJSON 200 (CompleteUploadJSON
           {| State := "processing"; Message := "Upload completed successfully" |}) /\
  assets (w_db w') !! id = Some (with_state (ce_now env) "processing" a) /\
  (forall id', id' <> id -> assets (w_db w') !! id' = assets (w_db w) !! id') /\
  pending_jobs w' = (pending_jobs w ++ [jobData])%list /\
  (forall key, key <> JobQueueKey -> w_redis w' !! key = w_redis w !! key).
Proof.
  intros Hparse Hrow Hkind Hstate Hclaim Hsel Hpush Hjson.
  unfold CompleteUpload. rewrite Hparse.
  unfold db_Exec. rewrite Hclaim, (sql_claim_upload_hit _ _ _ _ Hrow Hstate).
  cbn [Z.eqb]. unfold db_QueryRow, sql_select_kind. rewrite Hsel.
  cbn [w_db set_db set_assets assets]. rewrite lookup_insert_eq.
  cbn [fmap option_fmap option_map with_state a_kind]. rewrite Hkind.
  cbn [String.eqb Ascii.eqb Bool.eqb].
  unfold enqueue_transcode. rewrite Hjson, Hpush.
  cbn [w_db set_db set_redis set_assets assets w_redis].
  repeat split.
  - apply lookup_insert_eq.
  - intros id' Hne. by rewrite lookup_insert_ne.
  - unfold pending_jobs, redis_RPush. cbn [w_redis set_redis set_db]. by rewrite lookup_insert_eq.
  - intros key Hne. unfold redis_RPush. by rewrite lookup_insert_ne.
Qed.

(** C5: CompleteUpload on an image asset in state uploading, when the database
    statements go through: the row is ready when the handler returns, Redis is
    untouched, and the response is 200 with state ready. *)
Theorem C5_image_upload_ready_without_job
    (env : CompleteEnv) (w : World) (req : CompleteUploadRequest)
    (id : UUID) (a : Asset) :
  uuid_Parse (req_AssetID req) = Some id ->
  assets (w_db w) !! id = Some a ->
  a_kind a = "image" ->
  a_state a = "uploading" ->
  ce_claim_err env = false ->
  ce_kind_err env = false ->
  ce_ready_err env = false ->
  let '(resp, w') := CompleteUpload uuid_Parse uuid_String json_Marshal env w (Some req) in
  resp = respondJSON 200 (CompleteUploadJSON
           {| State := "ready"; Message := "Upload completed successfully" |}) /\
  a_state <$> assets (w_db w') !! id = Some "ready" /\
  w_redis w' = w_redis w.
Proof.
  intros Hparse Hrow Hkind Hstate Hclaim Hsel Hready.
  unfold CompleteUpload. rewrite Hparse.
  unfold db_Exec. rewrite Hclaim, (sql_claim_upload_hit _ _ _ _ Hrow Hstate).
  cbn [Z.eqb]. unfold db_QueryRow, sql_select_kind. rewrite Hsel.
  cbn [w_db set_db set_assets assets]. rewrite lookup_insert_eq.
  cbn [fmap option_fmap option_map with_state a_kind]. rewrite Hkind.
  cbn [String.eqb Ascii.eqb Bool.eqb].
  split; [done|]. split; [|by rewrite mark_ready_redis].
  unfold mark_ready, db_Exec. rewrite Hready.
  erewrite sql_set_state_hit by (cbn; apply lookup_insert_eq).
  cbn. by rewrite lookup_insert_eq.
Qed.

(** After a request answered 200 the row of the asset is no longer in state
    uploading. *)
Lemma CompleteUpload_ok_leaves_uploading env w body :
  status (fst (CompleteUpload uuid_Parse uuid_String json_Marshal env w body)) = 200 ->
  exists req id,
    body = Some req /\ uuid_Parse (req_AssetID req) = Some id /\
    guard_closed id (w_db (snd (CompleteUpload uuid_Parse uuid_String json_Marshal env w body))).
Proof.
  unfold CompleteUpload.
  destruct body as [req|]; [|discriminate].
  destruct (uuid_Parse (req_AssetID req)) as [id|] eqn:Hparse; [|discriminate].
  unfold db_Exec. destruct (ce_claim_err env); [discriminate|].
  destruct (sql_claim_upload (ce_now env) id (w_db w)) as [d n] eqn:Hq.
  destruct (n =? 0) eqn:Hn; [discriminate|]. apply Z.eqb_neq in Hn.
  destruct (sql_claim_upload_affected _ _ _ _ _ Hq Hn) as (a0 & Hrow & Hst & ->).
  unfold db_QueryRow, sql_select_kind. destruct (ce_kind_err env); [discriminate|].
  cbn [w_db set_db set_assets assets]. rewrite lookup_insert_eq.
  cbn [fmap option_fmap option_map with_state a_kind].
  intros _. exists req, id. split; [done|]. split; [done|].
  assert (Hready : forall w1 a,
            assets (w_db w1) !! id = Some (with_state (ce_now env) "processing" a0) ->
            assets (w_db (mark_ready env id w1)) !! id = Some a ->
            a_state a <> "uploading").
  { intros w1 a Hw1. unfold mark_ready, db_Exec.
    destruct (ce_ready_err env).
    - rewrite Hw1. intros [= <-]. discriminate.
    - rewrite (sql_set_state_hit _ _ _ _ _ Hw1). cbn. rewrite lookup_insert_eq.
      intros [= <-]. discriminate. }
  destruct (String.eqb (a_kind a0) "image"); [|destruct (String.eqb (a_kind a0) "video")];
    cbn [snd]; intros a.
  - apply Hready. cbn. apply lookup_insert_eq.
  - rewrite enqueue_transcode_db. cbn. rewrite lookup_insert_eq. intros [= <-]. discriminate.
  - apply Hready. cbn. apply lookup_insert_eq.
Qed.

(** A request for a row that the state guard does not match is answered 404 and
    changes nothing. *)
Lemma CompleteUpload_guard_rejects env w req id :
  uuid_Parse (req_AssetID req) = Some id ->
  guard_closed id (w_db w) ->
  ce_claim_err env = false ->
  CompleteUpload uuid_Parse uuid_String json_Marshal env w (Some req)
  = (respondError 404 "Asset not found or already processed", w).
Proof.
  intros Hparse Hguard Hclaim. unfold CompleteUpload.
  rewrite Hparse. unfold db_Exec. rewrite Hclaim, (sql_claim_upload_miss _ _ _ Hguard).
  cbn [Z.eqb]. by rewrite set_db_same.
Qed.

(** C2: when a first CompleteUpload is answered 200, a second CompleteUpload
    with the same body, whose guarded UPDATE is executed by the database, is
    answered 404 "Asset not found or already processed" and leaves the database
    (hence the asset's state), Redis and the object store exactly as the first
    call left them; the asset's kind plays no part. *)
Theorem C2_second_complete_upload_is_not_found
    (env1 env2 : CompleteEnv) (w : World) (body : option CompleteUploadRequest) :
  status (fst (CompleteUpload uuid_Parse uuid_String json_Marshal env1 w body)) = 200 ->
  ce_claim_err env2 = false ->
  let w1 := snd (CompleteUpload uuid_Parse uuid_String json_Marshal env1 w body) in
  CompleteUpload uuid_Parse uuid_String json_Marshal env2 w1 body
  = (respondError 404 "Asset not found or already processed", w1).
Proof.
  intros Hok Hclaim.
  destruct (CompleteUpload_ok_leaves_uploading _ _ _ Hok) as (req & id & -> & Hparse & Hst).
  cbv zeta. by apply CompleteUpload_guard_rejects with id.
Qed.

(** CompleteUpload never writes table processing_jobs. *)
Lemma CompleteUpload_processing_jobs env w body :
  processing_jobs (w_db (snd (CompleteUpload uuid_Parse uuid_String json_Marshal env w body)))
  = processing_jobs (w_db w).
Proof.
  unfold CompleteUpload.
  destruct body as [req|]; [|done].
  destruct (uuid_Parse (req_AssetID req)) as [id|]; [|done].
  unfold db_Exec. destruct (ce_claim_err env); [done|].
  pose proof (sql_claim_upload_jobs (ce_now env) id (w_db w)) as Hj.
  destruct (sql_claim_upload (ce_now env) id (w_db w)) as [d n]. cbn [fst] in Hj.
  destruct (n =? 0); [done|].
  destruct (db_QueryRow _ _ _) as [kind|]; [|done].
  destruct (String.eqb kind "image"); [|destruct (String.eqb kind "video")]; cbn [snd].
  - by rewrite mark_ready_jobs.
  - by rewrite enqueue_transcode_db.
  - by rewrite mark_ready_jobs.
Qed.

(** C8 (amended): CompleteUpload on a video asset in state uploading, when the
    database statements and the queue push go through, hands the work over as
    one payload on the Redis list media:jobs:pending, and table processing_jobs
    is left exactly as it was: no ProcessingJob row is created. *)
Theorem C8_job_is_queue_resident_only
    (env : CompleteEnv) (w : World) (req : CompleteUploadRequest)
    (id : UUID) (a : Asset) (jobData : string) :
  uuid_Parse (req_AssetID req) = Some id ->
  assets (w_db w) !! id = Some a ->
  a_kind a = "video" ->
  a_state a = "uploading" ->
  ce_claim_err env = false ->
  ce_kind_err env = false ->
  ce_rpush_err env = false ->
  json_Marshal {| ID := uuid_String (ce_job_uuid env);
                  AssetID := uuid_String id;
                  Type_ := "transcode" |} = Some jobData ->
  let w' := snd (CompleteUpload uuid_Parse uuid_String json_Marshal env w (Some req)) in
  pending_jobs w' = (pending_jobs w ++ [jobData])%list /\
  processing_jobs (w_db w') = processing_jobs (w_db w).
Proof.
  intros Hparse Hrow Hkind Hstate Hclaim Hsel Hpush Hjson. cbv zeta.
  split; [|apply CompleteUpload_processing_jobs].
  unfold CompleteUpload. rewrite Hparse.
  unfold db_Exec. rewrite Hclaim, (sql_claim_upload_hit _ _ _ _ Hrow Hstate).
  cbn [Z.eqb]. unfold db_QueryRow, sql_select_kind. rewrite Hsel.
  cbn [w_db set_db set_assets assets]. rewrite lookup_insert_eq.
  cbn [fmap option_fmap option_map with_state a_kind]. rewrite Hkind.
  cbn [String.eqb Ascii.eqb Bool.eqb snd].
  unfold enqueue_transcode. rewrite Hjson, Hpush.
  by apply pending_jobs_RPush.
Qed.

(** X27: on every path, whatever the collaborators answer, CompleteUpload leaves
    Redis as it was or appends to media:jobs:pending the one transcode job of
    the asset named in the request. *)
Lemma CompleteUpload_pushes_at_most_one_job env w body :
  let w' := snd (CompleteUpload uuid_Parse uuid_String json_Marshal env w body) in
  w_redis w' = w_redis w \/
  exists req id jobData,
    body = Some req /\
    uuid_Parse (req_AssetID req) = Some id /\
    json_Marshal {| ID := uuid_String (ce_job_uuid env);
                    AssetID := uuid_String id;
                    Type_ := "transcode" |} = Some jobData /\
    w_redis w' = redis_RPush JobQueueKey jobData (w_redis w).
Proof.
  cbv zeta. unfold CompleteUpload.
  destruct body as [req|]; [|by left].
  destruct (uuid_Parse (req_AssetID req)) as [id|] eqn:Hparse; [|by left].
  unfold db_Exec. destruct (ce_claim_err env); [by left|].
  destruct (sql_claim_upload (ce_now env) id (w_db w)) as [d n].
  destruct (n =? 0); [by left|].
  destruct (db_QueryRow _ _ _) as [kind|]; [|by left].
  destruct (String.eqb kind "image"); [|destruct (String.eqb kind "video")]; cbn [snd].
  - left. by rewrite mark_ready_redis.
  - destruct (enqueue_transcode_at_most_one env id (set_db d w)) as [->|(jobData & Hjson & ->)].
    + by left.
    + right. exists req, id, jobData. done.
  - left. by rewrite mark_ready_redis.
Qed.

(** X28: the failure window of the video branch: when RPUSH fails the handler still
    answers 200 with state processing, the row stays in processing and nothing
    is queued. *)
Lemma video_upload_push_failure_is_swallowed
    (env : CompleteEnv) (w : World) (req : CompleteUploadRequest) (id : UUID) (a : Asset) :
  uuid_Parse (req_AssetID req) = Some id ->
  assets (w_db w) !! id = Some a ->
  a_kind a = "video" ->
  a_state a = "uploading" ->
  ce_claim_err env = false ->
  ce_kind_err env = false ->
  ce_rpush_err env = true ->
  let '(resp, w') := CompleteUpload uuid_Parse uuid_String json_Marshal env w (Some req) in
  resp = respondJSON 200 (CompleteUploadJSON
           {| State := "processing"; Message := "Upload completed successfully" |}) /\
  a_state <$> assets (w_db w') !! id = Some "processing" /\
  w_redis w' = w_redis w.
Proof.
  intros Hparse Hrow Hkind Hstate Hclaim Hsel Hpush.
  unfold CompleteUpload. rewrite Hparse.
  unfold db_Exec. rewrite Hclaim, (sql_claim_upload_hit _ _ _ _ Hrow Hstate).
  cbn [Z.eqb]. unfold db_QueryRow, sql_select_kind. rewrite Hsel.
  cbn [w_db set_db set_assets assets]. rewrite lookup_insert_eq.
  cbn [fmap option_fmap option_map with_state a_kind]. rewrite Hkind.
  cbn [String.eqb Ascii.eqb Bool.eqb].
  unfold enqueue_transcode. rewrite Hpush.
  destruct (json_Marshal _); cbn; by rewrite lookup_insert_eq.
Qed.

End ApiProperties.

(** ** ListAssets *)

Lemma Forall_of_sublist {A} (P : A -> Prop) (k l : list A) :
  k `sublist_of` l -> Forall P l -> Forall P k.
Proof.
  induction 1 as [|x k l _ IH|x k l _ IH]; intros Hl.
  - constructor.
  - apply Forall_cons in Hl as [Hx Hl]. constructor; auto.
  - apply Forall_cons in Hl as [_ Hl]. auto.
Qed.

Lemma StronglySorted_of_sublist {A} (R : relation A) (k l : list A) :
  k `sublist_of` l -> StronglySorted R l -> StronglySorted R k.
Proof.
  induction 1 as [|x k l Hkl IH|x k l Hkl IH]; intros Hl.
  - constructor.
  - apply StronglySorted_cons in Hl as [Hx Hl].
    apply StronglySorted_cons. split; [|auto]. by apply Forall_of_sublist with l.
  - apply StronglySorted_cons in Hl as [_ Hl]. auto.
Qed.

Lemma newer_first_transitive : Transitive newer_first.
Proof. unfold newer_first. intros x y z Hxy Hyz. lia. Qed.

Lemma newer_first_total : Total newer_first.
Proof. unfold newer_first. intros x y. lia. Qed.

(** The query result: at most 50 rows, newest first, each a row of the table. *)
Lemma sql_list_assets_length d : (length (sql_list_assets d) <= 50)%nat.
Proof. unfold sql_list_assets. rewrite length_fmap, length_take. lia. Qed.

Lemma sql_list_assets_sorted d :
  StronglySorted (fun x y => a_created_at (jr_asset y) <= a_created_at (jr_asset x))
                 (sql_list_assets d).
Proof.
  unfold sql_list_assets.
  apply (StronglySorted_fmap _ newer_first); [by intros x y|].
  apply StronglySorted_of_sublist with (merge_sort newer_first (map_to_list (assets d))).
  - apply sublist_take.
  - apply StronglySorted_merge_sort; [apply newer_first_transitive|apply newer_first_total].
Qed.

Lemma sql_list_assets_rows d row :
  row ∈ sql_list_assets d ->
  exists a, assets d !! jr_id row = Some a /\ row = join_meta d (jr_id row, a).
Proof.
  unfold sql_list_assets. intros Hin.
  apply list_elem_of_fmap in Hin as ([id a] & -> & Hin).
  apply elem_of_sublist with (l2 := merge_sort newer_first (map_to_list (assets d))) in Hin;
    [|apply sublist_take].
  rewrite merge_sort_Permutation in Hin.
  apply elem_of_map_to_list in Hin. exists a. by cbn.
Qed.

Section ListProperties.

Variable uuid_String : UUID -> string.
Variable imgproxy_SignURL : string -> string -> string.
Variable cfg : Config.

(** The scan loop appends, in order, the rows whose Scan succeeds. *)
Lemma scan_rows_filter env rows acc :
  scan_rows uuid_String imgproxy_SignURL cfg env rows acc
  = (acc ++ (scanned uuid_String imgproxy_SignURL cfg
               <$> filter (fun row => le_scan_err env (jr_id row) = false) rows))%list.
Proof.
  revert acc. induction rows as [|row rows IH]; intros acc; cbn [scan_rows].
  - by rewrite app_nil_r.
  - rewrite filter_cons. destruct (le_scan_err env (jr_id row)) eqn:Herr.
    + rewrite IH. by rewrite decide_False by done.
    + rewrite IH, decide_True by done. by rewrite <- app_assoc.
Qed.

Lemma rows_delivered_sublist env rows : rows_delivered env rows `sublist_of` rows.
Proof. unfold rows_delivered. destruct (le_rows_delivered env); [apply sublist_take|done]. Qed.

(** C10: ListAssets changes nothing; when the query fails it answers 500, and
    otherwise it answers 200 with a page of at most 50 assets, every one a row
    of table assets, ordered newest first by creation time, whose total is the
    length of that page (so at most 50, and never more than the table holds). *)
Theorem C10_list_assets_page_and_total (env : ListEnv) (w : World) :
  let '(resp, w') := ListAssets uuid_String imgproxy_SignURL cfg env w in
  w' = w /\
  status resp = (if le_query_err env then 500 else 200) /\
  match payload resp with
  | AssetListJSON page total =>
      le_query_err env = false /\
      total = Z.of_nat (length page) /\
      (length page <= 50)%nat /\
      total <= 50 /\
      (length page <= size (assets (w_db w)))%nat /\
      StronglySorted newest_first page /\
      Forall (fun r => exists id a,
                assets (w_db w) !! id = Some a /\
                r = scanned uuid_String imgproxy_SignURL cfg (join_meta (w_db w) (id, a)))
             page
  | ErrorJSON message =>
      le_query_err env = true /\ message = "Failed to list assets"
  | CompleteUploadJSON _ => False
  end.
Proof.
  unfold ListAssets. destruct (le_query_err env) eqn:Hq; cbn.
  { done. }
  split; [done|]. split; [done|]. split; [done|]. split; [done|].
  rewrite scan_rows_filter. cbn [app].
  set (rows := sql_list_assets (w_db w)).
  set (kept := filter _ (rows_delivered env rows)).
  assert (Hsub : kept `sublist_of` rows).
  { etrans; [apply sublist_filter|apply rows_delivered_sublist]. }
  assert (Hlen : (length kept <= 50)%nat).
  { apply sublist_length in Hsub. pose proof (sql_list_assets_length (w_db w)). subst rows. lia. }
  rewrite length_fmap.
  split; [done|]. split; [lia|]. split.
  { apply sublist_length in Hsub. subst rows. unfold sql_list_assets in Hsub.
    rewrite length_fmap, length_take in Hsub.
    rewrite (Permutation_length (merge_sort_Permutation _ _)) in Hsub.
    rewrite length_map_to_list in Hsub. lia. }
  split.
  - apply (StronglySorted_fmap _
             (fun x y => a_created_at (jr_asset y) <= a_created_at (jr_asset x))).
    { by intros x y. }
    apply StronglySorted_of_sublist with rows; [done|apply sql_list_assets_sorted].
  - apply Forall_fmap, Forall_forall. intros row Hin.
    apply elem_of_sublist with (l2 := rows) in Hin; [|done].
    apply sql_list_assets_rows in Hin as (a & Hrow & Heq).
    exists (jr_id row), a. split; [done|]. cbn. by rewrite <- Heq.
Qed.

End ListProperties.

(** ** The ffmpeg command line of transcodeToHLS *)

Section CommandLine.

Variable filepath_Join : string -> string -> string.
Variable env : TranscodeEnv.

(** C6: the command line transcodeToHLS builds, read back option by option.
    When the audio probe reports a stream: the codec options are aac, 48000 Hz,
    128k, four audio streams are mapped after the four video streams, and each
    of the four variants of the stream map pairs video stream i with audio
    stream i.  When it reports none (or fails): the stream map is exactly
    "v:0 v:1 v:2 v:3", its variants name a video stream only, nothing but the
    four video streams is mapped and none of -c:a, -ar, -b:a is given. *)
Theorem C6_audio_only_when_probed (inputPath outputDir : string) :
  let args := ffmpeg_hls_invocation filepath_Join env inputPath outputDir in
  if videoHasAudio env inputPath then
    option_values "-var_stream_map" args = [ "v:0,a:0 v:1,a:1 v:2,a:2 v:3,a:3" ] /\
    variants args = [ [ "v:0"; "a:0" ]; [ "v:1"; "a:1" ]; [ "v:2"; "a:2" ]; [ "v:3"; "a:3" ] ] /\
    option_values "-map" args
      = [ "0:v:0"; "0:v:0"; "0:v:0"; "0:v:0"; "0:a:0?"; "0:a:0?"; "0:a:0?"; "0:a:0?" ] /\
    video_streams args = 4%nat /\
    audio_streams args = 4%nat /\
    option_values "-c:a" args = [ "aac" ] /\
    option_values "-ar" args = [ "48000" ] /\
    option_values "-b:a" args = [ "128k" ]
  else
    option_values "-var_stream_map" args = [ "v:0 v:1 v:2 v:3" ] /\
    variants args = [ [ "v:0" ]; [ "v:1" ]; [ "v:2" ]; [ "v:3" ] ] /\
    option_values "-map" args = [ "0:v:0"; "0:v:0"; "0:v:0"; "0:v:0" ] /\
    video_streams args = 4%nat /\
    audio_streams args = 0%nat /\
    option_values "-c:a" args = [] /\
    option_values "-ar" args = [] /\
    option_values "-b:a" args = [].
Proof.
  unfold ffmpeg_hls_invocation.
  destruct (videoHasAudio env inputPath); cbv zeta; repeat split; reflexivity.
Qed.

(** C7 (amended): the command line encodes exactly four rungs, 1920x1080 at
    5000k, 1280x720 at 3000k, 854x480 at 1500k and 640x360 at 800k; on each the
    max-rate is 7% above the target bitrate and the buffer size is 1.5 times the
    target bitrate (not 1.5 times the max-rate). *)
Theorem C7_ladder_rates (inputPath outputDir : string) :
  let args := ffmpeg_hls_invocation filepath_Join env inputPath outputDir in
  ladder args = [ Some rung_1080p; Some rung_720p; Some rung_480p; Some rung_360p ] /\
  rung_at args 4 = None /\
  length (variants args) = 4%nat /\
  Forall (fun r => headroom_7_percent r /\ bufsize_of_bitrate r)
         [ rung_1080p; rung_720p; rung_480p; rung_360p ].
Proof.
  unfold ffmpeg_hls_invocation.
  destruct (videoHasAudio env inputPath); cbv zeta;
    (split; [reflexivity|]); (split; [reflexivity|]); (split; [reflexivity|]);
    repeat constructor.
Qed.

End CommandLine.

(** ** TranscodeVideo *)

Section WorkerProperties.

Variable uuid_String : UUID -> string.
Variable filepath_Join : string -> string -> string.
Variable filepath_Ext : string -> string.
Variable p : Processor.
Variable env : TranscodeEnv.

Lemma mark_failed_store id w : w_store (mark_failed env id w) = w_store w.
Proof.
  unfold mark_failed, db_Exec. destruct (te_mark_failed_err env); [done|].
  by destruct (sql_set_state _ _ _ _).
Qed.

Lemma mark_failed_state id w a :
  te_mark_failed_err env = false ->
  assets (w_db w) !! id = Some a ->
  assets (w_db (mark_failed env id w)) !! id = Some (with_state (te_now env) "failed" a).
Proof.
  intros Hok Hrow. unfold mark_failed, db_Exec.
  rewrite Hok, (sql_set_state_hit _ _ _ _ _ Hrow). cbn. apply lookup_insert_eq.
Qed.

Lemma mark_failed_other id w id' :
  id' <> id ->
  assets (w_db (mark_failed env id w)) !! id' = assets (w_db w) !! id'.
Proof.
  intros Hne. unfold mark_failed, db_Exec. destruct (te_mark_failed_err env); [done|].
  pose proof (sql_set_state_other (te_now env) "failed" id (w_db w) id') as H.
  destruct (sql_set_state _ _ _ _). cbn in *. auto.
Qed.

(** Saving the metadata touches neither table assets nor the object store. *)
Lemma save_metadata_assets id md w :
  assets (w_db (save_metadata env id md w)) = assets (w_db w).
Proof.
  unfold save_metadata. destruct (te_save_meta_err env); [done|].
  unfold sql_upsert_meta. by destruct (assets (w_db w) !! id).
Qed.

Lemma save_metadata_store id md w :
  w_store (save_metadata env id md w) = w_store w.
Proof.
  unfold save_metadata. destruct (te_save_meta_err env); [done|].
  by destruct (sql_upsert_meta _ _ _ _).
Qed.

(** The metadata stage as a whole: probe, then save when the probe succeeds. *)
Lemma metadata_stage_assets id inputPath w :
  assets (w_db (match extractVideoMetadata env inputPath with
                | None => w
                | Some metadata => save_metadata env id metadata w
                end)) = assets (w_db w).
Proof. destruct (extractVideoMetadata _ _); [|done]. apply save_metadata_assets. Qed.

Lemma metadata_stage_store id inputPath w :
  w_store (match extractVideoMetadata env inputPath with
           | None => w
           | Some metadata => save_metadata env id metadata w
           end) = w_store w.
Proof. destruct (extractVideoMetadata _ _); [|done]. apply save_metadata_store. Qed.

(** C9: when the row of the asset is read, the work directory is created and
    the download of the original fails, TranscodeVideo returns the error
    "failed to download original" and the world it leaves is the world it
    found: the row of the asset (its state included) and everything else are
    unchanged. *)
Theorem C9_download_failure_leaves_asset_untouched
    (assetID : UUID) (w : World) (a : Asset) (e : string) :
  assets (w_db w) !! assetID = Some a ->
  te_asset_query_err env = false ->
  te_mkdir_work_err env = false ->
  downloadFile env (a_bucket a) (a_object_key a) (w_store w) = Error e ->
  let '(err, w') := TranscodeVideo uuid_String filepath_Join filepath_Ext p env assetID w in
  err = Error "failed to download original" /\
  w' = w /\
  assets (w_db w') !! assetID = Some a.
Proof.
  intros Hrow Hq Hmk Hdl. unfold TranscodeVideo, db_QueryRow, sql_select_asset_info.
  rewrite Hq, Hrow. cbn [fmap option_fmap option_map]. rewrite Hmk, Hdl. done.
Qed.

(** C3: when the job reaches the transcoding stage and ffmpeg fails, and the
    database executes the UPDATE that follows, TranscodeVideo returns the error
    "failed to transcode" with the asset's row in state failed; no other row of
    table assets changes and nothing is written to the object store, so no HLS
    output of this job is there for any asset to reference. *)
Theorem C3_transcode_failure_marks_failed
    (assetID : UUID) (w : World) (a : Asset) (e : string) :
  let workDir := filepath_Join (tempDir p) (uuid_String assetID) in
  let inputPath := filepath_Join workDir ("input" ++ filepath_Ext (a_filename a)) in
  let hlsDir := filepath_Join workDir "hls" in
  assets (w_db w) !! assetID = Some a ->
  te_asset_query_err env = false ->
  te_mkdir_work_err env = false ->
  downloadFile env (a_bucket a) (a_object_key a) (w_store w) = NoError ->
  te_mkdir_hls_err env = false ->
  transcodeToHLS filepath_Join env inputPath hlsDir = Error e ->
  te_mark_failed_err env = false ->
  let '(err, w') := TranscodeVideo uuid_String filepath_Join filepath_Ext p env assetID w in
  err = Error "failed to transcode" /\
  assets (w_db w') !! assetID = Some (with_state (te_now env) "failed" a) /\
  a_state <$> assets (w_db w') !! assetID = Some "failed" /\
  (forall id', id' <> assetID -> assets (w_db w') !! id' = assets (w_db w) !! id') /\
  w_store w' = w_store w.
Proof.
  intros workDir inputPath hlsDir Hrow Hq Hmk Hdl Hmk2 Hhls Hmark.
  unfold TranscodeVideo, db_QueryRow, sql_select_asset_info.
  rewrite Hq, Hrow. cbn [fmap option_fmap option_map]. rewrite Hmk, Hdl.
  fold workDir. fold inputPath. fold hlsDir.
  rewrite Hmk2, Hhls.
  pose proof (metadata_stage_assets assetID inputPath w) as Hassets.
  pose proof (metadata_stage_store assetID inputPath w) as Hstore.
  set (w1 := match extractVideoMetadata env inputPath with None => w | Some _ => _ end) in *.
  assert (Hrow1 : assets (w_db w1) !! assetID = Some a) by (by rewrite Hassets).
  split; [done|].
  rewrite (mark_failed_state _ _ _ Hmark Hrow1).
  split; [done|]. split; [done|]. split.
  - intros id' Hne. by rewrite mark_failed_other, Hassets.
  - by rewrite mark_failed_store, Hstore.
Qed.

(** Whatever the database answers to the UPDATE, a failed transcode leaves the
    object store as it was. *)
Lemma transcode_failure_writes_no_object (assetID : UUID) (w : World) :
  fst (TranscodeVideo uuid_String filepath_Join filepath_Ext p env assetID w)
    = Error "failed to transcode" ->
  w_store (snd (TranscodeVideo uuid_String filepath_Join filepath_Ext p env assetID w))
    = w_store w.
Proof.
  unfold TranscodeVideo.
  destruct (db_QueryRow _ _ _) as [[[bucket objectKey] filename]|]; [|done].
  destruct (te_mkdir_work_err env); [done|].
  destruct (downloadFile _ _ _ _); [|done].
  match goal with |- context [extractVideoMetadata env ?i] =>
    pose proof (metadata_stage_store assetID i w) as Hstore end.
  destruct (te_mkdir_hls_err env); [done|].
  destruct (transcodeToHLS _ _ _ _).
  - destruct (uploadDirectory _ _ _ _ _ _ _) as [[|?] ?]; [|done].
    by destruct (db_Exec _ _ _).
  - intros _. cbn [snd]. by rewrite mark_failed_store, Hstore.
Qed.

(** C4: when the metadata probe fails while the row is read, the original is
    downloaded, ffmpeg succeeds, the HLS directory is uploaded and the final
    UPDATE is executed, TranscodeVideo returns nil with the asset in state
    ready, and table asset_meta is exactly what it was before the run: no row
    is inserted and an existing row keeps its values. *)
Theorem C4_metadata_failure_does_not_block_ready
    (assetID : UUID) (w : World) (a : Asset) :
  let workDir := filepath_Join (tempDir p) (uuid_String assetID) in
  let inputPath := filepath_Join workDir ("input" ++ filepath_Ext (a_filename a)) in
  let hlsDir := filepath_Join workDir "hls" in
  assets (w_db w) !! assetID = Some a ->
  te_asset_query_err env = false ->
  te_mkdir_work_err env = false ->
  downloadFile env (a_bucket a) (a_object_key a) (w_store w) = NoError ->
  extractVideoMetadata env inputPath = None ->
  te_mkdir_hls_err env = false ->
  transcodeToHLS filepath_Join env inputPath hlsDir = NoError ->
  (forall store,
     fst (uploadDirectory filepath_Join filepath_Ext env hlsDir (BucketVOD (minioConfig p))
            (uuid_String assetID ++ "/hls") store) = NoError) ->
  te_mark_ready_err env = false ->
  let '(err, w') := TranscodeVideo uuid_String filepath_Join filepath_Ext p env assetID w in
  err = NoError /\
  a_state <$> assets (w_db w') !! assetID = Some "ready" /\
  asset_meta (w_db w') = asset_meta (w_db w).
Proof.
  intros workDir inputPath hlsDir Hrow Hq Hmk Hdl Hmeta Hmk2 Hhls Hup Hready.
  unfold TranscodeVideo, db_QueryRow, sql_select_asset_info.
  rewrite Hq, Hrow. cbn [fmap option_fmap option_map]. rewrite Hmk, Hdl.
  fold workDir. fold inputPath. fold hlsDir.
  rewrite Hmeta, Hmk2, Hhls.
  set (w2 := match generatePoster _ _ _ with Error _ => w | NoError => _ end).
  assert (Hdb2 : w_db w2 = w_db w) by (subst w2; by destruct (generatePoster _ _ _)).
  specialize (Hup (w_store w2)).
  destruct (uploadDirectory _ _ _ _ _ _ _) as [err store]. cbn [fst] in Hup. subst err.
  unfold db_Exec. rewrite Hready. cbn [w_db set_store]. rewrite Hdb2.
  rewrite (sql_set_state_hit _ _ _ _ _ Hrow). cbn.
  by rewrite lookup_insert_eq.
Qed.

(** TranscodeVideo writes table assets only through [UPDATE ... SET state] with
    'failed' or 'ready': a closed state guard stays closed, for every row. *)
Lemma sql_set_state_guard now st id d id0 :
  st <> "uploading" ->
  guard_closed id0 d ->
  guard_closed id0 (fst (sql_set_state now st id d)).
Proof.
  intros Hst Hg. unfold sql_set_state.
  destruct (assets d !! id) as [a0|] eqn:Hrow; [|done].
  intros a. cbn. destruct (decide (id = id0)) as [->|Hne].
  - rewrite lookup_insert_eq. by intros [= <-].
  - rewrite lookup_insert_ne by done. apply Hg.
Qed.

Lemma mark_failed_guard id w id0 :
  guard_closed id0 (w_db w) -> guard_closed id0 (w_db (mark_failed env id w)).
Proof.
  intros Hg. unfold mark_failed, db_Exec. destruct (te_mark_failed_err env); [done|].
  pose proof (sql_set_state_guard (te_now env) "failed" id (w_db w) id0) as H.
  destruct (sql_set_state _ _ _ _). cbn in *. by apply H.
Qed.

Lemma TranscodeVideo_guard (assetID : UUID) (w : World) (id0 : UUID) :
  guard_closed id0 (w_db w) ->
  guard_closed id0
    (w_db (snd (TranscodeVideo uuid_String filepath_Join filepath_Ext p env assetID w))).
Proof.
  intros Hg. unfold TranscodeVideo.
  destruct (db_QueryRow _ _ _) as [[[bucket objectKey] filename]|]; [|done].
  destruct (te_mkdir_work_err env); [done|].
  destruct (downloadFile _ _ _ _); [|done].
  match goal with |- context [extractVideoMetadata env ?i] =>
    pose proof (metadata_stage_assets assetID i w) as Hassets end.
  set (w1 := match extractVideoMetadata env _ with None => w | Some _ => _ end) in *.
  assert (Hg1 : guard_closed id0 (w_db w1)).
  { intros a. rewrite Hassets. apply Hg. }
  destruct (te_mkdir_hls_err env); [done|].
  destruct (transcodeToHLS _ _ _ _); [|by apply mark_failed_guard].
  set (w2 := match generatePoster _ _ _ with Error _ => w1 | NoError => _ end).
  assert (Hdb2 : w_db w2 = w_db w1) by (subst w2; by destruct (generatePoster _ _ _)).
  destruct (uploadDirectory _ _ _ _ _ _ _) as [[|?] store].
  - unfold db_Exec. destruct (te_mark_ready_err env); cbn [snd set_store w_db].
    + by rewrite Hdb2.
    + rewrite Hdb2.
      pose proof (sql_set_state_guard (te_now env) "ready" assetID (w_db w1) id0) as H.
      destruct (sql_set_state _ _ _ _). cbn in *. by apply H.
  - cbn [snd]. apply mark_failed_guard. cbn. by rewrite Hdb2.
Qed.

(** TranscodeVideo never writes table processing_jobs either. *)
Lemma TranscodeVideo_processing_jobs (assetID : UUID) (w : World) :
  processing_jobs
    (w_db (snd (TranscodeVideo uuid_String filepath_Join filepath_Ext p env assetID w)))
  = processing_jobs (w_db w).
Proof.
  assert (Hfailed : forall w0, processing_jobs (w_db (mark_failed env assetID w0))
                               = processing_jobs (w_db w0)).
  { intros w0. unfold mark_failed, db_Exec. destruct (te_mark_failed_err env); [done|].
    pose proof (sql_set_state_jobs (te_now env) "failed" assetID (w_db w0)) as H.
    by destruct (sql_set_state _ _ _ _). }
  unfold TranscodeVideo.
  destruct (db_QueryRow _ _ _) as [[[bucket objectKey] filename]|]; [|done].
  destruct (te_mkdir_work_err env); [done|].
  destruct (downloadFile _ _ _ _); [|done].
  set (w1 := match extractVideoMetadata env _ with None => w | Some _ => _ end).
  assert (Hj1 : processing_jobs (w_db w1) = processing_jobs (w_db w)).
  { subst w1. destruct (extractVideoMetadata _ _); [|done].
    unfold save_metadata. destruct (te_save_meta_err env); [done|].
    unfold sql_upsert_meta. by destruct (assets (w_db w) !! assetID). }
  destruct (te_mkdir_hls_err env); [done|].
  destruct (transcodeToHLS _ _ _ _); [|cbn [snd]; by rewrite Hfailed].
  set (w2 := match generatePoster _ _ _ with Error _ => w1 | NoError => _ end).
  assert (Hdb2 : w_db w2 = w_db w1) by (subst w2; by destruct (generatePoster _ _ _)).
  destruct (uploadDirectory _ _ _ _ _ _ _) as [[|?] store].
  - unfold db_Exec. destruct (te_mark_ready_err env); cbn [snd set_store w_db].
    + by rewrite Hdb2.
    + rewrite Hdb2.
      pose proof (sql_set_state_jobs (te_now env) "ready" assetID (w_db w1)) as H.
      destruct (sql_set_state _ _ _ _). cbn in *. by rewrite H.
  - cbn [snd]. rewrite Hfailed. cbn. by rewrite Hdb2.
Qed.

(** X30: a job that returns nil leaves its asset in state ready. *)
Lemma TranscodeVideo_success_means_ready (assetID : UUID) (w : World) :
  fst (TranscodeVideo uuid_String filepath_Join filepath_Ext p env assetID w) = NoError ->
  a_state <$> assets
    (w_db (snd (TranscodeVideo uuid_String filepath_Join filepath_Ext p env assetID w)))
      !! assetID
  = Some "ready".
Proof.
  unfold TranscodeVideo, db_QueryRow.
  destruct (te_asset_query_err env); [done|].
  unfold sql_select_asset_info.
  destruct (assets (w_db w) !! assetID) as [a|] eqn:Hrow; [|done].
  cbn [fmap option_fmap option_map].
  destruct (te_mkdir_work_err env); [done|].
  destruct (downloadFile _ _ _ _); [|done].
  match goal with |- context [extractVideoMetadata env ?i] =>
    pose proof (metadata_stage_assets assetID i w) as Hassets end.
  set (w1 := match extractVideoMetadata env _ with None => w | Some _ => _ end) in *.
  destruct (te_mkdir_hls_err env); [done|].
  destruct (transcodeToHLS _ _ _ _); [|done].
  set (w2 := match generatePoster _ _ _ with Error _ => w1 | NoError => _ end).
  assert (Hdb2 : w_db w2 = w_db w1) by (subst w2; by destruct (generatePoster _ _ _)).
  destruct (uploadDirectory _ _ _ _ _ _ _) as [[|?] store]; [|done].
  unfold db_Exec. destruct (te_mark_ready_err env); [done|].
  cbn [w_db set_store]. rewrite Hdb2.
  assert (Hrow1 : assets (w_db w1) !! assetID = Some a) by (by rewrite Hassets).
  rewrite (sql_set_state_hit _ _ _ _ _ Hrow1). cbn. by rewrite lookup_insert_eq.
Qed.

End WorkerProperties.

(** ** Upload completion and the worker together *)

Section Interplay.

Variable uuid_Parse : string -> option UUID.
Variable uuid_String : UUID -> string.
Variable json_Marshal : Job -> option string.
Variable filepath_Join : string -> string -> string.
Variable filepath_Ext : string -> string.
Variable p : Processor.

(** X29: the rejection of a repeated completion does not depend on the two calls
    being back to back: a transcode job for any asset may run in between. *)
Lemma repeated_completion_after_a_worker_run
    (env1 env2 : CompleteEnv) (penv : TranscodeEnv) (jobAsset : UUID)
    (w : World) (body : option CompleteUploadRequest) :
  status (fst (CompleteUpload uuid_Parse uuid_String json_Marshal env1 w body)) = 200 ->
  ce_claim_err env2 = false ->
  let w1 := snd (CompleteUpload uuid_Parse uuid_String json_Marshal env1 w body) in
  let w2 := snd (TranscodeVideo uuid_String filepath_Join filepath_Ext p penv jobAsset w1) in
  CompleteUpload uuid_Parse uuid_String json_Marshal env2 w2 body
  = (respondError 404 "Asset not found or already processed", w2).
Proof.
  intros Hok Hclaim.
  destruct (CompleteUpload_ok_leaves_uploading _ _ _ _ _ _ Hok)
    as (req & id & -> & Hparse & Hguard).
  cbv zeta. apply CompleteUpload_guard_rejects with id; [done| |done].
  by apply TranscodeVideo_guard.
Qed.

End Interplay.

(** ** The properties at work on concrete runs *)

Lemma C1_witness :
  let '(resp, w') := ex_CompleteUpload ex_complete_env (ex_world "video" "uploading") ex_request in
  resp = respondJSON 200 (CompleteUploadJSON
           {| State := "processing"; Message := "Upload completed successfully" |}) /\
  assets (w_db w') !! 7%N
    = Some (with_state 200 "processing" (ex_asset "video" "uploading" 100)) /\
  (forall id', id' <> 7%N ->
     assets (w_db w') !! id' = assets (w_db (ex_world "video" "uploading")) !! id') /\
  pending_jobs w' = (pending_jobs (ex_world "video" "uploading") ++ [ex_payload])%list /\
  (forall key, key <> JobQueueKey ->
     w_redis w' !! key = w_redis (ex_world "video" "uploading") !! key).
Proof.
  exact (C1_video_upload_enqueues_one_transcode_job
           ex_uuid_Parse ex_uuid_String ex_json_Marshal
           ex_complete_env (ex_world "video" "uploading")
           {| req_AssetID := "00000000-0000-0000-0000-000000000007" |}
           7%N (ex_asset "video" "uploading" 100) ex_payload
           eq_refl eq_refl eq_refl eq_refl eq_refl eq_refl eq_refl eq_refl).
Defined.

Lemma C5_witness :
  let '(resp, w') := ex_CompleteUpload ex_complete_env (ex_world "image" "uploading") ex_request in
  resp = respondJSON 200 (CompleteUploadJSON
           {| State := "ready"; Message := "Upload completed successfully" |}) /\
  a_state <$> assets (w_db w') !! 7%N = Some "ready" /\
  w_redis w' = w_redis (ex_world "image" "uploading").
Proof.
  exact (C5_image_upload_ready_without_job
           ex_uuid_Parse ex_uuid_String ex_json_Marshal
           ex_complete_env (ex_world "image" "uploading")
           {| req_AssetID := "00000000-0000-0000-0000-000000000007" |}
           7%N (ex_asset "image" "uploading" 100)
           eq_refl eq_refl eq_refl eq_refl eq_refl eq_refl eq_refl).
Defined.

Lemma C2_witness :
  let w1 := snd (ex_CompleteUpload ex_complete_env (ex_world "audio" "uploading") ex_request) in
  ex_CompleteUpload ex_complete_env w1 ex_request
  = (respondError 404 "Asset not found or already processed", w1).
Proof.
  exact (C2_second_complete_upload_is_not_found
           ex_uuid_Parse ex_uuid_String ex_json_Marshal
           ex_complete_env ex_complete_env (ex_world "audio" "uploading") ex_request
           eq_refl eq_refl).
Defined.

Lemma C8_witness :
  let w' := snd (ex_CompleteUpload ex_complete_env (ex_world "video" "uploading") ex_request) in
  pending_jobs w' = (pending_jobs (ex_world "video" "uploading") ++ [ex_payload])%list /\
  processing_jobs (w_db w') = processing_jobs (w_db (ex_world "video" "uploading")).
Proof.
  exact (C8_job_is_queue_resident_only
           ex_uuid_Parse ex_uuid_String ex_json_Marshal
           ex_complete_env (ex_world "video" "uploading")
           {| req_AssetID := "00000000-0000-0000-0000-000000000007" |}
           7%N (ex_asset "video" "uploading" 100) ex_payload
           eq_refl eq_refl eq_refl eq_refl eq_refl eq_refl eq_refl eq_refl).
Defined.

(** C8 as stated fails: a video upload is completed, its transcode job is on
    the queue, and table processing_jobs holds no row for the asset. *)
Lemma C8_counterexample :
  let '(resp, w') := ex_CompleteUpload ex_complete_env (ex_world "video" "uploading") ex_request in
  status resp = 200 /\
  pending_jobs w' = [ ex_payload ] /\
  ~ exists job, job ∈ processing_jobs (w_db w') /\ pj_asset_id job = 7%N.
Proof.
  split; [reflexivity|]. split; [reflexivity|].
  intros (job & Hin & _). cbn in Hin. by apply elem_of_nil in Hin.
Qed.

(** C7 as stated fails: on the first rung of the ladder built for a concrete
    input the buffer size, 7500k, is not 1.5 times the max-rate, 5350k. *)
Lemma C7_counterexample :
  let args := ffmpeg_hls_invocation ex_filepath_Join
                (ex_transcode_env false (CmdOutput "{}") (CmdOutput ""))
                ex_input_path ex_hls_dir in
  ~ (forall r, Some r ∈ ladder args -> headroom_7_percent r /\ bufsize_of_maxrate r).
Proof.
  cbv zeta. intros Hclaim.
  destruct (Hclaim rung_1080p) as [_ Hbuf].
  - vm_compute. apply list_elem_of_here.
  - vm_compute in Hbuf. discriminate.
Qed.

Lemma C9_witness :
  let '(err, w') := ex_TranscodeVideo (ex_transcode_env true (CmdOutput "{}") (CmdOutput ""))
                      7%N (ex_world "video" "processing") in
  err = Error "failed to download original" /\
  w' = ex_world "video" "processing" /\
  assets (w_db w') !! 7%N = Some (ex_asset "video" "processing" 100).
Proof.
  exact (C9_download_failure_leaves_asset_untouched
           ex_uuid_String ex_filepath_Join ex_filepath_Ext (New None)
           (ex_transcode_env true (CmdOutput "{}") (CmdOutput ""))
           7%N (ex_world "video" "processing") (ex_asset "video" "processing" 100)
           "download failed"
           eq_refl eq_refl eq_refl eq_refl).
Defined.

Lemma C3_witness :
  let '(err, w') := ex_TranscodeVideo (ex_transcode_env false (CmdOutput "{}") CmdFailed)
                      7%N (ex_world "video" "processing") in
  err = Error "failed to transcode" /\
  assets (w_db w') !! 7%N = Some (with_state 300 "failed" (ex_asset "video" "processing" 100)) /\
  a_state <$> assets (w_db w') !! 7%N = Some "failed" /\
  (forall id', id' <> 7%N ->
     assets (w_db w') !! id' = assets (w_db (ex_world "video" "processing")) !! id') /\
  w_store w' = w_store (ex_world "video" "processing").
Proof.
  exact (C3_transcode_failure_marks_failed
           ex_uuid_String ex_filepath_Join ex_filepath_Ext (New None)
           (ex_transcode_env false (CmdOutput "{}") CmdFailed)
           7%N (ex_world "video" "processing") (ex_asset "video" "processing" 100)
           "ffmpeg failed"
           eq_refl eq_refl eq_refl eq_refl eq_refl eq_refl eq_refl).
Defined.

Lemma C4_witness :
  let '(err, w') := ex_TranscodeVideo (ex_transcode_env false CmdFailed (CmdOutput ""))
                      7%N (ex_world "video" "processing") in
  err = NoError /\
  a_state <$> assets (w_db w') !! 7%N = Some "ready" /\
  asset_meta (w_db w') = asset_meta (w_db (ex_world "video" "processing")).
Proof.
  exact (C4_metadata_failure_does_not_block_ready
           ex_uuid_String ex_filepath_Join ex_filepath_Ext (New None)
           (ex_transcode_env false CmdFailed (CmdOutput ""))
           7%N (ex_world "video" "processing") (ex_asset "video" "processing" 100)
           eq_refl eq_refl eq_refl eq_refl eq_refl eq_refl eq_refl
           (fun store => eq_refl) eq_refl).
Defined.

(** With 53 assets in the table the page has 50 and so has [total]. *)
Example list_total_is_the_page_length :
  match payload (fst (ex_ListAssets ex_list_env (ex_catalogue 53))) with
  | AssetListJSON page total => total = 50 /\ length page = 50%nat
  | _ => False
  end.
Proof. vm_compute. split; reflexivity. Qed.

(** * Properties of the rest of the code *)

(** ** InitUpload *)

Lemma sql_insert_asset_inserted now id kind bucket key filename mime size d d' :
  sql_insert_asset now id kind bucket key filename mime size d = Some d' ->
  assets d !! id = None /\
  d' = set_assets
         (<[id := {| a_kind := kind; a_state := "uploading"; a_bucket := bucket;
                     a_object_key := key; a_filename := filename; a_mime_type := mime;
                     a_size_bytes := size; a_sha256 := None;
                     a_created_at := now; a_updated_at := now |}]> (assets d)) d.
Proof.
  unfold sql_insert_asset. destruct (assets d !! id); [done|].
  destruct (existsb _ _); [done|]. destruct (negb _); [done|].
  by intros [= <-].
Qed.

Section InitUploadProperties.

Variable uuid_Parse : string -> option UUID.
Variable uuid_String : UUID -> string.
Variable json_Marshal : Job -> option string.
Variable filepath_Ext : string -> string.
Variable storageConfig : StorageConfig.

(** X1: InitUpload answers 400 exactly when the body does not decode, one of
    mime, kind, filename is empty, or kind is none of image, video, audio,
    document; a request answered 400 changes nothing. *)
Theorem X1_init_upload_validation
    (env : InitEnv) (w : World) (body : option InitUploadRequest) :
  let invalid :=
    match body with
    | None => True
    | Some req =>
        MimeType req = "" \/ Kind req = "" \/ Filename req = "" \/
        ~ In (Kind req) [ "image"; "video"; "audio"; "document" ]
    end in
  let '(reply, w') := InitUpload uuid_String filepath_Ext storageConfig env w body in
  (reply_status reply = 400 /\ w' = w /\ invalid) \/
  (reply_status reply <> 400 /\ ~ invalid).
Proof.
  cbv zeta. unfold InitUpload. destruct body as [req|]; [|cbn; by left].
  destruct (String.eqb_spec (MimeType req) "");
    [cbn; left; split; [done|split; [done|by left]]|].
  destruct (String.eqb_spec (Kind req) "");
    [cbn; left; split; [done|split; [done|by right; left]]|].
  destruct (String.eqb_spec (Filename req) "");
    [cbn; left; split; [done|split; [done|by right; right; left]]|].
  cbn [orb].
  destruct (String.eqb_spec (Kind req) "image") as [Hk|Hi].
  2: destruct (String.eqb_spec (Kind req) "video") as [Hk|Hv].
  3: destruct (String.eqb_spec (Kind req) "audio") as [Hk|Ha].
  4: destruct (String.eqb_spec (Kind req) "document") as [Hk|Hd].
  5: { cbn. left. repeat split; try done. right. right. right.
       intros [?|[?|[?|[?|[]]]]]; congruence. }
  all: cbn [negb andb].
  all: assert (Hin : In (Kind req) [ "image"; "video"; "audio"; "document" ])
         by (rewrite Hk; cbn; auto 6).
  all: destruct (if ie_insert_err env then None else _) as [d|];
         [destruct (ie_presign _ _ _ _)|]; cbn; right; (split; [done|]); intros [?|[?|[?|?]]]; done.
Qed.

(** X2: a request InitUpload answers 200 has inserted exactly one row, under
    the fresh id, in state uploading, in the originals bucket, under the key
    <date>/<id><extension of the file name>, with the declared name, MIME type
    and size; the reply names that id, bucket and key, asks for the declared
    Content-Type and announces 900 seconds, the 15 minutes the URL was signed
    for; nothing else in the world changes. *)
Theorem X2_init_upload_creates_uploading_row
    (env : InitEnv) (w : World) (req : InitUploadRequest) :
  reply_status (fst (InitUpload uuid_String filepath_Ext storageConfig env w (Some req))) = 200 ->
  let '(reply, w') := InitUpload uuid_String filepath_Ext storageConfig env w (Some req) in
  let id := ie_uuid env in
  let bucket := sc_BucketOriginals storageConfig in
  let key := ie_date env ++ "/" ++ uuid_String id ++ filepath_Ext (Filename req) in
  assets (w_db w) !! id = None /\
  assets (w_db w') !! id
    = Some {| a_kind := Kind req; a_state := "uploading"; a_bucket := bucket;
              a_object_key := key; a_filename := Filename req;
              a_mime_type := MimeType req; a_size_bytes := Size req; a_sha256 := None;
              a_created_at := ie_now env; a_updated_at := ie_now env |} /\
  (forall id', id' <> id -> assets (w_db w') !! id' = assets (w_db w) !! id') /\
  asset_meta (w_db w') = asset_meta (w_db w) /\
  processing_jobs (w_db w') = processing_jobs (w_db w) /\
  w_redis w' = w_redis w /\
  w_store w' = w_store w /\
  exists url,
    ie_presign env bucket key (15 * 60 * Second) = Some url /\
    reply_body reply
      = JSONInitUpload {| iu_AssetID := uuid_String id; iu_Bucket := bucket;
                          iu_ObjectKey := key; iu_PresignedURL := url;
                          iu_Headers := {[ "Content-Type" := MimeType req ]};
                          iu_ExpiresIn := 900 |}.
Proof.
  unfold InitUpload.
  destruct (_ || _ || _); [discriminate|].
  destruct (_ && _ && _ && _); [discriminate|].
  destruct (if ie_insert_err env then None else _) as [d|] eqn:Hins; [|discriminate].
  destruct (ie_presign _ _ _ _) as [url|] eqn:Hurl; [|discriminate].
  intros _. cbn [fst snd].
  destruct (ie_insert_err env); [discriminate|].
  apply sql_insert_asset_inserted in Hins as [Hfresh ->].
  cbn. split; [done|]. split; [by rewrite lookup_insert_eq|].
  split; [by intros id' Hne; rewrite lookup_insert_ne|].
  repeat (split; [done|]). by exists url.
Qed.

(** X3: the row is inserted before the URL is signed and is not taken back:
    when InitUpload answers 500 "Failed to generate upload URL", the asset row
    is in the table, in state uploading, although the client was given no id. *)
Theorem X3_init_upload_presign_failure_leaves_row
    (env : InitEnv) (w : World) (req : InitUploadRequest) :
  reply_body (fst (InitUpload uuid_String filepath_Ext storageConfig env w (Some req)))
    = JSONError "Failed to generate upload URL" ->
  let '(reply, w') := InitUpload uuid_String filepath_Ext storageConfig env w (Some req) in
  reply_status reply = 500 /\
  assets (w_db w) !! ie_uuid env = None /\
  exists a, assets (w_db w') !! ie_uuid env = Some a /\
            a_state a = "uploading" /\ a_kind a = Kind req.
Proof.
  unfold InitUpload.
  destruct (_ || _ || _); [discriminate|].
  destruct (_ && _ && _ && _); [discriminate|].
  destruct (if ie_insert_err env then None else _) as [d|] eqn:Hins; [|discriminate].
  destruct (ie_presign _ _ _ _) as [url|] eqn:Hurl; [discriminate|].
  intros _. cbn [fst snd].
  destruct (ie_insert_err env); [discriminate|].
  apply sql_insert_asset_inserted in Hins as [Hfresh ->].
  split; [done|]. split; [done|]. eexists. cbn. rewrite lookup_insert_eq. done.
Qed.

(** X4: the two halves of the upload protocol fit: after InitUpload answered
    200, CompleteUpload with the assetId of that reply (parsed back to the same
    id, its two reads and writes of the row going through) answers 200 with
    state processing for a video and ready for every other kind. *)
Theorem X4_init_then_complete
    (ienv : InitEnv) (cenv : CompleteEnv) (w : World) (req : InitUploadRequest) :
  uuid_Parse (uuid_String (ie_uuid ienv)) = Some (ie_uuid ienv) ->
  reply_status (fst (InitUpload uuid_String filepath_Ext storageConfig ienv w (Some req))) = 200 ->
  ce_claim_err cenv = false ->
  ce_kind_err cenv = false ->
  let '(reply, w1) := InitUpload uuid_String filepath_Ext storageConfig ienv w (Some req) in
  exists r,
    reply_body reply = JSONInitUpload r /\
    fst (CompleteUpload uuid_Parse uuid_String json_Marshal cenv w1
           (Some {| req_AssetID := iu_AssetID r |}))
    = respondJSON 200 (CompleteUploadJSON
        {| State := if String.eqb (Kind req) "video" then "processing" else "ready";
           Message := "Upload completed successfully" |}).
Proof.
  intros Hparse Hok Hclaim Hsel.
  unfold InitUpload in *.
  destruct (_ || _ || _); [discriminate|].
  destruct (_ && _ && _ && _); [discriminate|].
  destruct (if ie_insert_err ienv then None else _) as [d|] eqn:Hins; [|discriminate].
  destruct (ie_presign _ _ _ _) as [url|] eqn:Hurl; [|discriminate].
  destruct (ie_insert_err ienv); [discriminate|].
  apply sql_insert_asset_inserted in Hins as [Hfresh ->].
  eexists. split; [reflexivity|]. cbn [iu_AssetID].
  unfold CompleteUpload. cbn [req_AssetID]. rewrite Hparse.
  unfold db_Exec. rewrite Hclaim.
  erewrite sql_claim_upload_hit; [| cbn; apply lookup_insert_eq | done].
  cbn [Z.eqb]. unfold db_QueryRow, sql_select_kind. rewrite Hsel.
  cbn [w_db set_db set_assets assets]. rewrite lookup_insert_eq.
  cbn [fmap option_fmap option_map with_state a_kind].
  destruct (String.eqb_spec (Kind req) "image") as [->|Hi]; [done|].
  by destruct (String.eqb (Kind req) "video").
Qed.

End InitUploadProperties.

(** ** GetAsset, DeleteAsset, GetVideoManifest, ProxyImage *)

Section HandlerProperties.

Variable uuid_Parse : string -> option UUID.
Variable uuid_String : UUID -> string.
Variable json_Marshal : Job -> option string.
Variable imgproxy_SignURL : string -> string -> string.
Variable cfg : Config.
Variable storageConfig : StorageConfig.

Lemma GetAsset_row (w : World) (s : string) (id : UUID) (a : Asset) :
  uuid_Parse s = Some id ->
  assets (w_db w) !! id = Some a ->
  GetAsset uuid_Parse uuid_String imgproxy_SignURL cfg false w s
  = replyJSON 200 (JSONAsset (scanned uuid_String imgproxy_SignURL cfg
                                (join_meta (w_db w) (id, a)))).
Proof.
  intros Hparse Hrow. unfold GetAsset, db_QueryRow, sql_get_asset.
  by rewrite Hparse, Hrow.
Qed.

Lemma GetAsset_no_row (queryErr : bool) (w : World) (s : string) (id : UUID) :
  uuid_Parse s = Some id ->
  assets (w_db w) !! id = None ->
  GetAsset uuid_Parse uuid_String imgproxy_SignURL cfg queryErr w s
  = replyError 404 "Asset not found".
Proof.
  intros Hparse Hrow. unfold GetAsset, db_QueryRow, sql_get_asset.
  rewrite Hparse, Hrow. by destruct queryErr.
Qed.

(** X5: GetAsset shows the row as it is, and its URL map is empty exactly when
    the asset is not ready or is neither an image nor a video: no URL of an
    asset is handed out before the asset is ready. *)
Theorem X5_get_asset_urls_only_when_ready
    (w : World) (s : string) (id : UUID) (a : Asset) :
  uuid_Parse s = Some id ->
  assets (w_db w) !! id = Some a ->
  exists resp,
    GetAsset uuid_Parse uuid_String imgproxy_SignURL cfg false w s
      = replyJSON 200 (JSONAsset resp) /\
    r_ID resp = uuid_String id /\
    r_Kind resp = a_kind a /\
    r_State resp = a_state a /\
    (r_URLs resp = ∅ <->
       a_state a <> "ready" \/ (a_kind a <> "image" /\ a_kind a <> "video")).
Proof.
  intros Hparse Hrow. eexists. split; [by apply GetAsset_row|].
  cbn. repeat (split; [done|]). unfold buildAssetURLs.
  destruct (String.eqb_spec (a_state a) "ready") as [Hst|Hst]; cbn [negb].
  2: { split; [by left|done]. }
  destruct (String.eqb_spec (a_kind a) "image") as [Hk|Hk].
  { split; [intros H; by apply insert_non_empty in H|intros [?|[? _]]; done]. }
  destruct (String.eqb_spec (a_kind a) "video") as [Hv|Hv].
  { split; [intros H; by apply insert_non_empty in H|intros [?|[_ ?]]; done]. }
  split; [by right|done].
Qed.

(** X6: a request DeleteAsset answers 204 has removed the asset's row, its
    asset_meta row and every processing_jobs row that references it, and no row
    of another asset; this holds whether or not the storage deletion failed,
    which decides only if the original object is gone from the object store. *)
Theorem X6_delete_asset_cascades (env : DeleteEnv) (w : World) (s : string) :
  reply_status (fst (DeleteAsset uuid_Parse env w s)) = 204 ->
  let w' := snd (DeleteAsset uuid_Parse env w s) in
  exists id a,
    uuid_Parse s = Some id /\
    assets (w_db w) !! id = Some a /\
    assets (w_db w') !! id = None /\
    asset_meta (w_db w') !! id = None /\
    Forall (fun job => pj_asset_id job <> id) (processing_jobs (w_db w')) /\
    (forall id', id' <> id ->
       assets (w_db w') !! id' = assets (w_db w) !! id' /\
       asset_meta (w_db w') !! id' = asset_meta (w_db w) !! id') /\
    (forall job, pj_asset_id job <> id ->
       job ∈ processing_jobs (w_db w') <-> job ∈ processing_jobs (w_db w)) /\
    w_store w' = (if de_storage_err env then w_store w
                  else delete (a_bucket a, a_object_key a) (w_store w)) /\
    w_redis w' = w_redis w.
Proof.
  cbv zeta. unfold DeleteAsset.
  destruct (uuid_Parse s) as [id|]; [|discriminate].
  unfold db_QueryRow, sql_select_location.
  destruct (de_query_err env); [discriminate|].
  destruct (assets (w_db w) !! id) as [a|] eqn:Hrow; [|discriminate].
  cbn [fmap option_fmap option_map].
  destruct (de_delete_err env); [discriminate|]. intros _. cbn [snd].
  exists id, a. split; [done|]. split; [done|].
  set (w1 := if de_storage_err env then w else _).
  assert (Hdb : w_db w1 = w_db w) by (subst w1; by destruct (de_storage_err env)).
  assert (Hredis : w_redis w1 = w_redis w) by (subst w1; by destruct (de_storage_err env)).
  cbn [w_db set_db sql_delete_asset assets asset_meta processing_jobs w_store w_redis].
  rewrite Hdb. split; [apply lookup_delete_eq|]. split; [apply lookup_delete_eq|].
  split.
  { apply Forall_forall. intros job Hin. apply list_elem_of_In, filter_In in Hin as [_ Hne].
    apply negb_true_iff, N.eqb_neq in Hne. done. }
  split; [intros id' Hne; by rewrite !lookup_delete_ne|].
  split.
  { intros job Hne. rewrite !list_elem_of_In, filter_In.
    split; [by intros [? _]|]. intros Hin. split; [done|]. by apply negb_true_iff, N.eqb_neq. }
  split; [|done]. subst w1. by destruct (de_storage_err env).
Qed.

(** X7: after DeleteAsset answered 204 for an id, GetAsset for that id answers
    404 and so does CompleteUpload. *)
Theorem X7_deleted_asset_is_gone
    (env : DeleteEnv) (cenv : CompleteEnv) (queryErr : bool) (w : World) (s : string) :
  reply_status (fst (DeleteAsset uuid_Parse env w s)) = 204 ->
  ce_claim_err cenv = false ->
  let w' := snd (DeleteAsset uuid_Parse env w s) in
  GetAsset uuid_Parse uuid_String imgproxy_SignURL cfg queryErr w' s
    = replyError 404 "Asset not found" /\
  CompleteUpload uuid_Parse uuid_String json_Marshal cenv w' (Some {| req_AssetID := s |})
    = (respondError 404 "Asset not found or already processed", w').
Proof.
  intros Hok Hclaim.
  pose proof Hok as Hok'. cbv zeta. unfold DeleteAsset in *.
  destruct (uuid_Parse s) as [id|] eqn:Hparse; [|discriminate].
  unfold db_QueryRow, sql_select_location in *.
  destruct (de_query_err env); [discriminate|].
  destruct (assets (w_db w) !! id) as [a|] eqn:Hrow; [|discriminate].
  cbn [fmap option_fmap option_map] in *.
  destruct (de_delete_err env); [discriminate|]. cbn [snd].
  set (w' := set_db _ _).
  assert (Hgone : assets (w_db w') !! id = None).
  { subst w'. cbn. apply lookup_delete_eq. }
  split.
  - by apply GetAsset_no_row with id.
  - apply CompleteUpload_guard_rejects with id; [done| |done].
    intros a'. by rewrite Hgone.
Qed.

(** X8: DeleteAsset removes at most the original object of the asset: every
    other object of the store, the HLS output and the poster of the asset
    included, is left where it is, on every path. *)
Theorem X8_delete_asset_keeps_renditions
    (env : DeleteEnv) (w : World) (s : string) (location : string * string) :
  let w' := snd (DeleteAsset uuid_Parse env w s) in
  w_store w' !! location = w_store w !! location \/
  exists id a,
    uuid_Parse s = Some id /\
    assets (w_db w) !! id = Some a /\
    location = (a_bucket a, a_object_key a) /\
    w_store w' !! location = None.
Proof.
  cbv zeta. unfold DeleteAsset.
  destruct (uuid_Parse s) as [id|]; [|by left].
  unfold db_QueryRow, sql_select_location.
  destruct (de_query_err env); [by left|].
  destruct (assets (w_db w) !! id) as [a|] eqn:Hrow; [|by left].
  cbn [fmap option_fmap option_map].
  set (w1 := if de_storage_err env then w else _).
  assert (Hstore : w_store w1 = if de_storage_err env then w_store w
                                else delete (a_bucket a, a_object_key a) (w_store w))
    by (subst w1; by destruct (de_storage_err env)).
  replace (w_store (snd (if de_delete_err env then _ else _))) with (w_store w1)
    by (by destruct (de_delete_err env)).
  rewrite Hstore. destruct (de_storage_err env); [by left|].
  destruct (decide (location = (a_bucket a, a_object_key a))) as [->|Hne].
  - right. exists id, a. by rewrite lookup_delete_eq.
  - left. by rewrite lookup_delete_ne.
Qed.


(** X10: when ProxyImage gets an answer from the image proxy, it passes on the
    status and the body, and of the header fields every value the proxy sent,
    after the values the response writer held, except Cache-Control, which is
    the one value "public, max-age=31536000, immutable" whatever the proxy
    sent; the request went to <base>/<signature>/<ops>/<encodedSrc> with the
    client's Accept field when it had one. *)
Theorem X10_proxy_image_forces_immutable_caching
    (imgproxyBaseURL : string) (env : ProxyEnv) (h : gmap string (list string))
    (signature ops encodedSrc accept : string)
    (statusCode : Z) (header : gmap string (list string)) (data : string) :
  signature <> "" -> ops <> "" -> encodedSrc <> "" ->
  pe_request_err env = false ->
  pe_Do env {| up_url := imgproxyBaseURL ++ "/" ++ signature ++ "/" ++ ops ++ "/" ++ encodedSrc;
               up_accept := if String.eqb accept "" then None else Some accept |}
    = Fetched statusCode header data ->
  let reply := ProxyImage imgproxyBaseURL env h signature ops encodedSrc accept in
  reply_status reply = statusCode /\
  reply_body reply = Streamed data /\
  reply_header reply !! "Cache-Control" = Some [ "public, max-age=31536000, immutable" ] /\
  forall name, name <> "Cache-Control" ->
    reply_header reply !! name
    = match h !! name, header !! name with
      | Some mine, Some theirs => Some (mine ++ theirs)%list
      | Some mine, None => Some mine
      | None, theirs => theirs
      end.
Proof.
  intros Hs Ho He Hreq Hdo. cbv zeta. unfold ProxyImage.
  apply String.eqb_neq in Hs, Ho, He. rewrite Hs, Ho, He, Hreq, Hdo. cbn.
  split; [done|]. split; [done|]. split; [apply lookup_insert_eq|].
  intros name Hne. rewrite lookup_insert_ne by done.
  unfold header_add_all. rewrite lookup_union_with.
  by destruct (h !! name), (header !! name).
Qed.

End HandlerProperties.

(** ** The processor, once more *)

Section ProcessorProperties.

Variable uuid_String : UUID -> string.
Variable filepath_Join : string -> string -> string.
Variable filepath_Ext : string -> string.
Variable p : Processor.
Variable env : TranscodeEnv.

Lemma mark_failed_redis id w : w_redis (mark_failed env id w) = w_redis w.
Proof.
  unfold mark_failed, db_Exec. destruct (te_mark_failed_err env); [done|].
  by destruct (sql_set_state _ _ _ _).
Qed.

Lemma save_metadata_redis id md w : w_redis (save_metadata env id md w) = w_redis w.
Proof.
  unfold save_metadata. destruct (te_save_meta_err env); [done|].
  by destruct (sql_upsert_meta _ _ _ _).
Qed.

Lemma TranscodeVideo_redis (assetID : UUID) (w : World) :
  w_redis (snd (TranscodeVideo uuid_String filepath_Join filepath_Ext p env assetID w))
  = w_redis w.
Proof.
  unfold TranscodeVideo.
  destruct (db_QueryRow _ _ _) as [[[bucket objectKey] filename]|]; [|done].
  destruct (te_mkdir_work_err env); [done|].
  destruct (downloadFile _ _ _ _); [|done].
  set (w1 := match extractVideoMetadata env _ with None => w | Some _ => _ end).
  assert (H1 : w_redis w1 = w_redis w).
  { subst w1. destruct (extractVideoMetadata _ _); [|done]. apply save_metadata_redis. }
  destruct (te_mkdir_hls_err env); [done|].
  destruct (transcodeToHLS _ _ _ _); [|cbn [snd]; by rewrite mark_failed_redis].
  set (w2 := match generatePoster _ _ _ with Error _ => w1 | NoError => _ end).
  assert (H2 : w_redis w2 = w_redis w1) by (subst w2; by destruct (generatePoster _ _ _)).
  destruct (uploadDirectory _ _ _ _ _ _ _) as [[|?] store].
  - unfold db_Exec. destruct (te_mark_ready_err env); cbn [snd]; [by rewrite <- H1, <- H2|].
    destruct (sql_set_state _ _ _ _). cbn. by rewrite <- H1, <- H2.
  - cbn [snd]. rewrite mark_failed_redis. cbn. by rewrite <- H1, <- H2.
Qed.

(** The row a successful job leaves. *)
Lemma TranscodeVideo_success_row (assetID : UUID) (w : World) (a : Asset) :
  assets (w_db w) !! assetID = Some a ->
  fst (TranscodeVideo uuid_String filepath_Join filepath_Ext p env assetID w) = NoError ->
  assets (w_db (snd (TranscodeVideo uuid_String filepath_Join filepath_Ext p env assetID w)))
    !! assetID
  = Some (with_state (te_now env) "ready" a).
Proof.
  intros Hrow. unfold TranscodeVideo, db_QueryRow.
  destruct (te_asset_query_err env); [done|].
  unfold sql_select_asset_info. rewrite Hrow. cbn [fmap option_fmap option_map].
  destruct (te_mkdir_work_err env); [done|].
  destruct (downloadFile _ _ _ _); [|done].
  match goal with |- context [extractVideoMetadata env ?i] =>
    pose proof (metadata_stage_assets env assetID i w) as Hassets end.
  set (w1 := match extractVideoMetadata env _ with None => w | Some _ => _ end) in *.
  destruct (te_mkdir_hls_err env); [done|].
  destruct (transcodeToHLS _ _ _ _); [|done].
  set (w2 := match generatePoster _ _ _ with Error _ => w1 | NoError => _ end).
  assert (Hdb2 : w_db w2 = w_db w1) by (subst w2; by destruct (generatePoster _ _ _)).
  destruct (uploadDirectory _ _ _ _ _ _ _) as [[|?] store]; [|done].
  unfold db_Exec. destruct (te_mark_ready_err env); [done|].
  cbn [w_db set_store]. rewrite Hdb2.
  assert (Hrow1 : assets (w_db w1) !! assetID = Some a) by (by rewrite Hassets).
  rewrite (sql_set_state_hit _ _ _ _ _ Hrow1). cbn. by rewrite lookup_insert_eq.
Qed.

(** What ExtractMetadata leaves alone. *)
Lemma ExtractMetadata_frame (assetID : UUID) (w : World) :
  let w' := snd (ExtractMetadata uuid_String filepath_Join filepath_Ext p env assetID w) in
  assets (w_db w') = assets (w_db w) /\
  processing_jobs (w_db w') = processing_jobs (w_db w) /\
  w_redis w' = w_redis w /\
  w_store w' = w_store w /\
  forall id', id' <> assetID -> asset_meta (w_db w') !! id' = asset_meta (w_db w) !! id'.
Proof.
  cbv zeta. unfold ExtractMetadata.
  destruct (db_QueryRow _ _ _) as [[[[bucket objectKey] filename] kind]|]; [|done].
  destruct (te_mkdir_work_err env); [done|].
  destruct (downloadFile _ _ _ _); [|done].
  destruct (String.eqb kind "video"); [|done].
  destruct (extractVideoMetadata _ _); [|done].
  destruct (te_save_meta_err env); [done|].
  unfold sql_upsert_meta. destruct (assets (w_db w) !! assetID); [|done].
  cbn. repeat (split; [done|]). intros id' Hne. by rewrite lookup_insert_ne.
Qed.

(** X11: ExtractMetadata writes nothing but the asset_meta row of its asset:
    no row of table assets changes, so a failing extract_meta job never marks
    its asset failed, and Redis, the object store and table processing_jobs
    are as before; for an asset that is not a video the whole world is. *)
Theorem X11_extract_metadata_touches_only_its_meta_row (assetID : UUID) (w : World) :
  let w' := snd (ExtractMetadata uuid_String filepath_Join filepath_Ext p env assetID w) in
  assets (w_db w') = assets (w_db w) /\
  processing_jobs (w_db w') = processing_jobs (w_db w) /\
  w_redis w' = w_redis w /\
  w_store w' = w_store w /\
  (forall id', id' <> assetID -> asset_meta (w_db w') !! id' = asset_meta (w_db w) !! id') /\
  ((a_kind <$> assets (w_db w) !! assetID) <> Some "video" -> w' = w).
Proof.
  pose proof (ExtractMetadata_frame assetID w) as (H1 & H2 & H3 & H4 & H5).
  cbv zeta in *. repeat (split; [done|]).
  unfold ExtractMetadata, db_QueryRow, sql_select_asset_info_kind.
  destruct (te_asset_query_err env); [done|].
  destruct (assets (w_db w) !! assetID) as [a|]; [|done].
  cbn [fmap option_fmap option_map].
  destruct (te_mkdir_work_err env); [done|].
  destruct (downloadFile _ _ _ _); [|done].
  destruct (String.eqb_spec (a_kind a) "video") as [->|]; [|done].
  intros Hk. by destruct Hk.
Qed.

(** X12: the upsert of ExtractMetadata overwrites width, height, duration and
    codec and nothing else: when the job succeeds on a video, the asset_meta
    row holds the probed values, and bitrate, exif and created_at are those of
    the row that was there, or NULL, NULL and the current time when there was
    none. *)
Theorem X12_extract_metadata_upsert_keeps_other_columns
    (assetID : UUID) (w : World) (a : Asset) :
  assets (w_db w) !! assetID = Some a ->
  a_kind a = "video" ->
  fst (ExtractMetadata uuid_String filepath_Join filepath_Ext p env assetID w) = NoError ->
  let w' := snd (ExtractMetadata uuid_String filepath_Join filepath_Ext p env assetID w) in
  let old := asset_meta (w_db w) !! assetID in
  asset_meta (w_db w') !! assetID
  = Some {| m_width := Some 1920;
            m_height := Some 1080;
            m_duration_seconds := Some 12050;
            m_bitrate := old ≫= m_bitrate;
            m_codec := Some "h264";
            m_exif := old ≫= m_exif;
            m_created_at := from_option m_created_at (te_now env) old |}.
Proof.
  intros Hrow Hk. cbv zeta. unfold ExtractMetadata, db_QueryRow, sql_select_asset_info_kind.
  destruct (te_asset_query_err env); [done|].
  rewrite Hrow. cbn [fmap option_fmap option_map]. rewrite Hk.
  destruct (te_mkdir_work_err env); [done|].
  destruct (downloadFile _ _ _ _); [|done].
  cbn [String.eqb Ascii.eqb Bool.eqb].
  unfold extractVideoMetadata. destruct (te_exec _ _ _); [done|].
  destruct (te_save_meta_err env); [done|].
  unfold sql_upsert_meta. rewrite Hrow. intros _. cbn.
  rewrite lookup_insert_eq. by destruct (asset_meta (w_db w) !! assetID).
Qed.

(** X13: when the job reaches the upload of the HLS directory and that upload
    fails, and the database executes the UPDATE that follows, TranscodeVideo
    returns the error "failed to upload HLS files" and the asset is in state
    failed, not ready, whatever part of the directory was uploaded. *)
Theorem X13_hls_upload_failure_marks_failed
    (assetID : UUID) (w : World) (a : Asset) :
  let workDir := filepath_Join (tempDir p) (uuid_String assetID) in
  let inputPath := filepath_Join workDir ("input" ++ filepath_Ext (a_filename a)) in
  let hlsDir := filepath_Join workDir "hls" in
  assets (w_db w) !! assetID = Some a ->
  te_asset_query_err env = false ->
  te_mkdir_work_err env = false ->
  downloadFile env (a_bucket a) (a_object_key a) (w_store w) = NoError ->
  te_mkdir_hls_err env = false ->
  transcodeToHLS filepath_Join env inputPath hlsDir = NoError ->
  (forall store,
     fst (uploadDirectory filepath_Join filepath_Ext env hlsDir (BucketVOD (minioConfig p))
            (uuid_String assetID ++ "/hls") store) <> NoError) ->
  te_mark_failed_err env = false ->
  let '(err, w') := TranscodeVideo uuid_String filepath_Join filepath_Ext p env assetID w in
  err = Error "failed to upload HLS files" /\
  assets (w_db w') !! assetID = Some (with_state (te_now env) "failed" a).
Proof.
  intros workDir inputPath hlsDir Hrow Hq Hmk Hdl Hmk2 Hhls Hup Hmark.
  unfold TranscodeVideo, db_QueryRow, sql_select_asset_info.
  rewrite Hq, Hrow. cbn [fmap option_fmap option_map]. rewrite Hmk, Hdl.
  fold workDir. fold inputPath. fold hlsDir.
  pose proof (metadata_stage_assets env assetID inputPath w) as Hassets.
  set (w1 := match extractVideoMetadata env inputPath with None => w | Some _ => _ end) in *.
  rewrite Hmk2, Hhls.
  set (w2 := match generatePoster _ _ _ with Error _ => w1 | NoError => _ end).
  assert (Hdb2 : w_db w2 = w_db w1) by (subst w2; by destruct (generatePoster _ _ _)).
  specialize (Hup (w_store w2)).
  destruct (uploadDirectory _ _ _ _ _ _ _) as [[|e] store]; [done|].
  split; [done|]. apply mark_failed_state; [done|]. cbn. by rewrite Hdb2, Hassets.
Qed.

End ProcessorProperties.

Section ProcessorFrame.

Variable uuid_String : UUID -> string.
Variable filepath_Join : string -> string -> string.
Variable filepath_Ext : string -> string.
Variable p : Processor.
Variable env : TranscodeEnv.

Lemma uploadFile_writes bucket objectKey data contentType store :
  let store' := snd (uploadFile env bucket objectKey data contentType store) in
  (forall loc, is_Some (store !! loc) -> is_Some (store' !! loc)) /\
  (forall b k, b <> bucket -> store' !! (b, k) = store !! (b, k)).
Proof.
  cbv zeta. unfold uploadFile. destruct (te_put_err env bucket objectKey); [done|].
  cbn. split.
  - intros loc Hloc. destruct (decide (loc = (bucket, objectKey))) as [->|Hne].
    + by rewrite lookup_insert_eq.
    + by rewrite lookup_insert_ne.
  - intros b k Hne. rewrite lookup_insert_ne; [done|]. by intros [= <- _].
Qed.

Lemma uploadDirectory_walk_writes entries localDir bucket prefix store :
  let store' := snd (uploadDirectory_walk filepath_Join filepath_Ext env
                       entries localDir bucket prefix store) in
  (forall loc, is_Some (store !! loc) -> is_Some (store' !! loc)) /\
  (forall b k, b <> bucket -> store' !! (b, k) = store !! (b, k)).
Proof.
  cbv zeta. revert store. induction entries as [|entry entries IH]; intros store; [done|].
  destruct entry as [| |relPath data]; cbn [uploadDirectory_walk]; [done|apply IH|].
  match goal with |- context [uploadFile env ?b ?k ?d ?c store] =>
    pose proof (uploadFile_writes b k d c store) as [Hkeep Hother];
    destruct (uploadFile env b k d c store) as [[|e] store1] end; cbn [snd] in *.
  - destruct (IH store1) as [Hkeep1 Hother1]. split.
    + intros loc Hloc. by apply Hkeep1, Hkeep.
    + intros b k Hne. by rewrite Hother1, Hother.
  - done.
Qed.

Lemma sql_set_state_rows now st id d id' :
  assets (fst (sql_set_state now st id d)) !! id' = assets d !! id' \/
  (id' = id /\ exists a, assets d !! id = Some a /\
     assets (fst (sql_set_state now st id d)) !! id' = Some (with_state now st a)).
Proof.
  unfold sql_set_state. destruct (assets d !! id) as [a|] eqn:Hrow; [|by left].
  cbn. destruct (decide (id' = id)) as [->|Hne].
  - right. split; [done|]. exists a. by rewrite lookup_insert_eq.
  - left. by rewrite lookup_insert_ne.
Qed.

Lemma mark_failed_rows id w id' :
  assets (w_db (mark_failed env id w)) !! id' = assets (w_db w) !! id' \/
  (id' = id /\ exists a, assets (w_db w) !! id = Some a /\
     assets (w_db (mark_failed env id w)) !! id' = Some (with_state (te_now env) "failed" a)).
Proof.
  unfold mark_failed, db_Exec. destruct (te_mark_failed_err env); [by left|].
  pose proof (sql_set_state_rows (te_now env) "failed" id (w_db w) id') as H.
  by destruct (sql_set_state _ _ _ _).
Qed.

(** X14: TranscodeVideo writes to the thumbnails bucket and to the VOD bucket
    only, and removes nothing: every object of any other bucket, the original
    it transcodes included, is exactly as before, and every object that
    existed still exists. *)
Theorem X14_transcode_writes_only_thumbs_and_vod (assetID : UUID) (w : World) :
  let w' := snd (TranscodeVideo uuid_String filepath_Join filepath_Ext p env assetID w) in
  (forall bucket key,
     bucket <> BucketThumbs (minioConfig p) ->
     bucket <> BucketVOD (minioConfig p) ->
     w_store w' !! (bucket, key) = w_store w !! (bucket, key)) /\
  (forall location, is_Some (w_store w !! location) -> is_Some (w_store w' !! location)).
Proof.
  cbv zeta. unfold TranscodeVideo.
  destruct (db_QueryRow _ _ _) as [[[bucket objectKey] filename]|]; [|done].
  destruct (te_mkdir_work_err env); [done|].
  destruct (downloadFile _ _ _ _); [|done].
  match goal with |- context [extractVideoMetadata env ?i] =>
    pose proof (metadata_stage_store env assetID i w) as Hstore1 end.
  set (w1 := match extractVideoMetadata env _ with None => w | Some _ => _ end) in *.
  destruct (te_mkdir_hls_err env); [cbn [snd]; by rewrite Hstore1|].
  destruct (transcodeToHLS _ _ _ _);
    [|cbn [snd]; by rewrite mark_failed_store, Hstore1].
  set (w2 := match generatePoster _ _ _ with Error _ => w1 | NoError => _ end).
  assert (H2 : (forall loc, is_Some (w_store w !! loc) -> is_Some (w_store w2 !! loc)) /\
               (forall b k, b <> BucketThumbs (minioConfig p) ->
                            w_store w2 !! (b, k) = w_store w !! (b, k))).
  { subst w2. destruct (generatePoster _ _ _); [|by rewrite Hstore1].
    cbn [w_store set_store]. rewrite <- Hstore1. apply uploadFile_writes. }
  destruct H2 as [Hkeep2 Hother2].
  unfold uploadDirectory.
  match goal with |- context [uploadDirectory_walk _ _ _ ?es ?d ?b ?px ?st] =>
    pose proof (uploadDirectory_walk_writes es d b px st) as [Hkeep3 Hother3];
    destruct (uploadDirectory_walk filepath_Join filepath_Ext env es d b px st)
      as [err store] end.
  cbn [snd] in Hkeep3, Hother3.
  assert (Hfinal : (forall b k, b <> BucketThumbs (minioConfig p) ->
                      b <> BucketVOD (minioConfig p) -> store !! (b, k) = w_store w !! (b, k)) /\
                   (forall loc, is_Some (w_store w !! loc) -> is_Some (store !! loc))).
  { split.
    - intros b k Ht Hv. by rewrite Hother3, Hother2.
    - intros loc Hloc. by apply Hkeep3, Hkeep2. }
  destruct err as [|e].
  - unfold db_Exec. destruct (te_mark_ready_err env); cbn [snd]; [done|].
    by destruct (sql_set_state _ _ _ _).
  - cbn [snd]. by rewrite mark_failed_store.
Qed.

(** X15: TranscodeVideo changes no row of table assets but its own, and its own
    only by setting the state to ready or to failed (the trigger stamping
    updated_at): kind, bucket, key, name, type, size and creation time of every
    asset are as before. *)
Theorem X15_transcode_only_sets_ready_or_failed (assetID : UUID) (w : World) (id : UUID) :
  let w' := snd (TranscodeVideo uuid_String filepath_Join filepath_Ext p env assetID w) in
  assets (w_db w') !! id = assets (w_db w) !! id \/
  (id = assetID /\
   exists a st,
     assets (w_db w) !! id = Some a /\
     (st = "ready" \/ st = "failed") /\
     assets (w_db w') !! id = Some (with_state (te_now env) st a)).
Proof.
  cbv zeta. unfold TranscodeVideo.
  destruct (db_QueryRow _ _ _) as [[[bucket objectKey] filename]|]; [|by left].
  destruct (te_mkdir_work_err env); [by left|].
  destruct (downloadFile _ _ _ _); [|by left].
  match goal with |- context [extractVideoMetadata env ?i] =>
    pose proof (metadata_stage_assets env assetID i w) as Hassets end.
  set (w1 := match extractVideoMetadata env _ with None => w | Some _ => _ end) in *.
  assert (Hfailed : forall w0, assets (w_db w0) = assets (w_db w) ->
            assets (w_db (mark_failed env assetID w0)) !! id = assets (w_db w) !! id \/
            (id = assetID /\
             exists a st,
               assets (w_db w) !! id = Some a /\
               (st = "ready" \/ st = "failed") /\
               assets (w_db (mark_failed env assetID w0)) !! id
               = Some (with_state (te_now env) st a))).
  { intros w0 H0. destruct (mark_failed_rows assetID w0 id) as [H|(-> & a & Hrow & H)].
    - left. by rewrite H, H0.
    - right. split; [done|]. exists a, "failed". rewrite <- H0. auto. }
  destruct (te_mkdir_hls_err env); [left; cbn [snd]; by rewrite Hassets|].
  destruct (transcodeToHLS _ _ _ _); [|by apply Hfailed].
  set (w2 := match generatePoster _ _ _ with Error _ => w1 | NoError => _ end).
  assert (Hdb2 : w_db w2 = w_db w1) by (subst w2; by destruct (generatePoster _ _ _)).
  destruct (uploadDirectory _ _ _ _ _ _ _) as [[|e] store].
  - unfold db_Exec. destruct (te_mark_ready_err env); cbn [snd set_store w_db].
    + left. by rewrite Hdb2, Hassets.
    + rewrite Hdb2.
      pose proof (sql_set_state_rows (te_now env) "ready" assetID (w_db w1) id) as H.
      destruct (sql_set_state _ _ _ _) as [d n]. cbn [fst snd set_db set_store w_db] in *.
      destruct H as [H|(-> & a & Hrow & H)].
      * left. by rewrite H, Hassets.
      * right. split; [done|]. exists a, "ready". rewrite <- Hassets. auto.
  - cbn [snd]. apply Hfailed. cbn. by rewrite Hdb2.
Qed.

End ProcessorFrame.

(** ** The worker pool *)

Lemma redis_BLPop_head (w : World) (value : string) (rest : list string) :
  pending_jobs w = value :: rest ->
  exists r,
    redis_BLPop JobQueueKey (w_redis w) = Some (value, r) /\
    default [] (r !! JobQueueKey) = rest /\
    forall key, key <> JobQueueKey -> r !! key = w_redis w !! key.
Proof.
  unfold pending_jobs, redis_BLPop.
  destruct (w_redis w !! JobQueueKey) as [[|v l]|]; try discriminate.
  intros [= -> ->]. destruct rest as [|v l]; eexists; (split; [reflexivity|]).
  - split; [by rewrite lookup_delete_eq|]. intros key Hne. by rewrite lookup_delete_ne.
  - split; [by rewrite lookup_insert_eq|]. intros key Hne. by rewrite lookup_insert_ne.
Qed.

Section PoolProperties.

Variable uuid_Parse : string -> option UUID.
Variable uuid_String : UUID -> string.
Variable json_Marshal : Job -> option string.
Variable json_Unmarshal : string -> option Job.
Variable filepath_Join : string -> string -> string.
Variable filepath_Ext : string -> string.
Variable imgproxy_SignURL : string -> string -> string.
Variable cfg : Config.
Variable p : Processor.

Lemma processJob_redis (env : TranscodeEnv) (job : Job) (w : World) :
  w_redis (snd (processJob uuid_Parse uuid_String filepath_Join filepath_Ext p env job w))
  = w_redis w.
Proof.
  unfold processJob. destruct (uuid_Parse (AssetID job)) as [id|]; [|done].
  destruct (String.eqb (Type_ job) "transcode"); [apply TranscodeVideo_redis|].
  destruct (String.eqb (Type_ job) "thumbnail"); [done|].
  destruct (String.eqb (Type_ job) "extract_meta"); [|done].
  apply ExtractMetadata_frame.
Qed.

(** A turn that finds a payload at the head of media:jobs:pending takes it off
    the list, whether the payload parses or not and whatever the job returns. *)
Lemma worker_turn_takes_head
    (env : TurnEnv) (w : World) (value : string) (rest : list string) :
  tn_done env = false ->
  tn_pop_err env = None ->
  pending_jobs w = value :: rest ->
  let '(turn, w') := worker_turn uuid_Parse uuid_String json_Unmarshal
                       filepath_Join filepath_Ext p env w in
  pending_jobs w' = rest /\
  (forall key, key <> JobQueueKey -> w_redis w' !! key = w_redis w !! key) /\
  match json_Unmarshal value with
  | None => turn = Discarded
  | Some job => exists err, turn = Ran job err
  end.
Proof.
  intros Hdone Hpop Hhead. unfold worker_turn. rewrite Hdone, Hpop.
  destruct (redis_BLPop_head _ _ _ Hhead) as (r & -> & Hrest & Hother).
  destruct (json_Unmarshal value) as [job|]; [|done].
  pose proof (processJob_redis (tn_job env) job (set_redis r w)) as Hredis.
  destruct (processJob _ _ _ _ _ _ _ _) as [err w2]. cbn [snd w_redis set_redis] in Hredis.
  unfold pending_jobs. rewrite Hredis. split; [done|]. split; [done|]. by exists err.
Qed.

(** X16: a worker takes the pending payloads in the order they were pushed and
    never puts one back: after as many turns as given, none of them cancelled
    or failing to pop, and no more than there are payloads, the list is what
    was behind the payloads taken, and turn by turn the worker has run the job
    of the payload, or discarded it when it does not parse, whatever the jobs
    returned. *)
Theorem X16_worker_drains_the_queue_in_order (envs : list TurnEnv) (w : World) :
  Forall (fun env => tn_done env = false /\ tn_pop_err env = None) envs ->
  (length envs <= length (pending_jobs w))%nat ->
  let '(turns, w') := worker uuid_Parse uuid_String json_Unmarshal
                        filepath_Join filepath_Ext p envs w in
  pending_jobs w' = drop (length envs) (pending_jobs w) /\
  Forall2 (fun value turn =>
             match json_Unmarshal value with
             | None => turn = Discarded
             | Some job => exists err, turn = Ran job err
             end)
          (take (length envs) (pending_jobs w)) turns.
Proof.
  revert w. induction envs as [|env envs IH]; intros w Henvs Hlen.
  { cbn. split; [done|constructor]. }
  apply Forall_cons in Henvs as [[Hdone Hpop] Henvs].
  destruct (pending_jobs w) as [|value rest] eqn:Hhead; [cbn in Hlen; lia|].
  cbn [worker length drop take].
  pose proof (worker_turn_takes_head env w value rest Hdone Hpop Hhead) as Hturn.
  destruct (worker_turn _ _ _ _ _ _ _ _) as [turn w1].
  destruct Hturn as (Hrest & _ & Hturn).
  assert (Hlen1 : (length envs <= length (pending_jobs w1))%nat)
    by (rewrite Hrest; cbn in Hlen; lia).
  specialize (IH w1 Henvs Hlen1). rewrite Hrest in IH.
  assert (Hgo : forall t, t = turn -> t <> Stopped ->
            let '(turns, w') :=
              match t with
              | Stopped => ([ Stopped ], w1)
              | _ => let '(turns, w'') := worker uuid_Parse uuid_String json_Unmarshal
                                            filepath_Join filepath_Ext p envs w1 in
                     (t :: turns, w'')
              end in
            pending_jobs w' = drop (length envs) rest /\
            Forall2 (fun value turn =>
                       match json_Unmarshal value with
                       | None => turn = Discarded
                       | Some job => exists err, turn = Ran job err
                       end)
                    (value :: take (length envs) rest) turns).
  { intros t -> Hns.
    destruct (worker _ _ _ _ _ _ envs w1) as [turns w2]. destruct IH as [IH1 IH2].
    destruct turn; [done|..]; (split; [done|]); by constructor. }
  assert (Hns : turn <> Stopped).
  { destruct (json_Unmarshal value); [destruct Hturn as [err ->]|subst turn]; done. }
  specialize (Hgo turn eq_refl Hns). by destruct turn.
Qed.

(** X17: a payload that does not parse, names an asset id that is not a UUID,
    asks for a thumbnail or carries a job type the worker does not know is
    consumed without effect: the database and the object store are unchanged
    and the payload is off the list. *)
Theorem X17_unprocessable_jobs_are_dropped
    (env : TurnEnv) (w : World) (value : string) (rest : list string) :
  tn_done env = false ->
  tn_pop_err env = None ->
  pending_jobs w = value :: rest ->
  match json_Unmarshal value with
  | None => True
  | Some job =>
      uuid_Parse (AssetID job) = None \/
      Type_ job = "thumbnail" \/
      ~ In (Type_ job) [ "transcode"; "thumbnail"; "extract_meta" ]
  end ->
  let w' := snd (worker_turn uuid_Parse uuid_String json_Unmarshal
                   filepath_Join filepath_Ext p env w) in
  w_db w' = w_db w /\ w_store w' = w_store w /\ pending_jobs w' = rest.
Proof.
  intros Hdone Hpop Hhead Hjob. cbv zeta. unfold worker_turn. rewrite Hdone, Hpop.
  destruct (redis_BLPop_head _ _ _ Hhead) as (r & -> & Hrest & Hother).
  destruct (json_Unmarshal value) as [job|]; [|done].
  assert (Hnoop : snd (processJob uuid_Parse uuid_String filepath_Join filepath_Ext p
                         (tn_job env) job (set_redis r w)) = set_redis r w).
  { unfold processJob. destruct (uuid_Parse (AssetID job)) as [id|]; [|done].
    destruct Hjob as [?|[->|Hunknown]]; [done|done|].
    destruct (String.eqb_spec (Type_ job) "transcode") as [Ht|].
    { destruct Hunknown. rewrite Ht. cbn. by left. }
    destruct (String.eqb_spec (Type_ job) "thumbnail") as [Ht|]; [done|].
    destruct (String.eqb_spec (Type_ job) "extract_meta") as [Ht|]; [|done].
    destruct Hunknown. rewrite Ht. cbn. by right; right; left. }
  destruct (processJob _ _ _ _ _ _ _ _) as [err w2]. cbn [snd] in *. by subst w2.
Qed.

(** X18: from upload completion to a playable asset.  CompleteUpload on a video
    in state uploading with an empty queue, its calls succeeding, followed by
    one turn of a worker that decodes what the API encoded: the turn runs the
    transcode job of that asset and leaves the queue empty, and if the job
    returns nil, GetAsset shows the asset ready with the HLS and poster URLs
    <VOD>/<id>/hls/master.m3u8 and <thumbs>/<id>/poster.jpg. *)
Theorem X18_completed_video_reaches_ready
    (cenv : CompleteEnv) (tenv : TurnEnv) (w : World) (req : CompleteUploadRequest)
    (id : UUID) (a : Asset) (jobData : string) :
  let job := {| ID := uuid_String (ce_job_uuid cenv);
                AssetID := uuid_String id;
                Type_ := "transcode" |} in
  uuid_Parse (req_AssetID req) = Some id ->
  uuid_Parse (uuid_String id) = Some id ->
  assets (w_db w) !! id = Some a ->
  a_kind a = "video" ->
  a_state a = "uploading" ->
  pending_jobs w = [] ->
  ce_claim_err cenv = false ->
  ce_kind_err cenv = false ->
  ce_rpush_err cenv = false ->
  json_Marshal job = Some jobData ->
  json_Unmarshal jobData = Some job ->
  tn_done tenv = false ->
  tn_pop_err tenv = None ->
  let w1 := snd (CompleteUpload uuid_Parse uuid_String json_Marshal cenv w (Some req)) in
  let '(turn, w2) := worker_turn uuid_Parse uuid_String json_Unmarshal
                       filepath_Join filepath_Ext p tenv w1 in
  exists err,
    turn = Ran job err /\
    pending_jobs w2 = [] /\
    (err = NoError ->
     exists resp,
       GetAsset uuid_Parse uuid_String imgproxy_SignURL cfg false w2 (req_AssetID req)
         = replyJSON 200 (JSONAsset resp) /\
       r_State resp = "ready" /\
       r_URLs resp !! "hls"
         = Some (PublicVODURL cfg ++ "/" ++ uuid_String id ++ "/hls/master.m3u8") /\
       r_URLs resp !! "poster"
         = Some (PublicThumbsURL cfg ++ "/" ++ uuid_String id ++ "/poster.jpg")).
Proof.
  intros job Hparse Hround Hrow Hkind Hstate Hempty Hclaim Hsel Hpush Hjson Hdecode Hdone Hpop.
  cbv zeta.
  (* the world after CompleteUpload *)
  unfold CompleteUpload. rewrite Hparse.
  unfold db_Exec. rewrite Hclaim, (sql_claim_upload_hit _ _ _ _ Hrow Hstate).
  cbn [Z.eqb]. unfold db_QueryRow at 1, sql_select_kind. rewrite Hsel.
  cbn [w_db set_db set_assets assets]. rewrite lookup_insert_eq.
  cbn [fmap option_fmap option_map with_state a_kind]. rewrite Hkind.
  cbn [String.eqb Ascii.eqb Bool.eqb snd].
  unfold enqueue_transcode. fold job. rewrite Hjson, Hpush.
  set (a1 := with_state (ce_now cenv) "processing" a).
  set (w1 := set_redis _ _).
  assert (Hhead : pending_jobs w1 = [ jobData ]).
  { subst w1. unfold pending_jobs, redis_RPush in *. cbn. rewrite lookup_insert_eq.
    by rewrite Hempty. }
  assert (Hrow1 : assets (w_db w1) !! id = Some a1).
  { subst w1. cbn. apply lookup_insert_eq. }
  (* the turn of the worker *)
  unfold worker_turn. rewrite Hdone, Hpop.
  destruct (redis_BLPop_head _ _ _ Hhead) as (r & -> & Hrest & Hother).
  rewrite Hdecode. unfold processJob. cbn [AssetID Type_ job]. rewrite Hround.
  cbn [String.eqb Ascii.eqb Bool.eqb].
  pose proof (TranscodeVideo_redis uuid_String filepath_Join filepath_Ext p
                (tn_job tenv) id (set_redis r w1)) as Hredis.
  pose proof (TranscodeVideo_success_row uuid_String filepath_Join filepath_Ext p
                (tn_job tenv) id (set_redis r w1) a1 Hrow1) as Hready.
  destruct (TranscodeVideo _ _ _ _ _ _ _) as [err w2]. cbn [fst snd] in *.
  exists err. split; [done|]. split.
  { unfold pending_jobs. by rewrite Hredis. }
  intros ->. specialize (Hready eq_refl).
  eexists. split; [apply GetAsset_row with (id := id); [exact Hparse|exact Hready]|].
  cbn. rewrite Hkind. cbn. split; [done|].
  split; [by rewrite lookup_insert_ne, lookup_insert_eq|by rewrite lookup_insert_eq].
Qed.

(** X19: the queue is first in, first out across the two services: a job that
    EnqueueJob adds while another payload is pending goes behind it, and the
    next turn of a worker takes the older payload and leaves the new job at
    the head of what remains. *)
Theorem X19_jobs_are_taken_oldest_first
    (eenv : EnqueueEnv) (tenv : TurnEnv) (w : World) (assetID : UUID) (jobType : string)
    (old : string) (rest : list string) :
  pending_jobs w = old :: rest ->
  fst (EnqueueJob uuid_String json_Marshal eenv assetID jobType w) = NoError ->
  tn_done tenv = false ->
  tn_pop_err tenv = None ->
  let w1 := snd (EnqueueJob uuid_String json_Marshal eenv assetID jobType w) in
  let '(turn, w2) := worker_turn uuid_Parse uuid_String json_Unmarshal
                       filepath_Join filepath_Ext p tenv w1 in
  exists data,
    json_Marshal {| ID := uuid_String (eq_job_uuid eenv);
                    AssetID := uuid_String assetID;
                    Type_ := jobType |} = Some data /\
    pending_jobs w1 = old :: (rest ++ [ data ])%list /\
    pending_jobs w2 = (rest ++ [ data ])%list /\
    match json_Unmarshal old with
    | None => turn = Discarded
    | Some job => exists err, turn = Ran job err
    end.
Proof.
  intros Hhead Hok Hdone Hpop. cbv zeta.
  unfold EnqueueJob in *. destruct (json_Marshal _) as [data|]; [|discriminate].
  destruct (eq_rpush_err eenv); [discriminate|]. cbn [snd].
  set (w1 := set_redis _ w).
  assert (Hhead1 : pending_jobs w1 = old :: (rest ++ [ data ])%list).
  { subst w1. unfold pending_jobs, redis_RPush in *. cbn. rewrite lookup_insert_eq.
    by rewrite Hhead. }
  unfold worker_turn. rewrite Hdone, Hpop.
  destruct (redis_BLPop_head _ _ _ Hhead1) as (r & -> & Hrest & Hother).
  destruct (json_Unmarshal old) as [job|].
  - pose proof (processJob_redis (tn_job tenv) job (set_redis r w1)) as Hredis.
    destruct (processJob _ _ _ _ _ _ _ _) as [err w2]. cbn [snd w_redis set_redis] in Hredis.
    exists data. unfold pending_jobs at 2. rewrite Hredis.
    split; [done|]. split; [done|]. split; [done|]. by exists err.
  - by exists data.
Qed.

End PoolProperties.

(** ** CompleteUpload and ListAssets, once more *)

Lemma filter_all_kept {A} (P : A -> Prop) `{!forall x, Decision (P x)} (l : list A) :
  (forall x, P x) -> filter P l = l.
Proof.
  intros HP. induction l as [|x l IH]; [done|].
  rewrite filter_cons, decide_True by done. by rewrite IH.
Qed.

Section ApiProperties2.

Variable uuid_Parse : string -> option UUID.
Variable uuid_String : UUID -> string.
Variable json_Marshal : Job -> option string.
Variable imgproxy_SignURL : string -> string -> string.
Variable cfg : Config.

(** X20: for an asset in state uploading whose kind is neither image nor video
    (audio and document are the ones the schema admits), CompleteUpload, its
    database statements going through, answers 200 with state ready, leaves
    the row in state ready and queues nothing. *)
Theorem X20_other_kinds_are_ready_at_once
    (env : CompleteEnv) (w : World) (req : CompleteUploadRequest) (id : UUID) (a : Asset) :
  uuid_Parse (req_AssetID req) = Some id ->
  assets (w_db w) !! id = Some a ->
  a_kind a <> "image" ->
  a_kind a <> "video" ->
  a_state a = "uploading" ->
  ce_claim_err env = false ->
  ce_kind_err env = false ->
  ce_ready_err env = false ->
  let '(resp, w') := CompleteUpload uuid_Parse uuid_String json_Marshal env w (Some req) in
  resp = respondJSON 200 (CompleteUploadJSON
           {| State := "ready"; Message := "Upload completed successfully" |}) /\
  assets (w_db w') !! id = Some (with_state (ce_now env) "ready" a) /\
  w_redis w' = w_redis w.
Proof.
  intros Hparse Hrow Hi Hv Hstate Hclaim Hsel Hready.
  unfold CompleteUpload. rewrite Hparse.
  unfold db_Exec. rewrite Hclaim, (sql_claim_upload_hit _ _ _ _ Hrow Hstate).
  cbn [Z.eqb]. unfold db_QueryRow, sql_select_kind. rewrite Hsel.
  cbn [w_db set_db set_assets assets]. rewrite lookup_insert_eq.
  cbn [fmap option_fmap option_map with_state a_kind].
  apply String.eqb_neq in Hi, Hv. rewrite Hi, Hv.
  split; [done|]. split; [|by rewrite mark_ready_redis].
  unfold mark_ready, db_Exec. rewrite Hready.
  erewrite sql_set_state_hit by (cbn; apply lookup_insert_eq).
  cbn. by rewrite lookup_insert_eq.
Qed.

(** X21: the answer of CompleteUpload can run ahead of the database: for an
    asset that is not a video, when the UPDATE to ready fails the handler has
    only logged it, the answer is still 200 with state ready, and the row is in
    state processing. *)
Theorem X21_ready_answer_despite_failed_update
    (env : CompleteEnv) (w : World) (req : CompleteUploadRequest) (id : UUID) (a : Asset) :
  uuid_Parse (req_AssetID req) = Some id ->
  assets (w_db w) !! id = Some a ->
  a_kind a <> "video" ->
  a_state a = "uploading" ->
  ce_claim_err env = false ->
  ce_kind_err env = false ->
  ce_ready_err env = true ->
  let '(resp, w') := CompleteUpload uuid_Parse uuid_String json_Marshal env w (Some req) in
  resp = respondJSON 200 (CompleteUploadJSON
           {| State := "ready"; Message := "Upload completed successfully" |}) /\
  assets (w_db w') !! id = Some (with_state (ce_now env) "processing" a).
Proof.
  intros Hparse Hrow Hv Hstate Hclaim Hsel Hready.
  unfold CompleteUpload. rewrite Hparse.
  unfold db_Exec. rewrite Hclaim, (sql_claim_upload_hit _ _ _ _ Hrow Hstate).
  cbn [Z.eqb]. unfold db_QueryRow, sql_select_kind. rewrite Hsel.
  cbn [w_db set_db set_assets assets]. rewrite lookup_insert_eq.
  cbn [fmap option_fmap option_map with_state a_kind].
  apply String.eqb_neq in Hv. rewrite Hv.
  unfold mark_ready, db_Exec. rewrite Hready.
  destruct (String.eqb (a_kind a) "image"); cbn; by rewrite lookup_insert_eq.
Qed.

(** X22: when every row is delivered and scanned, ListAssets lists the newest
    assets: the page has min(50, number of assets) entries, and every asset of
    the table either is on the page or was created no later than each asset
    that is. *)
Theorem X22_list_assets_returns_the_newest
    (env : ListEnv) (w : World) :
  le_query_err env = false ->
  le_rows_delivered env = None ->
  (forall id, le_scan_err env id = false) ->
  exists page,
    fst (ListAssets uuid_String imgproxy_SignURL cfg env w)
      = respondJSON 200 (AssetListJSON page (Z.of_nat (length page))) /\
    length page = Nat.min 50 (size (assets (w_db w))) /\
    forall id a,
      assets (w_db w) !! id = Some a ->
      scanned uuid_String imgproxy_SignURL cfg (join_meta (w_db w) (id, a)) ∈ page \/
      forall r, r ∈ page -> a_created_at a <= r_CreatedAt r.
Proof.
  intros Hq Hall Hscan. unfold ListAssets. rewrite Hq. cbn [fst].
  rewrite scan_rows_filter. cbn [app]. unfold rows_delivered. rewrite Hall.
  rewrite filter_all_kept by (intros row; apply Hscan).
  eexists. split; [reflexivity|].
  unfold sql_list_assets.
  set (sorted := merge_sort newer_first (map_to_list (assets (w_db w)))).
  assert (Hperm : sorted ≡ₚ map_to_list (assets (w_db w))) by apply merge_sort_Permutation.
  split.
  { rewrite !length_fmap, length_take, (Permutation_length Hperm), length_map_to_list. done. }
  intros id a Hrow.
  assert (Hin : (id, a) ∈ sorted) by (rewrite Hperm; by apply elem_of_map_to_list).
  rewrite <- (take_drop 50 sorted) in Hin. apply elem_of_app in Hin as [Hin|Hin].
  - left. by do 2 apply list_elem_of_fmap_2.
  - right. intros r Hr.
    apply list_elem_of_fmap in Hr as (row & -> & Hr).
    apply list_elem_of_fmap in Hr as (x & -> & Hx).
    assert (Hsorted : StronglySorted newer_first (take 50 sorted ++ drop 50 sorted)).
    { rewrite take_drop. apply StronglySorted_merge_sort;
        [apply newer_first_transitive|apply newer_first_total]. }
    apply (StronglySorted_app_1_elem_of _ _ _ x (id, a) Hsorted Hx Hin).
Qed.

End ApiProperties2.

(** ** Configuration *)

Lemma string_length_app (s t : string) :
  String.length (s ++ t) = (String.length s + String.length t)%nat.
Proof. induction s as [|c s IH]; simpl; [done|]. by rewrite IH. Qed.

Lemma substring_all (t : string) : substring 0 (String.length t) t = t.
Proof. induction t as [|c t IH]; simpl; [done|]. by rewrite IH. Qed.

Lemma substring_after (s t : string) :
  substring (String.length s) (String.length t) (s ++ t) = t.
Proof. induction s as [|c s IH]; simpl; [apply substring_all|done]. Qed.

Lemma cut_at_slash_clean (s : string) :
  ~ In "/"%char (list_ascii_of_string (cut_at_slash s)).
Proof.
  induction s as [|c s IH]; cbn; [tauto|].
  destruct (Ascii.eqb_spec c "/"); cbn; [tauto|]. intros [?|?]; [done|tauto].
Qed.

Lemma cut_at_slash_prefix (addr rest : string) :
  ~ In "/"%char (list_ascii_of_string addr) ->
  cut_at_slash (addr ++ String "/" rest) = addr.
Proof.
  induction addr as [|c addr IH]; simpl; [done|]. intros Hno.
  destruct (Ascii.eqb_spec c "/") as [->|_]; [tauto|]. rewrite IH; [done|tauto].
Qed.

Lemma cut_at_slash_whole (addr : string) :
  ~ In "/"%char (list_ascii_of_string addr) ->
  cut_at_slash addr = addr.
Proof.
  induction addr as [|c addr IH]; simpl; [done|]. intros Hno.
  destruct (Ascii.eqb_spec c "/") as [->|_]; [tauto|]. rewrite IH; [done|tauto].
Qed.

(** X23: whatever REDIS_URL holds, the address loadConfig hands to the Redis
    client contains no slash: it is the default redis:6379, or what follows the
    first eight bytes of the URL up to the first slash. *)
Theorem X23_redis_address_has_no_slash (redisURL : string) :
  ~ In "/"%char (list_ascii_of_string (redis_address redisURL)) /\
  (redis_address redisURL = "redis:6379" \/
   redis_address redisURL
   = cut_at_slash (substring 8 (String.length redisURL - 8) redisURL)).
Proof.
  unfold redis_address. destruct (String.eqb redisURL "").
  { split; [|by left]. cbn. intros H. repeat (destruct H as [H|H]; [discriminate|]). done. }
  destruct (8 <? String.length redisURL)%nat.
  2: { split; [|by left]. cbn. intros H. repeat (destruct H as [H|H]; [discriminate|]). done. }
  destruct (0 <? String.length _)%nat eqn:Hlen.
  - split; [apply cut_at_slash_clean|by right].
  - apply Nat.ltb_ge in Hlen.
    destruct (substring 8 _ redisURL) as [|c s]; [|cbn in Hlen; lia].
    split; [cbn; tauto|by right].
Qed.

Lemma redis_address_long (scheme tail : string) :
  String.length scheme = 8%nat ->
  tail <> "" ->
  redis_address (scheme ++ tail) = cut_at_slash tail.
Proof.
  intros Hscheme Htail. unfold redis_address.
  assert (Hlen : String.length (scheme ++ tail) = (8 + String.length tail)%nat)
    by (rewrite string_length_app; lia).
  assert (Hpos : (0 < String.length tail)%nat) by (destruct tail; [done|simpl; lia]).
  destruct (String.eqb_spec (scheme ++ tail) "") as [Heq|_].
  { rewrite Heq in Hlen. simpl in Hlen. lia. }
  rewrite Hlen.
  replace (8 <? 8 + String.length tail)%nat with true by (symmetry; apply Nat.ltb_lt; lia).
  replace (8 + String.length tail - 8)%nat with (String.length tail) by lia.
  rewrite <- Hscheme, substring_after.
  by replace (0 <? String.length tail)%nat with true by (symmetry; by apply Nat.ltb_lt).
Qed.

(** X24: loadConfig reads the address by position, not by scheme: for a URL
    made of any eight bytes, an address without a slash, a slash and anything,
    the address comes back; it also comes back when the URL ends with it and it
    is not empty.  "redis://host:6379/0" gives "host:6379". *)
Theorem X24_redis_address_of_url (scheme addr rest : string) :
  String.length scheme = 8%nat ->
  ~ In "/"%char (list_ascii_of_string addr) ->
  redis_address (scheme ++ addr ++ "/" ++ rest) = addr /\
  (addr <> "" -> redis_address (scheme ++ addr) = addr).
Proof.
  intros Hscheme Hno. split.
  - rewrite redis_address_long; [by apply cut_at_slash_prefix|done|].
    by destruct addr.
  - intros Hne. rewrite redis_address_long by done. by apply cut_at_slash_whole.
Qed.

(** Load returns a configuration exactly when DATABASE_URL, IMGPROXY_KEY
    and IMGPROXY_SALT are all set and not empty; the configuration then carries
    those values, the four fixed bucket names, and as public MinIO endpoint
    PUBLIC_MINIO_ENDPOINT, else MINIO_ENDPOINT, else localhost:9000. *)
Lemma Load_requires_database_and_imgproxy_secrets (getenv : string -> string) :
  match Load getenv with
  | LoadError _ =>
      getenv "DATABASE_URL" = "" \/ getenv "IMGPROXY_KEY" = "" \/ getenv "IMGPROXY_SALT" = ""
  | LoadOk c =>
      getenv "DATABASE_URL" <> "" /\ getenv "IMGPROXY_KEY" <> "" /\
      getenv "IMGPROXY_SALT" <> "" /\
      DatabaseURL c = getenv "DATABASE_URL" /\
      Key (ImgProxy c) = getenv "IMGPROXY_KEY" /\
      Salt (ImgProxy c) = getenv "IMGPROXY_SALT" /\
      sc_BucketOriginals (MinIO c) = "media-originals" /\
      sc_BucketImages (MinIO c) = "media-images" /\
      sc_BucketVOD (MinIO c) = "media-vod" /\
      sc_BucketThumbs (MinIO c) = "media-thumbs" /\
      PublicEndpoint (MinIO c)
      = (if String.eqb (getenv "PUBLIC_MINIO_ENDPOINT") "" then
           if String.eqb (getenv "MINIO_ENDPOINT") "" then "localhost:9000"
           else getenv "MINIO_ENDPOINT"
         else getenv "PUBLIC_MINIO_ENDPOINT")
  end.
Proof.
  unfold Load, getEnv. cbn [DatabaseURL ImgProxy Key Salt].
  destruct (String.eqb_spec (getenv "DATABASE_URL") "") as [Hd|Hd]; cbn [String.eqb]; [by left|].
  destruct (String.eqb_spec (getenv "DATABASE_URL") ""); [done|].
  destruct (String.eqb_spec (getenv "IMGPROXY_KEY") "") as [Hk|Hk]; cbn [String.eqb orb].
  { right. by left. }
  destruct (String.eqb_spec (getenv "IMGPROXY_KEY") ""); [done|].
  destruct (String.eqb_spec (getenv "IMGPROXY_SALT") "") as [Hs|Hs]; cbn [String.eqb orb].
  { right. by right. }
  destruct (String.eqb_spec (getenv "IMGPROXY_SALT") ""); [done|].
  cbn. by repeat (split; [done|]).
Qed.

(** ** Schema migrations *)

Section MigrationProperties.

Variable migrationsFS : string -> option string.

(** X25: RunMigrations is safe to run at every start: after a run that
    returned nil, a further run whose two queries go through returns nil and
    leaves the database as it is; no script is executed a second time. *)
Theorem X25_migrations_run_once (env1 env2 : MigrateEnv) (s : Schema) :
  fst (RunMigrations migrationsFS env1 s) = NoError ->
  mg_create_err env2 = false ->
  (forall version, mg_check_err env2 version = false) ->
  let s1 := snd (RunMigrations migrationsFS env1 s) in
  sm_table s1 = true /\
  1 ∈ sm_versions s1 /\
  RunMigrations migrationsFS env2 s1 = (NoError, s1).
Proof.
  intros Hok Hcreate Hcheck. cbv zeta.
  assert (H1 : sm_table (snd (RunMigrations migrationsFS env1 s)) = true /\
               1 ∈ sm_versions (snd (RunMigrations migrationsFS env1 s))).
  { revert Hok. unfold RunMigrations. destruct (mg_create_err env1); [done|].
    cbn [migrations run_migrations run_migration].
    destruct (mg_check_err env1 1); [done|].
    case_bool_decide as Hin; [done|].
    destruct (migrationsFS _); [|done].
    destruct (mg_begin_err env1 1); [done|].
    destruct (mg_exec_err env1 1); [done|].
    destruct (mg_record_err env1 1); [done|].
    destruct (mg_commit_err env1 1); [done|].
    intros _. cbn. split; [done|]. set_solver. }
  destruct H1 as [Htable Hin]. split; [done|]. split; [done|].
  destruct (snd (RunMigrations migrationsFS env1 s)) as [table versions applied].
  cbn in Htable, Hin. subst table.
  unfold RunMigrations. rewrite Hcreate. cbn [migrations run_migrations run_migration sm_table].
  rewrite Hcheck. cbn [sm_versions]. by rewrite bool_decide_true.
Qed.

(** X26: a migration is all or nothing: when RunMigrations returns an error,
    no script has been added to those applied and no version to those
    recorded. *)
Theorem X26_failed_migration_leaves_no_trace (env : MigrateEnv) (s : Schema) (e : string) :
  fst (RunMigrations migrationsFS env s) = Error e ->
  let s' := snd (RunMigrations migrationsFS env s) in
  sm_applied s' = sm_applied s /\
  forall version, version ∈ sm_versions s' -> version ∈ sm_versions s.
Proof.
  cbv zeta. unfold RunMigrations. destruct (mg_create_err env); [done|].
  cbn [migrations run_migrations run_migration].
  assert (Hsub : forall version,
            version ∈ (if sm_table s then sm_versions s else ∅) -> version ∈ sm_versions s).
  { intros version. destruct (sm_table s); [done|set_solver]. }
  destruct (mg_check_err env 1); [done|].
  case_bool_decide as Hin; [done|].
  destruct (migrationsFS _); [|done].
  destruct (mg_begin_err env 1); [done|].
  destruct (mg_exec_err env 1); [done|].
  destruct (mg_record_err env 1); [done|].
  destruct (mg_commit_err env 1); done.
Qed.

End MigrationProperties.

(** ** The further properties at work on concrete runs *)

Lemma X2_witness :
  let '(reply, w') := ex_InitUpload (ex_init_env ex_presign) ex_empty_world
                        (Some (ex_init_request "video")) in
  let id := 7%N in
  let bucket := "media-originals" in
  let key := "2025/01/02" ++ "/" ++ ex_uuid_String id ++ ex_filepath_Ext "clip.mp4" in
  assets (w_db ex_empty_world) !! id = None /\
  assets (w_db w') !! id
    = Some {| a_kind := "video"; a_state := "uploading"; a_bucket := bucket;
              a_object_key := key; a_filename := "clip.mp4";
              a_mime_type := "video/mp4"; a_size_bytes := 1048576; a_sha256 := None;
              a_created_at := 100; a_updated_at := 100 |} /\
  (forall id', id' <> id -> assets (w_db w') !! id' = assets (w_db ex_empty_world) !! id') /\
  asset_meta (w_db w') = asset_meta (w_db ex_empty_world) /\
  processing_jobs (w_db w') = processing_jobs (w_db ex_empty_world) /\
  w_redis w' = w_redis ex_empty_world /\
  w_store w' = w_store ex_empty_world /\
  exists url,
    ex_presign bucket key (15 * 60 * Second) = Some url /\
    reply_body reply
      = JSONInitUpload {| iu_AssetID := ex_uuid_String id; iu_Bucket := bucket;
                          iu_ObjectKey := key; iu_PresignedURL := url;
                          iu_Headers := {[ "Content-Type" := "video/mp4" ]};
                          iu_ExpiresIn := 900 |}.
Proof.
  exact (X2_init_upload_creates_uploading_row ex_uuid_String ex_filepath_Ext ex_storage_config
           (ex_init_env ex_presign) ex_empty_world (ex_init_request "video") eq_refl).
Defined.

Lemma X3_witness :
  let '(reply, w') := ex_InitUpload (ex_init_env ex_no_presign) ex_empty_world
                        (Some (ex_init_request "video")) in
  reply_status reply = 500 /\
  assets (w_db ex_empty_world) !! 7%N = None /\
  exists a, assets (w_db w') !! 7%N = Some a /\
            a_state a = "uploading" /\ a_kind a = "video".
Proof.
  exact (X3_init_upload_presign_failure_leaves_row ex_uuid_String ex_filepath_Ext
           ex_storage_config (ex_init_env ex_no_presign) ex_empty_world
           (ex_init_request "video") eq_refl).
Defined.

Lemma X4_witness :
  let '(reply, w1) := ex_InitUpload (ex_init_env ex_presign) ex_empty_world
                        (Some (ex_init_request "audio")) in
  exists r,
    reply_body reply = JSONInitUpload r /\
    fst (ex_CompleteUpload ex_complete_env w1 (Some {| req_AssetID := iu_AssetID r |}))
    = respondJSON 200 (CompleteUploadJSON
        {| State := if String.eqb "audio" "video" then "processing" else "ready";
           Message := "Upload completed successfully" |}).
Proof.
  exact (X4_init_then_complete ex_uuid_Parse ex_uuid_String ex_json_Marshal ex_filepath_Ext
           ex_storage_config (ex_init_env ex_presign) ex_complete_env ex_empty_world
           (ex_init_request "audio") eq_refl eq_refl eq_refl eq_refl).
Defined.

Lemma X5_witness :
  exists resp,
    ex_GetAsset false (ex_world "video" "processing") ex_id_string
      = replyJSON 200 (JSONAsset resp) /\
    r_ID resp = ex_uuid_String 7%N /\
    r_Kind resp = "video" /\
    r_State resp = "processing" /\
    (r_URLs resp = ∅ <->
       "processing" <> "ready" \/ ("video" <> "image" /\ "video" <> "video")).
Proof.
  exact (X5_get_asset_urls_only_when_ready ex_uuid_Parse ex_uuid_String ex_SignURL ex_config
           (ex_world "video" "processing") ex_id_string 7%N
           (ex_asset "video" "processing" 100) eq_refl eq_refl).
Defined.

Lemma X6_witness :
  let w := ex_world "video" "ready" in
  let w' := snd (ex_DeleteAsset (ex_delete_env true) w ex_id_string) in
  exists id a,
    ex_uuid_Parse ex_id_string = Some id /\
    assets (w_db w) !! id = Some a /\
    assets (w_db w') !! id = None /\
    asset_meta (w_db w') !! id = None /\
    Forall (fun job => pj_asset_id job <> id) (processing_jobs (w_db w')) /\
    (forall id', id' <> id ->
       assets (w_db w') !! id' = assets (w_db w) !! id' /\
       asset_meta (w_db w') !! id' = asset_meta (w_db w) !! id') /\
    (forall job, pj_asset_id job <> id ->
       job ∈ processing_jobs (w_db w') <-> job ∈ processing_jobs (w_db w)) /\
    w_store w' = (if de_storage_err (ex_delete_env true) then w_store w
                  else delete (a_bucket a, a_object_key a) (w_store w)) /\
    w_redis w' = w_redis w.
Proof.
  exact (X6_delete_asset_cascades ex_uuid_Parse (ex_delete_env true)
           (ex_world "video" "ready") ex_id_string eq_refl).
Defined.

Lemma X7_witness :
  let w' := snd (ex_DeleteAsset (ex_delete_env false) (ex_world "video" "uploading")
                   ex_id_string) in
  ex_GetAsset false w' ex_id_string = replyError 404 "Asset not found" /\
  ex_CompleteUpload ex_complete_env w' (Some {| req_AssetID := ex_id_string |})
    = (respondError 404 "Asset not found or already processed", w').
Proof.
  exact (X7_deleted_asset_is_gone ex_uuid_Parse ex_uuid_String ex_json_Marshal ex_SignURL
           ex_config (ex_delete_env false) ex_complete_env false
           (ex_world "video" "uploading") ex_id_string eq_refl eq_refl).
Defined.

Lemma X10_witness :
  let reply := ProxyImage "http://imgproxy:8080" ex_proxy_env
                 {[ "Vary" := [ "Origin" ] ]} "c2ln" "rs:fit:400:400" "c3Jj" "image/webp" in
  reply_status reply = 200 /\
  reply_body reply = Streamed "webp bytes" /\
  reply_header reply !! "Cache-Control" = Some [ "public, max-age=31536000, immutable" ] /\
  forall name, name <> "Cache-Control" ->
    reply_header reply !! name
    = match ({[ "Vary" := [ "Origin" ] ]} : gmap string (list string)) !! name,
            (<["Cache-Control" := [ "no-store" ]]>
               (<["Content-Type" := [ "image/webp" ]]> ∅) : gmap string (list string))
              !! name with
      | Some mine, Some theirs => Some (mine ++ theirs)%list
      | Some mine, None => Some mine
      | None, theirs => theirs
      end.
Proof.
  apply (X10_proxy_image_forces_immutable_caching "http://imgproxy:8080" ex_proxy_env
           {[ "Vary" := [ "Origin" ] ]} "c2ln" "rs:fit:400:400" "c3Jj" "image/webp" 200
           (<["Cache-Control" := [ "no-store" ]]> (<["Content-Type" := [ "image/webp" ]]> ∅))
           "webp bytes"); [discriminate|discriminate|discriminate|reflexivity|reflexivity].
Defined.

Lemma X12_witness :
  let w := ex_world "video" "processing" in
  let w' := snd (ex_ExtractMetadata ex_all_good 7%N w) in
  let old := asset_meta (w_db w) !! 7%N in
  asset_meta (w_db w') !! 7%N
  = Some {| m_width := Some 1920;
            m_height := Some 1080;
            m_duration_seconds := Some 12050;
            m_bitrate := old ≫= m_bitrate;
            m_codec := Some "h264";
            m_exif := old ≫= m_exif;
            m_created_at := from_option m_created_at 300 old |}.
Proof.
  exact (X12_extract_metadata_upsert_keeps_other_columns ex_uuid_String ex_filepath_Join
           ex_filepath_Ext (New None) ex_all_good 7%N (ex_world "video" "processing")
           (ex_asset "video" "processing" 100) eq_refl eq_refl eq_refl).
Defined.

Lemma X13_witness :
  let '(err, w') := ex_TranscodeVideo ex_vod_down 7%N (ex_world "video" "processing") in
  err = Error "failed to upload HLS files" /\
  assets (w_db w') !! 7%N = Some (with_state 300 "failed" (ex_asset "video" "processing" 100)).
Proof.
  apply (X13_hls_upload_failure_marks_failed ex_uuid_String ex_filepath_Join ex_filepath_Ext
           (New None) ex_vod_down 7%N (ex_world "video" "processing")
           (ex_asset "video" "processing" 100)); try reflexivity.
  intros store. discriminate.
Defined.

Lemma X16_witness :
  let w := ex_queue_world "video" "processing" [ ex_payload; "not json"; "later" ] in
  let envs := [ ex_turn_env ex_all_good; ex_turn_env ex_all_good ] in
  let '(turns, w') := ex_worker envs w in
  pending_jobs w' = drop (length envs) (pending_jobs w) /\
  Forall2 (fun value turn =>
             match ex_json_Unmarshal value with
             | None => turn = Discarded
             | Some job => exists err, turn = Ran job err
             end)
          (take (length envs) (pending_jobs w)) turns.
Proof.
  apply (X16_worker_drains_the_queue_in_order ex_uuid_Parse ex_uuid_String ex_json_Unmarshal
           ex_filepath_Join ex_filepath_Ext (New None)
           [ ex_turn_env ex_all_good; ex_turn_env ex_all_good ]
           (ex_queue_world "video" "processing" [ ex_payload; "not json"; "later" ])).
  - repeat constructor.
  - vm_compute. lia.
Defined.

Lemma X17_witness :
  let w := ex_queue_world "video" "processing" [ "not json"; ex_payload ] in
  let w' := snd (ex_worker_turn (ex_turn_env ex_all_good) w) in
  w_db w' = w_db w /\ w_store w' = w_store w /\ pending_jobs w' = [ ex_payload ].
Proof.
  exact (X17_unprocessable_jobs_are_dropped ex_uuid_Parse ex_uuid_String ex_json_Unmarshal
           ex_filepath_Join ex_filepath_Ext (New None) (ex_turn_env ex_all_good)
           (ex_queue_world "video" "processing" [ "not json"; ex_payload ])
           "not json" [ ex_payload ] eq_refl eq_refl eq_refl I).
Defined.

Lemma X18_witness :
  let w1 := snd (ex_CompleteUpload ex_complete_env (ex_world "video" "uploading") ex_request) in
  let '(turn, w2) := ex_worker_turn (ex_turn_env ex_all_good) w1 in
  exists err,
    turn = Ran ex_transcode_job err /\
    pending_jobs w2 = [] /\
    (err = NoError ->
     exists resp,
       ex_GetAsset false w2 ex_id_string = replyJSON 200 (JSONAsset resp) /\
       r_State resp = "ready" /\
       r_URLs resp !! "hls"
         = Some ("http://vod.local" ++ "/" ++ ex_uuid_String 7%N ++ "/hls/master.m3u8") /\
       r_URLs resp !! "poster"
         = Some ("http://thumbs.local" ++ "/" ++ ex_uuid_String 7%N ++ "/poster.jpg")).
Proof.
  exact (X18_completed_video_reaches_ready ex_uuid_Parse ex_uuid_String ex_json_Marshal
           ex_json_Unmarshal ex_filepath_Join ex_filepath_Ext ex_SignURL ex_config (New None)
           ex_complete_env (ex_turn_env ex_all_good) (ex_world "video" "uploading")
           {| req_AssetID := ex_id_string |} 7%N (ex_asset "video" "uploading" 100) ex_payload
           eq_refl eq_refl eq_refl eq_refl eq_refl eq_refl eq_refl eq_refl eq_refl
           eq_refl eq_refl eq_refl eq_refl).
Defined.

Lemma X19_witness :
  let w := ex_queue_world "video" "processing" [ ex_payload ] in
  let w1 := snd (EnqueueJob ex_uuid_String ex_json_Marshal ex_enqueue_env 7%N "extract_meta" w) in
  let '(turn, w2) := ex_worker_turn (ex_turn_env ex_all_good) w1 in
  exists data,
    ex_json_Marshal ex_extract_job = Some data /\
    pending_jobs w1 = ex_payload :: ([] ++ [ data ])%list /\
    pending_jobs w2 = ([] ++ [ data ])%list /\
    match ex_json_Unmarshal ex_payload with
    | None => turn = Discarded
    | Some job => exists err, turn = Ran job err
    end.
Proof.
  exact (X19_jobs_are_taken_oldest_first ex_uuid_Parse ex_uuid_String ex_json_Marshal
           ex_json_Unmarshal ex_filepath_Join ex_filepath_Ext (New None)
           ex_enqueue_env (ex_turn_env ex_all_good)
           (ex_queue_world "video" "processing" [ ex_payload ]) 7%N "extract_meta"
           ex_payload [] eq_refl eq_refl eq_refl eq_refl).
Defined.

Lemma X20_witness :
  let '(resp, w') := ex_CompleteUpload ex_complete_env (ex_world "document" "uploading")
                       ex_request in
  resp = respondJSON 200 (CompleteUploadJSON
           {| State := "ready"; Message := "Upload completed successfully" |}) /\
  assets (w_db w') !! 7%N = Some (with_state 200 "ready" (ex_asset "document" "uploading" 100)) /\
  w_redis w' = w_redis (ex_world "document" "uploading").
Proof.
  apply (X20_other_kinds_are_ready_at_once ex_uuid_Parse ex_uuid_String ex_json_Marshal
           ex_complete_env (ex_world "document" "uploading")
           {| req_AssetID := ex_id_string |} 7%N (ex_asset "document" "uploading" 100));
    try reflexivity; discriminate.
Defined.

Lemma X21_witness :
  let '(resp, w') := ex_CompleteUpload (ex_complete_env_with true false)
                       (ex_world "image" "uploading") ex_request in
  resp = respondJSON 200 (CompleteUploadJSON
           {| State := "ready"; Message := "Upload completed successfully" |}) /\
  assets (w_db w') !! 7%N
    = Some (with_state 200 "processing" (ex_asset "image" "uploading" 100)).
Proof.
  apply (X21_ready_answer_despite_failed_update ex_uuid_Parse ex_uuid_String ex_json_Marshal
           (ex_complete_env_with true false) (ex_world "image" "uploading")
           {| req_AssetID := ex_id_string |} 7%N (ex_asset "image" "uploading" 100));
    try reflexivity; discriminate.
Defined.

Lemma X22_witness :
  let w := ex_catalogue 3 in
  exists page,
    fst (ex_ListAssets ex_list_env w)
      = respondJSON 200 (AssetListJSON page (Z.of_nat (length page))) /\
    length page = Nat.min 50 (size (assets (w_db w))) /\
    forall id a,
      assets (w_db w) !! id = Some a ->
      scanned (fun u => pretty u) ex_SignURL ex_config (join_meta (w_db w) (id, a)) ∈ page \/
      forall r, r ∈ page -> a_created_at a <= r_CreatedAt r.
Proof.
  exact (X22_list_assets_returns_the_newest (fun u => pretty u) ex_SignURL ex_config
           ex_list_env (ex_catalogue 3) eq_refl eq_refl (fun _ => eq_refl)).
Defined.

Lemma X24_witness :
  redis_address ("redis://" ++ "redis:6379" ++ "/" ++ "0") = "redis:6379" /\
  ("redis:6379" <> "" -> redis_address ("redis://" ++ "redis:6379") = "redis:6379").
Proof.
  apply (X24_redis_address_of_url "redis://" "redis:6379" "0"); [reflexivity|].
  cbn. intros H. repeat (destruct H as [H|H]; [discriminate|]). exact H.
Defined.

Lemma X25_witness :
  let s1 := snd (RunMigrations ex_migrationsFS (ex_migrate_env false) ex_blank_schema) in
  sm_table s1 = true /\
  1 ∈ sm_versions s1 /\
  RunMigrations ex_migrationsFS (ex_migrate_env true) s1 = (NoError, s1).
Proof.
  exact (X25_migrations_run_once ex_migrationsFS (ex_migrate_env false) (ex_migrate_env true)
           ex_blank_schema eq_refl eq_refl (fun _ => eq_refl)).
Defined.

Lemma X26_witness :
  let s' := snd (RunMigrations ex_migrationsFS (ex_migrate_env true) ex_blank_schema) in
  sm_applied s' = sm_applied ex_blank_schema /\
  forall version, version ∈ sm_versions s' -> version ∈ sm_versions ex_blank_schema.
Proof.
  exact (X26_failed_migration_leaves_no_trace ex_migrationsFS (ex_migrate_env true)
           ex_blank_schema "failed to execute migration" eq_refl).
Defined.

Lemma X28_witness :
  let '(resp, w') := ex_CompleteUpload (ex_complete_env_with false true)
                       (ex_world "video" "uploading") ex_request in
  resp = respondJSON 200 (CompleteUploadJSON
           {| State := "processing"; Message := "Upload completed successfully" |}) /\
  a_state <$> assets (w_db w') !! 7%N = Some "processing" /\
  w_redis w' = w_redis (ex_world "video" "uploading").
Proof.
  exact (video_upload_push_failure_is_swallowed ex_uuid_Parse ex_uuid_String ex_json_Marshal
           (ex_complete_env_with false true) (ex_world "video" "uploading")
           {| req_AssetID := ex_id_string |} 7%N (ex_asset "video" "uploading" 100)
           eq_refl eq_refl eq_refl eq_refl eq_refl eq_refl eq_refl).
Defined.

Lemma X29_witness :
  let w1 := snd (ex_CompleteUpload ex_complete_env (ex_world "video" "uploading") ex_request) in
  let w2 := snd (ex_TranscodeVideo ex_all_good 7%N w1) in
  ex_CompleteUpload ex_complete_env w2 ex_request
  = (respondError 404 "Asset not found or already processed", w2).
Proof.
  exact (repeated_completion_after_a_worker_run ex_uuid_Parse ex_uuid_String ex_json_Marshal
           ex_filepath_Join ex_filepath_Ext (New None) ex_complete_env ex_complete_env
           ex_all_good 7%N (ex_world "video" "uploading") ex_request eq_refl eq_refl).
Defined.

Lemma X30_witness :
  a_state <$> assets (w_db (snd (ex_TranscodeVideo ex_all_good 7%N
                                   (ex_world "video" "processing")))) !! 7%N
  = Some "ready".
Proof.
  exact (TranscodeVideo_success_means_ready ex_uuid_String ex_filepath_Join ex_filepath_Ext
           (New None) ex_all_good 7%N (ex_world "video" "processing") eq_refl).
Defined.
